(** * multi-scraper: the extraction engine of [scraper.js] and its result cache

    A shallow embedding of class [MultiSiteScraper] (src/scraper.js) and of
    the HTTP routes that call it (server.js).

    Conventions of the embedding.
    - A JavaScript string is a [string] holding its UTF-8 bytes.  Every
      character the code inspects ('/', 'p', "data:image", "http", "{query}",
      the ASCII classes of the two regular expressions) is ASCII, and no byte
      of a multi-byte UTF-8 sequence is ASCII, so matching on bytes agrees
      with matching on UTF-16 code units.
    - A value that is [string | null] in the code is an [option string];
      where [undefined] can also occur (the [src] property of an element) the
      three-way [JsVal] is used.
    - A thrown [Error] is [Throw msg], [msg] being its [message].
    - The headless browser, the clock and the DOM are external: one call of
      a method that uses them ([init], [close], [search],
      [getProductDetails]) reads them from an [Env].
    - Objects and arrays live in a heap and are handled through references,
      so that what the cache stores and what a caller receives can be
      compared by identity. *)

From Stdlib Require Import Ascii String ZArith.
From stdpp Require Import base gmap strings list pretty.

Local Open Scope string_scope.

(** ** JavaScript values and truthiness *)

Inductive JsVal : Type :=
  | JUndefined
  | JNull
  | JStr (s : string).

(** [Boolean(s)] for a string: only the empty string is falsy. *)
Definition truthy_str (s : string) : bool :=
  match s with
  | EmptyString => false
  | String _ _ => true
  end.

(** [Boolean(v)] for [v : string | null]. *)
Definition truthy (v : option string) : bool :=
  match v with
  | Some s => truthy_str s
  | None => false
  end.

(** [Boolean(v)] for [v : string | null | undefined]. *)
Definition truthy_val (v : JsVal) : bool :=
  match v with
  | JStr s => truthy_str s
  | JNull | JUndefined => false
  end.

(** [a || b]. *)
Definition js_or (a b : JsVal) : JsVal :=
  if truthy_val a then a else b.

Definition of_nullable (v : option string) : JsVal :=
  match v with
  | Some s => JStr s
  | None => JNull
  end.

(** ** String primitives used by the scraper *)

(** [s.startsWith(p)]. *)
Fixpoint startsWith (s p : string) {struct p} : bool :=
  match p with
  | EmptyString => true
  | String c p' =>
      match s with
      | EmptyString => false
      | String d s' => if Ascii.eqb c d then startsWith s' p' else false
      end
  end.

(** [s.includes(p)]. *)
Fixpoint includes (s p : string) : bool :=
  if startsWith s p then true
  else match s with
       | EmptyString => false
       | String _ s' => includes s' p
       end.

Fixpoint drop_str (n : nat) (s : string) : string :=
  match n with
  | O => s
  | S n' => match s with
            | EmptyString => EmptyString
            | String _ s' => drop_str n' s'
            end
  end.

(** [s.replace(pat, rep)] for a string pattern: only the first occurrence is
    replaced.  [rep] is inserted literally; the one caller passes the output
    of [encodeURIComponent], which contains no '$'. *)
Fixpoint replace_first (s pat rep : string) : string :=
  if startsWith s pat then rep +:+ drop_str (String.length pat) s
  else match s with
       | EmptyString => EmptyString
       | String c s' => String c (replace_first s' pat rep)
       end.

(** *** [String.prototype.trim] *)

Definition of_bytes (l : list nat) : string :=
  foldr (λ n s, String (Ascii.ascii_of_nat n) s) EmptyString l.

(** The UTF-8 encodings of the code points that are WhiteSpace or
    LineTerminator in ECMAScript. *)
Definition white_space : list string :=
  map of_bytes
    [ [9]; [10]; [11]; [12]; [13]; [32];
      [194; 160];                                   (* U+00A0 *)
      [225; 154; 128];                              (* U+1680 *)
      [226; 128; 128]; [226; 128; 129]; [226; 128; 130];
      [226; 128; 131]; [226; 128; 132]; [226; 128; 133];
      [226; 128; 134]; [226; 128; 135]; [226; 128; 136];
      [226; 128; 137]; [226; 128; 138];             (* U+2000 .. U+200A *)
      [226; 128; 168]; [226; 128; 169];             (* U+2028, U+2029 *)
      [226; 128; 175];                              (* U+202F *)
      [226; 129; 159];                              (* U+205F *)
      [227; 128; 128];                              (* U+3000 *)
      [239; 187; 191] ].                            (* U+FEFF *)

Fixpoint strip_one (ws : list string) (s : string) : option string :=
  match ws with
  | [] => None
  | w :: ws' => if startsWith s w then Some (drop_str (String.length w) s)
                else strip_one ws' s
  end.

Fixpoint trimStart_fuel (fuel : nat) (ws : list string) (s : string) : string :=
  match fuel with
  | O => s
  | S fuel' => match strip_one ws s with
               | Some s' => trimStart_fuel fuel' ws s'
               | None => s
               end
  end.

Definition trimStart (s : string) : string :=
  trimStart_fuel (String.length s) white_space s.

Definition trimEnd (s : string) : string :=
  String.rev (trimStart_fuel (String.length s) (map String.rev white_space)
                             (String.rev s)).

Definition trim (s : string) : string := trimEnd (trimStart s).

(** *** [encodeURIComponent] *)

Definition is_upper (c : ascii) : bool :=
  let n := Ascii.nat_of_ascii c in (65 <=? n)%nat && (n <=? 90)%nat.
Definition is_lower (c : ascii) : bool :=
  let n := Ascii.nat_of_ascii c in (97 <=? n)%nat && (n <=? 122)%nat.
Definition is_digit (c : ascii) : bool :=
  let n := Ascii.nat_of_ascii c in (48 <=? n)%nat && (n <=? 57)%nat.

Definition uri_unreserved (c : ascii) : bool :=
  is_upper c || is_lower c || is_digit c
  || bool_decide (c ∈ ["-"; "_"; "."; "!"; "~"; "*"; "'"; "("; ")"]%char).

Definition hex_digit (n : nat) : ascii :=
  match n with
  | 0 => "0" | 1 => "1" | 2 => "2" | 3 => "3" | 4 => "4" | 5 => "5"
  | 6 => "6" | 7 => "7" | 8 => "8" | 9 => "9" | 10 => "A" | 11 => "B"
  | 12 => "C" | 13 => "D" | 14 => "E" | _ => "F"
  end%char.

Definition percent_encode (c : ascii) : string :=
  let n := Ascii.nat_of_ascii c in
  String "%" (String (hex_digit (n / 16)) (String (hex_digit (n mod 16)) "")).

(** Every byte outside the unreserved set is written as %XX.  A string
    that is well-formed UTF-8 has no lone surrogate, so the [URIError] of the
    JavaScript function cannot arise. *)
Fixpoint encodeURIComponent (s : string) : string :=
  match s with
  | EmptyString => EmptyString
  | String c s' =>
      (if uri_unreserved c then String c "" else percent_encode c)
      +:+ encodeURIComponent s'
  end.

(** ** Regular expressions of the form  atoms ( class+ )

    Both expressions of the product-code inference are a fixed sequence of
    single-character atoms followed by one capture group [([A-Z0-9]+)] that
    ends the expression.  [String.prototype.match] without the [g] flag
    returns the leftmost match; the quantifier is greedy and nothing follows
    it, so group 1 is the longest run of class characters after the atoms. *)

Record Regex : Type := MkRegex {
  re_atoms : list (ascii → bool);
  re_class : ascii → bool
}.

Fixpoint match_atoms (atoms : list (ascii → bool)) (s : string) : option string :=
  match atoms with
  | [] => Some s
  | a :: atoms' =>
      match s with
      | EmptyString => None
      | String c s' => if a c then match_atoms atoms' s' else None
      end
  end.

Fixpoint take_while (cls : ascii → bool) (s : string) : string :=
  match s with
  | EmptyString => EmptyString
  | String c s' => if cls c then String c (take_while cls s') else EmptyString
  end.

(** A match that starts at the first character of [s]; the result is group 1. *)
Definition match_here (re : Regex) (s : string) : option string :=
  match match_atoms (re_atoms re) s with
  | Some rest =>
      let g := take_while (re_class re) rest in
      if truthy_str g then Some g else None
  | None => None
  end.

(** [s.match(re)], reduced to group 1 of the match ([codeMatch[1]]);
    [None] is the [null] of a failed match. *)
Fixpoint regex_match (re : Regex) (s : string) : option string :=
  match match_here re s with
  | Some g => Some g
  | None => match s with
            | EmptyString => None
            | String _ s' => regex_match re s'
            end
  end.

(** A literal character under the [i] flag. *)
Definition ci (c : ascii) : ascii → bool :=
  λ d, Ascii.eqb d c
       || (is_lower c && Ascii.eqb d (Ascii.ascii_of_nat (Ascii.nat_of_ascii c - 32)))
       || (is_upper c && Ascii.eqb d (Ascii.ascii_of_nat (Ascii.nat_of_ascii c + 32))).

(** [[A-Z0-9]] under the [i] flag. *)
Definition alnum_ci (c : ascii) : bool := is_upper c || is_lower c || is_digit c.

(** [/\/p([A-Z0-9]+)/i] *)
Definition re_slash_p : Regex :=
  MkRegex [ci "/"; ci "p"]%char alnum_ci.

(** [/product[\/\-]([A-Z0-9]+)/i] *)
Definition re_product : Regex :=
  MkRegex (map ci ["p"; "r"; "o"; "d"; "u"; "c"; "t"]%char
           ++ [λ c, Ascii.eqb c "/" || Ascii.eqb c "-"]%char)
          alnum_ci.

(** ** Results of fallible code *)

(** [Ok v] is a normal completion, [Throw msg] a thrown [Error] whose
    [message] is [msg]. *)
Inductive Res (A : Type) : Type :=
  | Ok (v : A)
  | Throw (msg : string).
Arguments Ok {A} v.
Arguments Throw {A} msg.

Definition res_bind {A B : Type} (f : A → Res B) (r : Res A) : Res B :=
  match r with
  | Ok v => f v
  | Throw msg => Throw msg
  end.

#[global] Instance Res_ret : MRet Res := λ A v, Ok v.
#[global] Instance Res_bind : MBind Res := λ A B f r, res_bind f r.

(** [l.map(f)] where [f] may throw: the first exception ends the loop. *)
Fixpoint map_res {A B : Type} (f : A → Res B) (l : list A) : Res (list B) :=
  match l with
  | [] => Ok []
  | x :: l' => y ← f x; ys ← map_res f l'; Ok (y :: ys)
  end.

(** ** The document as the in-page code sees it *)

Module DOM.

(** An element: its text, its attributes, and its [src] property
    ([undefined] on elements that have none, the resolved URL or the empty
    string on an [img]). *)
Record Element : Type := MkElement {
  textContent : string;
  attributes : list (string * string);
  src : JsVal
}.

(** [el.getAttribute(name)]: [null] when the attribute is missing. *)
Fixpoint lookup_attr (attrs : list (string * string)) (name : string)
  : option string :=
  match attrs with
  | [] => None
  | (k, v) :: attrs' => if String.eqb k name then Some v
                        else lookup_attr attrs' name
  end.

Definition getAttribute (el : Element) (name : string) : option string :=
  lookup_attr (attributes el) name.

(** An element together with the query over its descendants.  A query
    throws on a selector that is not valid. *)
Record Node : Type := MkNode {
  element : Element;
  querySelector : string → Res (option Element)
}.

(** The loaded page: [window.location.origin] and
    [document.querySelectorAll], in document order. *)
Record Document : Type := MkDocument {
  origin : string;
  querySelectorAll : string → Res (list Node)
}.

(** [document.querySelector(sel)]: the first match in document order. *)
Definition document_querySelector (d : Document) (sel : string)
  : Res (option Element) :=
  nodes ← querySelectorAll d sel; Ok (element <$> head nodes).

End DOM.

(** ** Data model *)

Module SelectorSet.
Record t : Type := Mk {
  productCard : string;
  title : string;
  price : string;
  image : string;
  link : string;
  brand : option string;
  rating : option string
}.
End SelectorSet.

Module DetailSelectorSet.
Record t : Type := Mk {
  title : string;
  price : string;
  description : option string;
  brand : option string;
  rating : option string;
  images : option string;
  availability : option string
}.
End DetailSelectorSet.

Module SiteConfig.
Record t : Type := Mk {
  name : string;
  searchUrl : string;
  selectors : SelectorSet.t
}.
End SiteConfig.

Module ProductSummary.
Record t : Type := Mk {
  productCode : option string;
  title : option string;
  brand : option string;
  price : option string;
  rating : option string;
  image : option string;
  url : option string
}.
End ProductSummary.

(** ** The in-page function of [search] (scraper.js, lines 99-149) *)

Section InPageSearch.

Variable selectors : SelectorSet.t.
Variable location_origin : string.
Variable card : DOM.Node.

Definition getTextContent (selector : string) : Res (option string) :=
  el ← DOM.querySelector card selector;
  Ok (match el with
      | Some e => Some (trim (DOM.textContent e))
      | None => None
      end).

Definition getAttribute (selector attr : string) : Res (option string) :=
  el ← DOM.querySelector card selector;
  Ok (match el with
      | Some e => DOM.getAttribute e attr
      | None => None
      end).

(** [!image || image.includes('data:image')] *)
Definition needs_fallback (image : option string) : bool :=
  match image with
  | Some s => negb (truthy_str s) || includes s "data:image"
  | None => true
  end.

(** Lines 116-120. *)
Definition extractImage : Res (option string) :=
  image ← getAttribute (SelectorSet.image selectors) "src";
  if needs_fallback image
  then getAttribute (SelectorSet.image selectors) "data-src"
  else Ok image.

(** Lines 122-126. *)
Definition extractLink : Res (option string) :=
  link ← getAttribute (SelectorSet.link selectors) "href";
  Ok (match link with
      | Some l => if truthy_str l && negb (startsWith l "http")
                  then Some (location_origin +:+ l)
                  else Some l
      | None => None
      end).

(** [selectors.brand ? getTextContent(selectors.brand) : null] *)
Definition optionalText (selector : option string) : Res (option string) :=
  match selector with
  | Some s => if truthy_str s then getTextContent s else Ok None
  | None => Ok None
  end.

End InPageSearch.

(** Lines 132-137: [link.match(re1) || link.match(re2)], then group 1. *)
Definition inferProductCode (link : option string) : option string :=
  match link with
  | Some l =>
      if truthy_str l then
        match regex_match re_slash_p l with
        | Some g => Some g
        | None => regex_match re_product l
        end
      else None
  | None => None
  end.

(** The callback of [productCards.map]. *)
Definition extractCard (selectors : SelectorSet.t) (location_origin : string)
    (card : DOM.Node) : Res ProductSummary.t :=
  title ← getTextContent card (SelectorSet.title selectors);
  price ← getTextContent card (SelectorSet.price selectors);
  image ← extractImage selectors card;
  link ← extractLink selectors location_origin card;
  brand ← optionalText card (SelectorSet.brand selectors);
  rating ← optionalText card (SelectorSet.rating selectors);
  Ok (ProductSummary.Mk (inferProductCode link) title brand price rating
                        image link).

(** [p => p.title && p.price] *)
Definition has_title_and_price (p : ProductSummary.t) : bool :=
  truthy (ProductSummary.title p) && truthy (ProductSummary.price p).

Definition extractProducts (selectors : SelectorSet.t) (doc : DOM.Document)
    : Res (list ProductSummary.t) :=
  productCards ← DOM.querySelectorAll doc (SelectorSet.productCard selectors);
  products ← map_res (extractCard selectors (DOM.origin doc)) productCards;
  Ok (filter (λ p, has_title_and_price p = true) products).

(** ** The in-page function of [getProductDetails] (lines 191-216) *)

Module DetailFields.
Record t : Type := Mk {
  title : option string;
  price : option string;
  description : option string;
  brand : option string;
  rating : option string;
  images : list JsVal;
  availability : option string
}.
End DetailFields.

Section InPageDetails.

Variable doc : DOM.Document.

Definition detailText (selector : string) : Res (option string) :=
  el ← DOM.document_querySelector doc selector;
  Ok (match el with
      | Some e => Some (trim (DOM.textContent e))
      | None => None
      end).

(** [img.src || img.getAttribute('data-src')] *)
Definition imageSource (img : DOM.Node) : JsVal :=
  js_or (DOM.src (DOM.element img))
        (of_nullable (DOM.getAttribute (DOM.element img) "data-src")).

(** Lines 202-205; [.filter(Boolean)] keeps the truthy values. *)
Definition getAllImages (selector : string) : Res (list JsVal) :=
  images ← DOM.querySelectorAll doc selector;
  Ok (filter (λ v, truthy_val v = true) (map imageSource images)).

Definition optionalDetailText (selector : option string)
  : Res (option string) :=
  match selector with
  | Some s => if truthy_str s then detailText s else Ok None
  | None => Ok None
  end.

Definition extractDetails (selectors : DetailSelectorSet.t)
  : Res DetailFields.t :=
  title ← detailText (DetailSelectorSet.title selectors);
  price ← detailText (DetailSelectorSet.price selectors);
  description ← optionalDetailText (DetailSelectorSet.description selectors);
  brand ← optionalDetailText (DetailSelectorSet.brand selectors);
  rating ← optionalDetailText (DetailSelectorSet.rating selectors);
  images ← match DetailSelectorSet.images selectors with
           | Some s => if truthy_str s then getAllImages s else Ok []
           | None => Ok []
           end;
  availability ← optionalDetailText (DetailSelectorSet.availability selectors);
  Ok (DetailFields.Mk title price description brand rating images
                      availability).

End InPageDetails.

Module SearchResult.
(** [results] is a reference to the array of products. *)
Record t : Type := Mk {
  site : string;
  query : string;
  page : Z;
  totalResults : nat;
  results : nat;
  cached : bool;
  timestamp : string
}.

(** [{ ...r, cached: b }] *)
Definition with_cached (r : t) (b : bool) : t :=
  Mk (site r) (query r) (page r) (totalResults r) (results r) b
     (timestamp r).
End SearchResult.

Module ProductDetail.
Record t : Type := Mk {
  site : string;
  url : string;
  fields : DetailFields.t;
  timestamp : string
}.
End ProductDetail.

Module CacheEntry.
(** [{ data, timestamp }]: [data] is a reference to a SearchResult object,
    [timestamp] the [Date.now()] of the store, in milliseconds. *)
Record t : Type := Mk {
  data : nat;
  timestamp : Z
}.
End CacheEntry.

(** ** The scraper object, the heap and the browser *)

(** Calls made to the browser driver and to the console, in order. *)
Inductive Event : Type :=
  | EvLaunch
  | EvCloseBrowser
  | EvNewPage
  | EvSetViewport (width height : Z)
  | EvSetUserAgent (ua : string)
  | EvGoto (url : string) (timeout : Z)
  | EvWaitForSelector (selector : string) (timeout : Z)
  | EvSetTimeout (ms : Z)
  | EvEvaluate
  | EvClosePage
  | EvConsoleError (label msg : string).

(** [browser] is [this.browser !== null]; [cache] is [this.cache];
    [objects] and [arrays] are the heap, a reference being an index;
    [log] records the calls made so far. *)
Record State : Type := MkState {
  browser : bool;
  cache : gmap string CacheEntry.t;
  objects : list SearchResult.t;
  arrays : list (list ProductSummary.t);
  log : list Event
}.

(** [new MultiSiteScraper()] *)
Definition constructor : State := MkState false ∅ [] [] [].

(** [this.cacheTimeout] *)
Definition cacheTimeout : Z := 60 * 60 * 1000.

(** What one call reads from outside: the clock, the driver's outcome for
    each call, and the page that a URL loads.  The DOM of a loaded page is
    taken as settled: [waitForSelector] and [evaluate] see the same
    document. *)
Record Env : Type := MkEnv {
  now_lookup : Z;                      (* Date.now() in getFromCache *)
  now_store : Z;                       (* Date.now() in setCache *)
  now_iso : string;                    (* new Date().toISOString() *)
  launch : Res unit;                   (* puppeteer.launch *)
  newPage : Res unit;
  setViewport : Res unit;
  setUserAgent : Res unit;
  goto : string → Res unit;
  loaded : string → DOM.Document;
  timeoutMessage : string → string;    (* message of the TimeoutError *)
  evaluateFault : option string;       (* the page crashed or navigated away *)
  closePage : Res unit;                (* page.close() *)
  closeBrowser : Res unit              (* this.browser.close() *)
}.

(** Computations over the state that may throw. *)
Definition M (A : Type) : Type := State → Res A * State.

Definition ret {A : Type} (v : A) : M A := λ st, (Ok v, st).
Definition throw {A : Type} (msg : string) : M A := λ st, (Throw msg, st).
Definition bind {A B : Type} (m : M A) (f : A → M B) : M B :=
  λ st, match m st with
        | (Ok v, st') => f v st'
        | (Throw msg, st') => (Throw msg, st')
        end.

Declare Scope scraper_scope.
Delimit Scope scraper_scope with M.
Notation "'let*' x := m 'in' k" := (bind m (λ x, k))
  (at level 10, x binder, m at level 100, k at level 200) : scraper_scope.
Notation "m ;; k" := (bind m (λ _, k))
  (at level 100, k at level 200, right associativity) : scraper_scope.

(** [try { body } catch (error) { handler(error.message) }] *)
Definition try_catch {A : Type} (body : M A) (handler : string → M A) : M A :=
  λ st, match body st with
        | (Ok v, st') => (Ok v, st')
        | (Throw msg, st') => handler msg st'
        end.

(** [try { body } finally { cleanup }]: an exception of [cleanup] replaces
    the completion of [body]. *)
Definition try_finally {A : Type} (body : M A) (cleanup : M unit) : M A :=
  λ st, match body st with
        | (r, st1) =>
            match cleanup st1 with
            | (Ok _, st2) => (r, st2)
            | (Throw msg, st2) => (Throw msg, st2)
            end
        end.

Definition emit (ev : Event) : M unit :=
  λ st, (Ok (), MkState (browser st) (cache st) (objects st) (arrays st)
                        (log st ++ [ev])).

Definition lift {A : Type} (r : Res A) : M A := λ st, (r, st).

(** A call to the driver: logged, then it completes as the driver says. *)
Definition driver (ev : Event) (outcome : Res unit) : M unit :=
  (emit ev;; lift outcome)%M.

Definition set_browser (b : bool) : M unit :=
  λ st, (Ok (), MkState b (cache st) (objects st) (arrays st) (log st)).

Definition set_cache (c : gmap string CacheEntry.t) : M unit :=
  λ st, (Ok (), MkState (browser st) c (objects st) (arrays st) (log st)).

(** Allocation of an object literal: the reference is new. *)
Definition new_object (o : SearchResult.t) : M nat :=
  λ st, (Ok (length (objects st)),
         MkState (browser st) (cache st) (objects st ++ [o]) (arrays st)
                 (log st)).

Definition new_array (a : list ProductSummary.t) : M nat :=
  λ st, (Ok (length (arrays st)),
         MkState (browser st) (cache st) (objects st) (arrays st ++ [a])
                 (log st)).

(** Reading the fields of an object.  References come from [new_object], so
    the second case is not reached from the states of [reachable] (see
    [reachable_cache_ok]). *)
Definition read_object (ref : nat) : M SearchResult.t :=
  λ st, match objects st !! ref with
        | Some o => (Ok o, st)
        | None => (Throw "invalid reference", st)
        end.

(** ** Methods of [MultiSiteScraper] *)

Local Open Scope scraper_scope.

(** Lines 10-23. *)
Definition init (env : Env) : M unit :=
  λ st, if browser st then (Ok (), st)
        else (driver EvLaunch (launch env);; set_browser true) st.

(** Lines 25-30.  When [this.browser.close()] rejects, the assignment of
    line 28 is not reached: the error goes to the caller and the scraper
    still holds the browser. *)
Definition close (env : Env) : M unit :=
  λ st, if browser st
        then (driver EvCloseBrowser (closeBrowser env);; set_browser false) st
        else (Ok (), st).

(** Lines 32-34.  [page] is an integer; its decimal form is what the
    template literal writes for every integer below 10^21 in absolute value. *)
Definition getCacheKey (siteConfig : SiteConfig.t) (query : string) (page : Z)
    : string :=
  SiteConfig.name siteConfig +:+ ":" +:+ query +:+ ":" +:+ pretty page.

(** Lines 36-43; [now] is the [Date.now()] of line 38. *)
Definition getFromCache (now : Z) (key : string) : M (option nat) :=
  λ st, match cache st !! key with
        | Some entry =>
            if bool_decide (now - CacheEntry.timestamp entry < cacheTimeout)%Z
            then (Ok (Some (CacheEntry.data entry)), st)
            else (set_cache (delete key (cache st));; ret None) st
        | None => (set_cache (delete key (cache st));; ret None) st
        end.

(** Lines 45-50. *)
Definition setCache (now : Z) (key : string) (data : nat) : M unit :=
  λ st, set_cache (<[key := CacheEntry.Mk data now]> (cache st)) st.

(** Lines 52-54. *)
Definition clearCache : M unit := set_cache ∅.

Definition userAgent : string :=
  "Mozilla/5.0 (Windows NT 10.0; Win64; x64) AppleWebKit/537.36 (KHTML, like Gecko) Chrome/120.0.0.0 Safari/537.36".

(** [browserPage.waitForSelector(selector, { timeout })] on a settled page:
    it resolves when an element matches and rejects with a TimeoutError when
    none does. *)
Definition waitForSelector (env : Env) (doc : DOM.Document)
    (selector : string) (timeout : Z) : M unit :=
  emit (EvWaitForSelector selector timeout);;
  match DOM.querySelectorAll doc selector with
  | Ok (_ :: _) => ret ()
  | Ok [] => throw (timeoutMessage env selector)
  | Throw msg => throw msg
  end.

(** [browserPage.evaluate(fn, args)], [run] being [fn(args)] in the page. *)
Definition evaluate {A : Type} (env : Env) (run : Res A) : M A :=
  emit EvEvaluate;;
  match evaluateFault env with
  | Some msg => throw msg
  | None => lift run
  end.

(** Line 89. *)
Definition buildSearchUrl (siteConfig : SiteConfig.t) (query : string) : string :=
  replace_first (SiteConfig.searchUrl siteConfig) "{query}"
                (encodeURIComponent query).

(** The [try] block of [search], lines 84-164. *)
Definition search_try (env : Env) (siteConfig : SiteConfig.t) (query : string)
    (page : Z) (cacheKey : string) : M nat :=
  driver (EvSetViewport 1920 1080) (setViewport env);;
  driver (EvSetUserAgent userAgent) (setUserAgent env);;
  let searchUrl := buildSearchUrl siteConfig query in
  driver (EvGoto searchUrl 30000) (goto env searchUrl);;
  let doc := loaded env searchUrl in
  waitForSelector env doc
    (SelectorSet.productCard (SiteConfig.selectors siteConfig)) 15000;;
  emit (EvSetTimeout 2000);;
  let* products :=
    evaluate env (extractProducts (SiteConfig.selectors siteConfig) doc) in
  let* array := new_array products in
  let* result :=
    new_object (SearchResult.Mk (SiteConfig.name siteConfig) query page
                                (length products) array false (now_iso env)) in
  setCache (now_store env) cacheKey result;;
  ret result.

(** The [catch] block of [search], lines 166-168. *)
Definition search_catch (siteConfig : SiteConfig.t) (message : string) : M nat :=
  emit (EvConsoleError "Scraping error:" message);;
  throw ("Failed to scrape " +:+ SiteConfig.name siteConfig +:+ ": "
         +:+ message).

(** Lines 72-172.  The result is a reference to the returned object. *)
Definition search (env : Env) (siteConfig : SiteConfig.t) (query : string)
    (page : Z) : M nat :=
  let cacheKey := getCacheKey siteConfig query page in
  let* cached := getFromCache (now_lookup env) cacheKey in
  match cached with
  | Some ref =>
      let* stored := read_object ref in
      new_object (SearchResult.with_cached stored true)
  | None =>
      init env;;
      driver EvNewPage (newPage env);;
      try_finally
        (try_catch (search_try env siteConfig query page cacheKey)
                   (search_catch siteConfig))
        (driver EvClosePage (closePage env))
  end.

(** Lines 180-231. *)
Definition getProductDetails (env : Env) (siteConfig : SiteConfig.t)
    (productUrl : string) (detailSelectors : DetailSelectorSet.t)
    : M ProductDetail.t :=
  init env;;
  driver EvNewPage (newPage env);;
  try_finally
    (try_catch
       (driver (EvSetViewport 1920 1080) (setViewport env);;
        driver (EvSetUserAgent userAgent) (setUserAgent env);;
        driver (EvGoto productUrl 30000) (goto env productUrl);;
        emit (EvSetTimeout 2000);;
        let* product :=
          evaluate env (extractDetails (loaded env productUrl) detailSelectors) in
        ret (ProductDetail.Mk (SiteConfig.name siteConfig) productUrl product
                              (now_iso env)))
       (λ message,
          emit (EvConsoleError "Product details error:" message);;
          throw ("Failed to get product details: " +:+ message)))
    (driver EvClosePage (closePage env)).

(** * Notions used to state the properties *)

(** ** Outcomes of one call *)

(** A state differs from another in its cache only. *)
Definition same_but_cache (st st' : State) : Prop :=
  browser st' = browser st ∧ objects st' = objects st
  ∧ arrays st' = arrays st ∧ log st' = log st.

(** What the [try] block of [search] computes from the driver's answers,
    when the state is left aside: the products, or the first exception. *)
Definition scrape (env : Env) (siteConfig : SiteConfig.t) (query : string)
    : Res (list ProductSummary.t) :=
  let selectors := SiteConfig.selectors siteConfig in
  let doc := loaded env (buildSearchUrl siteConfig query) in
  _ ← setViewport env;
  _ ← setUserAgent env;
  _ ← goto env (buildSearchUrl siteConfig query);
  found ← DOM.querySelectorAll doc (SelectorSet.productCard selectors);
  match found with
  | [] => Throw (timeoutMessage env (SelectorSet.productCard selectors))
  | _ :: _ =>
      match evaluateFault env with
      | Some msg => Throw msg
      | None => extractProducts selectors doc
      end
  end.

Definition no_fresh_entry (now : Z) (key : string) (st : State) : Prop :=
  ∀ e, cache st !! key = Some e →
       ¬ (now - CacheEntry.timestamp e < cacheTimeout)%Z.

Definition stored_result (env : Env) (siteConfig : SiteConfig.t)
    (query : string) (page : Z) (products : list ProductSummary.t)
    (array : nat) : SearchResult.t :=
  SearchResult.Mk (SiteConfig.name siteConfig) query page (length products)
                  array false (now_iso env).

(** [await this.init()] as the driver answers it. *)
Definition launched (env : Env) (st : State) : Res unit :=
  if browser st then Ok () else launch env.

Definition failure_message (siteConfig : SiteConfig.t) (cause : string) : string :=
  "Failed to scrape " +:+ SiteConfig.name siteConfig +:+ ": " +:+ cause.

(** The completion and the final state of a call that misses the cache, by
    cases on the driver's answers; [evs] are the calls it logged. *)
Definition after_miss (env : Env) (siteConfig : SiteConfig.t) (query : string)
    (page : Z) (st : State) (evs : list Event) : Res nat * State :=
  let key := getCacheKey siteConfig query page in
  let emptied := delete key (cache st) in
  let untouched b :=
    MkState b emptied (objects st) (arrays st) (log st ++ evs) in
  match launched env st with
  | Throw msg => (Throw msg, untouched (browser st))
  | Ok _ =>
      match newPage env with
      | Throw msg => (Throw msg, untouched true)
      | Ok _ =>
          match scrape env siteConfig query with
          | Ok products =>
              (match closePage env with
               | Ok _ => Ok (length (objects st))
               | Throw msg => Throw msg
               end,
               MkState true
                 (<[key := CacheEntry.Mk (length (objects st)) (now_store env)]>
                    emptied)
                 (objects st
                  ++ [stored_result env siteConfig query page products
                                    (length (arrays st))])
                 (arrays st ++ [products])
                 (log st ++ evs))
          | Throw cause =>
              (match closePage env with
               | Ok _ => Throw (failure_message siteConfig cause)
               | Throw msg => Throw msg
               end,
               untouched true)
          end
      end
  end.

(** ** Well-formed results and reachable states *)

(** Both fields are strings, and not the empty one. *)
Definition complete (p : ProductSummary.t) : Prop :=
  is_Some (ProductSummary.title p) ∧ is_Some (ProductSummary.price p)
  ∧ ProductSummary.title p ≠ Some "" ∧ ProductSummary.price p ≠ Some "".

(** The object behind [ref] and the array behind its [results]. *)
Definition points_to (st : State) (ref : nat) (o : SearchResult.t)
    (ps : list ProductSummary.t) : Prop :=
  objects st !! ref = Some o ∧ arrays st !! SearchResult.results o = Some ps.

Definition well_formed_result (st : State) (ref : nat) : Prop :=
  ∃ o ps, points_to st ref o ps
          ∧ SearchResult.totalResults o = length ps
          ∧ Forall complete ps.

(** What the cache holds: a well-formed result whose flag is still false. *)
Definition stored_ok (st : State) (ref : nat) : Prop :=
  ∃ o ps, points_to st ref o ps
          ∧ SearchResult.totalResults o = length ps
          ∧ Forall complete ps
          ∧ SearchResult.cached o = false.

Definition cache_ok (st : State) : Prop :=
  ∀ k e, cache st !! k = Some e → stored_ok st (CacheEntry.data e).

(** The states a scraper object goes through: it is constructed, and then
    its methods are called, in any order and against any environment. *)
Inductive reachable : State → Prop :=
  | reach_constructor : reachable constructor
  | reach_init env st r st' :
      reachable st → init env st = (r, st') → reachable st'
  | reach_close env st r st' :
      reachable st → close env st = (r, st') → reachable st'
  | reach_clearCache st r st' :
      reachable st → clearCache st = (r, st') → reachable st'
  | reach_search env siteConfig query page st r st' :
      reachable st → search env siteConfig query page st = (r, st') →
      reachable st'
  | reach_getProductDetails env siteConfig productUrl detailSelectors st r st' :
      reachable st →
      getProductDetails env siteConfig productUrl detailSelectors st = (r, st') →
      reachable st'.

(** ** Example data: the shop of the end-to-end scenario *)

Module Acme.

Definition leaf (text : string) (attrs : list (string * string)) : DOM.Element :=
  DOM.MkElement text attrs JUndefined.

(** A card with a title, a price, a lazily loaded image and a link. *)
Definition drill : DOM.Node :=
  DOM.MkNode (leaf "" [])
    (λ sel, Ok (if String.eqb sel ".t" then Some (leaf " Drill " [])
                else if String.eqb sel ".p" then Some (leaf "9.99" [])
                else if String.eqb sel "img" then
                  Some (leaf "" [("src", "data:image/gif;base64,R0lGOD");
                                 ("data-src", "https://cdn.acme.test/d.png")])
                else if String.eqb sel "a" then
                  Some (leaf "" [("href", "/product/AB12")])
                else None)).

(** A card with a title only. *)
Definition saw : DOM.Node :=
  DOM.MkNode (leaf "" [])
    (λ sel, Ok (if String.eqb sel ".t" then Some (leaf "Saw" []) else None)).

Definition page_of (cards : list DOM.Node) : DOM.Document :=
  DOM.MkDocument "https://acme.test"
    (λ sel, Ok (if String.eqb sel ".card" then cards else [])).

Definition selectors : SelectorSet.t :=
  SelectorSet.Mk ".card" ".t" ".p" "img" "a" None None.

Definition siteConfig : SiteConfig.t :=
  SiteConfig.Mk "Acme" "https://acme.test/s?q={query}" selectors.

(** A driver that answers every call, in front of a page with [cards];
    the clock reads [now] throughout the call. *)
Definition env (now : Z) (cards : list DOM.Node) : Env :=
  MkEnv now now "2026-02-16T12:00:00.000Z" (Ok ()) (Ok ()) (Ok ()) (Ok ())
        (λ _, Ok ()) (λ _, page_of cards)
        (λ sel, "Waiting for selector `" +:+ sel +:+ "` failed")
        None (Ok ()) (Ok ()).

(** The same, but the navigation fails. *)
Definition offline (now : Z) : Env :=
  MkEnv now now "2026-02-16T12:00:00.000Z" (Ok ()) (Ok ()) (Ok ()) (Ok ())
        (λ _, Throw "net::ERR_NAME_NOT_RESOLVED") (λ _, page_of [])
        (λ sel, "Waiting for selector `" +:+ sel +:+ "` failed")
        None (Ok ()) (Ok ()).

(** A driver whose browser does not close. *)
Definition stuck : Env :=
  MkEnv 0 0 "2026-02-16T12:00:00.000Z" (Ok ()) (Ok ()) (Ok ()) (Ok ())
        (λ _, Ok ()) (λ _, page_of [])
        (λ sel, "Waiting for selector `" +:+ sel +:+ "` failed")
        None (Ok ()) (Throw "Protocol error: Connection closed").

(** The scraper after its first call: ("Acme", "drill", 1) searched at
    instant 0 on a page with the two cards. *)
Definition after_first : State :=
  (search (env 0 [drill; saw]) siteConfig "drill" 1 constructor).2.

End Acme.

(** ** Sharing, failures, qualifying cards, images *)

(** The reading of "cache entries are never shared by reference with
    callers": no reference that [search] returns is the [data] of an entry. *)
Definition never_shared : Prop :=
  ∀ st env siteConfig query page ref st',
    reachable st →
    search env siteConfig query page st = (Ok ref, st') →
    ∀ k e, cache st' !! k = Some e → CacheEntry.data e ≠ ref.

(** The ways the [try] block of [search] can fail, with the message of what
    was thrown: the page cannot be set up, the navigation fails, no element
    matches the product-card selector within its time (or the selector is
    rejected), the evaluation in the page is lost, or the in-page function
    throws. *)
Inductive scrape_failure (env : Env) (siteConfig : SiteConfig.t)
    (query : string) : string → Prop :=
  | viewport_failure cause :
      setViewport env = Throw cause →
      scrape_failure env siteConfig query cause
  | userAgent_failure cause :
      setViewport env = Ok () →
      setUserAgent env = Throw cause →
      scrape_failure env siteConfig query cause
  | navigation_failure cause :
      setViewport env = Ok () →
      setUserAgent env = Ok () →
      goto env (buildSearchUrl siteConfig query) = Throw cause →
      scrape_failure env siteConfig query cause
  | selector_failure cause :
      setViewport env = Ok () →
      setUserAgent env = Ok () →
      goto env (buildSearchUrl siteConfig query) = Ok () →
      DOM.querySelectorAll (loaded env (buildSearchUrl siteConfig query))
        (SelectorSet.productCard (SiteConfig.selectors siteConfig))
      = Throw cause →
      scrape_failure env siteConfig query cause
  | selector_timeout :
      setViewport env = Ok () →
      setUserAgent env = Ok () →
      goto env (buildSearchUrl siteConfig query) = Ok () →
      DOM.querySelectorAll (loaded env (buildSearchUrl siteConfig query))
        (SelectorSet.productCard (SiteConfig.selectors siteConfig))
      = Ok [] →
      scrape_failure env siteConfig query
        (timeoutMessage env
           (SelectorSet.productCard (SiteConfig.selectors siteConfig)))
  | evaluation_lost card cards cause :
      setViewport env = Ok () →
      setUserAgent env = Ok () →
      goto env (buildSearchUrl siteConfig query) = Ok () →
      DOM.querySelectorAll (loaded env (buildSearchUrl siteConfig query))
        (SelectorSet.productCard (SiteConfig.selectors siteConfig))
      = Ok (card :: cards) →
      evaluateFault env = Some cause →
      scrape_failure env siteConfig query cause
  | evaluation_throws card cards cause :
      setViewport env = Ok () →
      setUserAgent env = Ok () →
      goto env (buildSearchUrl siteConfig query) = Ok () →
      DOM.querySelectorAll (loaded env (buildSearchUrl siteConfig query))
        (SelectorSet.productCard (SiteConfig.selectors siteConfig))
      = Ok (card :: cards) →
      evaluateFault env = None →
      extractProducts (SiteConfig.selectors siteConfig)
        (loaded env (buildSearchUrl siteConfig query))
      = Throw cause →
      scrape_failure env siteConfig query cause.

(** The driver answers every call of a [search] for [query]. *)
Definition driver_ok (env : Env) (siteConfig : SiteConfig.t) (query : string)
    (st : State) : Prop :=
  launched env st = Ok () ∧ newPage env = Ok ()
  ∧ setViewport env = Ok () ∧ setUserAgent env = Ok ()
  ∧ goto env (buildSearchUrl siteConfig query) = Ok ()
  ∧ evaluateFault env = None ∧ closePage env = Ok ().

(** The card is read without exception and lacks a title or a price. *)
Definition unqualified (selectors : SelectorSet.t) (location_origin : string)
    (card : DOM.Node) : Prop :=
  ∃ p, extractCard selectors location_origin card = Ok p
       ∧ has_title_and_price p = false.

(** [card.querySelector(selector)?.getAttribute(name)], [null] when no
    element matches. *)
Definition attribute_of (el : option DOM.Element) (name : string)
    : option string :=
  match el with
  | Some e => DOM.getAttribute e name
  | None => None
  end.

(** A placeholder in the words of the specification, a "data:image..."
    value: a string that begins with "data:image". *)
Definition placeholder (s : string) : bool := startsWith s "data:image".

(** The image in the words of the specification: the [src] attribute of
    [el], and the [data-src] attribute exactly when [src] is absent or is a
    placeholder. *)
Definition imageBySpec (el : option DOM.Element) : option string :=
  match attribute_of el "src" with
  | Some s => if placeholder s then attribute_of el "data-src" else Some s
  | None => attribute_of el "data-src"
  end.

(** The reading of "falls back to data-src exactly when src is absent or is
    a placeholder data:image value": the image that [search] extracts from a
    card is the one of [imageBySpec]. *)
Definition image_as_specified : Prop :=
  ∀ selectors card el,
    DOM.querySelector card (SelectorSet.image selectors) = Ok el →
    extractImage selectors card = Ok (imageBySpec el).


(** A gallery of three [img] elements: the first two have a [src], the
    third has only a [data-src]. *)
Module Gallery.

Definition img (src : string) (attrs : list (string * string)) : DOM.Node :=
  DOM.MkNode (DOM.MkElement "" attrs (JStr src)) (λ _, Ok None).

Definition first : DOM.Node :=
  img "https://acme.test/a.png" [("src", "/a.png")].
Definition second : DOM.Node :=
  img "https://acme.test/b.png" [("src", "/b.png")].
Definition third : DOM.Node :=
  img "" [("data-src", "https://cdn.acme.test/c.png")].

Definition doc : DOM.Document :=
  DOM.MkDocument "https://acme.test"
    (λ sel, Ok (if String.eqb sel ".gallery img" then [first; second; third]
                else [])).

End Gallery.

(** ** The calls of one request *)

(** What happens between the opening of a page and its closing: the calls
    to the page, the settle delay and the report of a caught error. *)
Definition inside_page (ev : Event) : bool :=
  match ev with
  | EvSetViewport _ _ | EvSetUserAgent _ | EvGoto _ _ | EvWaitForSelector _ _
  | EvSetTimeout _ | EvEvaluate | EvConsoleError _ _ => true
  | EvLaunch | EvCloseBrowser | EvNewPage | EvClosePage => false
  end.

(** The calls of a request that does not find its answer in the cache:
    the launch when the browser is not up, then the page, opened, used for
    [evs] and closed; the request stops at the first of the launch and the
    opening that fails. *)
Definition request_calls (env : Env) (st : State) (evs : list Event)
    : list Event :=
  (if browser st then [] else [EvLaunch])
  ++ match launched env st with
     | Throw _ => []
     | Ok _ => EvNewPage :: match newPage env with
                            | Throw _ => []
                            | Ok _ => evs ++ [EvClosePage]
                            end
     end.

(** No character of [s] is ':'. *)
Fixpoint no_colon (s : string) : bool :=
  match s with
  | EmptyString => true
  | String c s' => negb (Ascii.eqb c ":") && no_colon s'
  end.

(** ** Predicates on strings *)

(** The character [c] does not occur in [s]. *)
Fixpoint lacks (c : ascii) (s : string) : bool :=
  match s with
  | EmptyString => true
  | String d s' => negb (Ascii.eqb d c) && lacks c s'
  end.

(** Every character of [s] satisfies [p]. *)
Fixpoint all_chars (p : ascii → bool) (s : string) : bool :=
  match s with
  | EmptyString => true
  | String c s' => p c && all_chars p s'
  end.

(** [mid] is matched, character by character, by the atoms. *)
Fixpoint atoms_accept (atoms : list (ascii → bool)) (mid : string) : bool :=
  match atoms, mid with
  | [], EmptyString => true
  | a :: atoms', String c mid' => a c && atoms_accept atoms' mid'
  | _, _ => false
  end.

(** [rest] does not go on with a character of the class. *)
Definition stops (cls : ascii → bool) (rest : string) : bool :=
  match rest with
  | EmptyString => true
  | String c _ => negb (cls c)
  end.

(** Tab, line feed, vertical tab, form feed, carriage return, space. *)
Definition is_blank (c : ascii) : bool :=
  bool_decide (Ascii.nat_of_ascii c ∈ [9; 10; 11; 12; 13; 32]).

(** ** Example data: more cards *)

Module Shop.

(** A card that holds nothing but a link with a relative address. *)
Definition linked : DOM.Node :=
  DOM.MkNode (Acme.leaf "" [])
    (λ sel, Ok (if String.eqb sel "a"
                then Some (Acme.leaf "" [("href", "/product/42")])
                else None)).


(** A card whose title is made of blanks. *)
Definition untitled : DOM.Node :=
  DOM.MkNode (Acme.leaf "" [])
    (λ sel, Ok (if String.eqb sel ".t" then Some (Acme.leaf "   " [])
                else if String.eqb sel ".p" then Some (Acme.leaf "9.99" [])
                else None)).

(** A card that holds nothing but an [img] element with the attributes
    [attrs]. *)
Definition picture (attrs : list (string * string)) : DOM.Node :=
  DOM.MkNode (Acme.leaf "" [])
    (λ sel, Ok (if String.eqb sel "img" then Some (Acme.leaf "" attrs)
                else None)).

(** An image that is loaded at once; [data-src] holds a smaller one. *)
Definition plain : DOM.Node :=
  picture [("src", "https://cdn.acme.test/real.png");
           ("data-src", "https://cdn.acme.test/thumb.png")].

(** An image whose address mentions "data:image" in its query string, and
    that has no [data-src]. *)
Definition tagged : DOM.Node :=
  picture [("src", "https://cdn.acme.test/real.png?alt=data:image")].

(** A lazily loaded image whose inline stand-in spells the scheme in upper
    case. *)
Definition shouting : DOM.Node :=
  picture [("src", "DATA:image/gif;base64,R0lGOD");
           ("data-src", "https://cdn.acme.test/d.png")].

(** An image whose [src] attribute is empty. *)
Definition unset : DOM.Node :=
  picture [("src", ""); ("data-src", "https://cdn.acme.test/d.png")].

End Shop.

(** A printable ASCII character other than the space. *)
Definition is_graphic (c : ascii) : bool :=
  let n := Ascii.nat_of_ascii c in (33 <=? n)%nat && (n <=? 126)%nat.

(** ** Outcomes of [getProductDetails] *)

(** What the [try] block of [getProductDetails] computes from the driver's
    answers: the fields read in the page, or the first exception. *)
Definition detail_outcome (env : Env) (productUrl : string)
    (detailSelectors : DetailSelectorSet.t) : Res DetailFields.t :=
  _ ← setViewport env;
  _ ← setUserAgent env;
  _ ← goto env productUrl;
  match evaluateFault env with
  | Some msg => Throw msg
  | None => extractDetails (loaded env productUrl) detailSelectors
  end.

(** The completion and the final state of a call of [getProductDetails], by
    cases on the driver's answers; [evs] are the calls it logged. *)
Definition after_details (env : Env) (siteConfig : SiteConfig.t)
    (productUrl : string) (detailSelectors : DetailSelectorSet.t)
    (st : State) (evs : list Event) : Res ProductDetail.t * State :=
  let final b :=
    MkState b (cache st) (objects st) (arrays st) (log st ++ evs) in
  match launched env st with
  | Throw msg => (Throw msg, final (browser st))
  | Ok _ =>
      match newPage env with
      | Throw msg => (Throw msg, final true)
      | Ok _ =>
          (match closePage env with
           | Throw msg => Throw msg
           | Ok _ =>
               match detail_outcome env productUrl detailSelectors with
               | Ok fields =>
                   Ok (ProductDetail.Mk (SiteConfig.name siteConfig) productUrl
                                        fields (now_iso env))
               | Throw cause =>
                   Throw ("Failed to get product details: " +:+ cause)
               end
           end,
           final true)
      end
  end.


(** ** Example data: a product page *)

Module ProductPage.

(** A page with two headings, a price and a gallery of three images. *)
Definition doc : DOM.Document :=
  DOM.MkDocument "https://acme.test"
    (λ sel,
       Ok (if String.eqb sel "h1" then
             [DOM.MkNode (Acme.leaf "  DeWalt Drill " []) (λ _, Ok None);
              DOM.MkNode (Acme.leaf "Related" []) (λ _, Ok None)]
           else if String.eqb sel ".price" then
             [DOM.MkNode (Acme.leaf "119.98" []) (λ _, Ok None)]
           else if String.eqb sel ".gallery img" then
             [Gallery.first; Gallery.second; Gallery.third]
           else [])).

Definition detailSelectors : DetailSelectorSet.t :=
  DetailSelectorSet.Mk "h1" ".price" None None None (Some ".gallery img") None.

Definition productUrl : string := "https://acme.test/product/AB12".

(** A driver that answers every call, in front of [page]. *)
Definition env (page : DOM.Document) : Env :=
  MkEnv 0 0 "2026-02-16T12:00:00.000Z" (Ok ()) (Ok ()) (Ok ()) (Ok ())
        (λ _, Ok ()) (λ _, page) (λ sel, sel) None (Ok ()) (Ok ()).

(** A driver whose navigation times out. *)
Definition slow : Env :=
  MkEnv 0 0 "2026-02-16T12:00:00.000Z" (Ok ()) (Ok ()) (Ok ()) (Ok ())
        (λ _, Throw "Navigation timeout of 30000 ms exceeded") (λ _, doc)
        (λ sel, sel) None (Ok ()) (Ok ()).


End ProductPage.

(** ** The HTTP routes that call the scraper (server.js)

    The body of a request is taken as the JSON that the routes document:
    every field may be missing, and a field that is present has the
    documented type (a string, an integer page, an object of selectors). *)

Module Server.

Record RawSelectors : Type := MkRawSelectors {
  productCard : option string;
  title : option string;
  price : option string;
  image : option string;
  link : option string;
  brand : option string;
  rating : option string
}.

Record RawSiteConfig : Type := MkRawSiteConfig {
  name : option string;
  searchUrl : option string;
  selectors : option RawSelectors
}.

(** [req.body] of POST /api/scrape/search. *)
Record SearchBody : Type := MkSearchBody {
  siteConfig : option RawSiteConfig;
  query : option string;
  page : option Z
}.

(** What [res.json] is given: an error, an error with the message of what
    was thrown, the object behind a reference, or a success message. *)
Inductive Body : Type :=
  | BError (error : string)
  | BFailure (error message : string)
  | BResult (ref : nat)
  | BSuccess (message : string).

Record Response : Type := MkResponse {
  status : nat;
  body : Body
}.

(** The middleware [authenticate]: [true] when it calls [next()].
    [API_KEY] is [process.env.API_KEY], [apiKey] the x-api-key header. *)
Definition authenticate (API_KEY apiKey : option string) : bool :=
  negb (negb (truthy apiKey) || negb (bool_decide (apiKey = API_KEY))).

Definition unauthorized : Response :=
  MkResponse 401 (BError "Unauthorized: Invalid API key").

(** A loop [for (const f of fields) if (!object[f]) return ...]: the first
    name whose value is falsy. *)
Fixpoint first_missing (fields : list (string * bool)) : option string :=
  match fields with
  | [] => None
  | (f, present) :: rest => if present then first_missing rest else Some f
  end.

Definition requiredFields (c : RawSiteConfig) : list (string * bool) :=
  [("name", truthy (name c)); ("searchUrl", truthy (searchUrl c));
   ("selectors", bool_decide (is_Some (selectors c)))].

Definition requiredSelectors (s : RawSelectors) : list (string * bool) :=
  [("productCard", truthy (productCard s)); ("title", truthy (title s));
   ("price", truthy (price s)); ("image", truthy (image s));
   ("link", truthy (link s))].

Definition no_selectors : RawSelectors :=
  MkRawSelectors None None None None None None None.

(** The site configuration as [search] reads it.  On a body that passed
    the checks every required field is present, and no default is used. *)
Definition toSelectorSet (s : RawSelectors) : SelectorSet.t :=
  SelectorSet.Mk (default "" (productCard s)) (default "" (title s))
                 (default "" (price s)) (default "" (image s))
                 (default "" (link s)) (brand s) (rating s).

Definition toSiteConfig (c : RawSiteConfig) : SiteConfig.t :=
  SiteConfig.Mk (default "" (name c)) (default "" (searchUrl c))
                (toSelectorSet (default no_selectors (selectors c))).

(** The checks of the search route: the message of the 400 response, or
    the arguments of [scraper.search]; [page] defaults to 1. *)
Definition validate (b : SearchBody) : string + (SiteConfig.t * string * Z) :=
  match siteConfig b with
  | Some c =>
      if truthy (query b) then
        match first_missing (requiredFields c) with
        | Some f => inl ("Missing required field in siteConfig: " +:+ f)
        | None =>
            match first_missing
                    (requiredSelectors (default no_selectors (selectors c)))
            with
            | Some f => inl ("Missing required selector: " +:+ f)
            | None => inr (toSiteConfig c, default "" (query b),
                           default 1%Z (page b))
            end
        end
      else inl "Missing required fields: siteConfig and query"
  | None => inl "Missing required fields: siteConfig and query"
  end.

(** The handler of POST /api/scrape/search. *)
Definition searchHandler (env : Env) (b : SearchBody) : M Response :=
  try_catch
    (match validate b with
     | inl error => ret (MkResponse 400 (BError error))
     | inr (c, q, p) =>
         let* results := search env c q p in
         ret (MkResponse 200 (BResult results))
     end)
    (λ message,
       emit (EvConsoleError "Search error:" message);;
       ret (MkResponse 500 (BFailure "Scraping failed" message))).

(** POST /api/scrape/search behind [authenticate]. *)
Definition postSearch (API_KEY apiKey : option string) (env : Env)
    (b : SearchBody) : M Response :=
  if authenticate API_KEY apiKey then searchHandler env b
  else ret unauthorized.

(** POST /api/cache/clear behind [authenticate]. *)
Definition postCacheClear (API_KEY apiKey : option string) : M Response :=
  if authenticate API_KEY apiKey
  then clearCache;; ret (MkResponse 200 (BSuccess "Cache cleared successfully"))
  else ret unauthorized.

(** The request of the README. *)
Definition example : SearchBody :=
  MkSearchBody
    (Some (MkRawSiteConfig (Some "Acme") (Some "https://acme.test/s?q={query}")
             (Some (MkRawSelectors (Some ".card") (Some ".t") (Some ".p")
                                   (Some "img") (Some "a") None None))))
    (Some "drill") None.

End Server.

(** The heap only grows: a list is a prefix of itself and of its extensions. *)
Ltac grows := simpl; first [reflexivity | by eexists].

(** * Properties *)

(** ** The cache store *)

Lemma cacheTimeout_one_hour : cacheTimeout = 3600000%Z.
Proof. reflexivity. Qed.

Lemma getFromCache_hit (now : Z) (key : string) (st : State) (e : CacheEntry.t) :
  cache st !! key = Some e →
  (now - CacheEntry.timestamp e < cacheTimeout)%Z →
  getFromCache now key st = (Ok (Some (CacheEntry.data e)), st).
Proof.
  intros Hlook Hfresh. unfold getFromCache. rewrite Hlook.
  by rewrite bool_decide_eq_true_2.
Qed.

Lemma getFromCache_miss (now : Z) (key : string) (st : State) :
  (∀ e, cache st !! key = Some e →
        ¬ (now - CacheEntry.timestamp e < cacheTimeout)%Z) →
  getFromCache now key st
  = (Ok None, MkState (browser st) (delete key (cache st)) (objects st)
                      (arrays st) (log st)).
Proof.
  intros Hstale. unfold getFromCache.
  destruct (cache st !! key) as [e|] eqn:Hlook; [|done].
  rewrite bool_decide_eq_false_2; [done|]. by apply Hstale.
Qed.

(** The two cases are the only ones. *)
Lemma getFromCache_cases (now : Z) (key : string) (st : State) :
  (∃ e, cache st !! key = Some e
        ∧ (now - CacheEntry.timestamp e < cacheTimeout)%Z
        ∧ getFromCache now key st = (Ok (Some (CacheEntry.data e)), st))
  ∨ ((∀ e, cache st !! key = Some e →
           ¬ (now - CacheEntry.timestamp e < cacheTimeout)%Z)
     ∧ getFromCache now key st
       = (Ok None, MkState (browser st) (delete key (cache st)) (objects st)
                           (arrays st) (log st))).
Proof.
  destruct (cache st !! key) as [e|] eqn:Hlook.
  - destruct (decide (now - CacheEntry.timestamp e < cacheTimeout)%Z) as [Hf|Hf].
    + left. exists e. eauto using getFromCache_hit.
    + right. split; [by intros ? [= <-]|].
      apply getFromCache_miss. rewrite Hlook. by intros ? [= <-].
  - right. split; [done|]. apply getFromCache_miss. by rewrite Hlook.
Qed.

(** C6.  [getFromCache]: an entry younger than one hour (3 600 000 ms) is
    returned and the state is untouched; in every other case the answer is
    [null], the entry for the key is removed (a destructive read) while every
    other entry stays, and a second lookup of the key, at any later or earlier
    instant, misses again and changes nothing. *)
Theorem getFromCache_ttl (now : Z) (key : string) (st : State) :
  (∀ e, cache st !! key = Some e →
        (now - CacheEntry.timestamp e < 3600000)%Z →
        getFromCache now key st = (Ok (Some (CacheEntry.data e)), st))
  ∧ ((∀ e, cache st !! key = Some e →
           ¬ (now - CacheEntry.timestamp e < 3600000)%Z) →
     ∃ st', getFromCache now key st = (Ok None, st')
            ∧ cache st' = delete key (cache st)
            ∧ cache st' !! key = None
            ∧ (∀ k, k ≠ key → cache st' !! k = cache st !! k)
            ∧ same_but_cache st st'
            ∧ ∀ now', getFromCache now' key st' = (Ok None, st')).
Proof.
  split.
  - intros e Hlook Hfresh. by apply getFromCache_hit.
  - intros Hstale. eexists. split; [by apply getFromCache_miss|]. simpl.
    split_and!; try done.
    + apply lookup_delete_eq.
    + intros k Hk. by apply lookup_delete_ne.
    + intros now'. rewrite getFromCache_miss; simpl.
      * by rewrite delete_delete_eq.
      * intros e. by rewrite lookup_delete_eq.
Qed.

Lemma getFromCache_ttl_witness :
  getFromCache 3599999 "Acme:drill:1" Acme.after_first
  = (Ok (Some 0), Acme.after_first)
  ∧ ∃ st', getFromCache 3600000 "Acme:drill:1" Acme.after_first = (Ok None, st')
           ∧ cache st' !! "Acme:drill:1" = None
           ∧ getFromCache 3600000 "Acme:drill:1" st' = (Ok None, st').
Proof.
  split.
  - apply (proj1 (getFromCache_ttl 3599999 "Acme:drill:1" Acme.after_first)
             (CacheEntry.Mk 0 0)); [by vm_compute | simpl; lia].
  - destruct (proj2 (getFromCache_ttl 3600000 "Acme:drill:1" Acme.after_first))
      as (st' & Hget & _ & Hgone & _ & _ & Hagain).
    + intros e He. vm_compute in He. injection He as <-. simpl. lia.
    + exists st'. auto.
Defined.

(** ** One call of [search], case by case *)

Lemma search_try_run (env : Env) (siteConfig : SiteConfig.t) (query : string)
    (page : Z) (key : string) (st : State) :
  ∃ evs,
    search_try env siteConfig query page key st
    = match scrape env siteConfig query with
      | Ok products =>
          (Ok (length (objects st)),
           MkState (browser st)
                   (<[key := CacheEntry.Mk (length (objects st)) (now_store env)]>
                      (cache st))
                   (objects st
                    ++ [stored_result env siteConfig query page products
                                      (length (arrays st))])
                   (arrays st ++ [products])
                   (log st ++ evs))
      | Throw msg =>
          (Throw msg,
           MkState (browser st) (cache st) (objects st) (arrays st)
                   (log st ++ evs))
      end.
Proof.
  unfold search_try, scrape, waitForSelector, evaluate, driver, setCache,
    buildSearchUrl, bind, emit, lift, set_cache, new_array, new_object, ret,
    throw, mbind, Res_bind, res_bind.
  simpl.
  destruct (setViewport env) as [[]|m1]; simpl;
    [|eexists; by rewrite <- ?(assoc_L (++))].
  destruct (setUserAgent env) as [[]|m2]; simpl;
    [|eexists; by rewrite <- ?(assoc_L (++))].
  destruct (goto env _) as [[]|m3]; simpl;
    [|eexists; by rewrite <- ?(assoc_L (++))].
  destruct (DOM.querySelectorAll _ _) as [[|c cs]|m4] eqn:Hq; simpl;
    [eexists; by rewrite <- ?(assoc_L (++))| |
     eexists; by rewrite <- ?(assoc_L (++))].
  destruct (evaluateFault env) as [m5|]; simpl;
    [eexists; by rewrite <- ?(assoc_L (++))|].
  destruct (extractProducts _ _) as [ps|m6]; simpl;
    eexists; by rewrite <- ?(assoc_L (++)).
Qed.

Lemma search_miss_run (env : Env) (siteConfig : SiteConfig.t) (query : string)
    (page : Z) (st : State) :
  no_fresh_entry (now_lookup env) (getCacheKey siteConfig query page) st →
  ∃ evs,
    search env siteConfig query page st
    = after_miss env siteConfig query page st evs
    ∧ (launched env st = Ok () → newPage env = Ok () →
       ∃ evs', evs = (evs' ++ [EvClosePage])%list ∧ EvNewPage ∈ evs').
Proof.
  intros Hmiss. unfold search, after_miss, launched.
  unfold bind at 1. rewrite (getFromCache_miss _ _ _ Hmiss).
  unfold init, driver, bind, emit, lift, set_browser, try_finally, try_catch,
    search_catch, throw. simpl.
  set (key := getCacheKey siteConfig query page).
  destruct (browser st) eqn:Hb; simpl.
  - destruct (newPage env) as [[]|m]; simpl.
    + match goal with |- context [search_try ?e ?c ?q ?p ?k ?s] =>
        destruct (search_try_run e c q p k s) as [evs ->] end.
      simpl. destruct (scrape env siteConfig query) as [ps|cause];
        destruct (closePage env) as [[]|m]; simpl;
        (eexists; split;
         [by rewrite <- ?(assoc_L (++))
         |intros _ _; eexists; split;
          [by rewrite ?(assoc_L (++)) | set_solver]]).
    + eexists; split; [done|]. intros _ [=].
  - destruct (launch env) as [[]|m0]; simpl.
    + destruct (newPage env) as [[]|m]; simpl.
      * match goal with |- context [search_try ?e ?c ?q ?p ?k ?s] =>
          destruct (search_try_run e c q p k s) as [evs ->] end.
        simpl. destruct (scrape env siteConfig query) as [ps|cause];
          destruct (closePage env) as [[]|m]; simpl;
          (eexists; split;
           [by rewrite <- ?(assoc_L (++))
           |intros _ _; eexists; split;
            [by rewrite ?(assoc_L (++)) | set_solver]]).
      * eexists; split; [by rewrite <- ?(assoc_L (++))|]. intros _ [=].
    + eexists; split; [done|]. intros [=].
Qed.

Lemma search_hit_run (env : Env) (siteConfig : SiteConfig.t) (query : string)
    (page : Z) (st : State) (e : CacheEntry.t) (o : SearchResult.t) :
  cache st !! getCacheKey siteConfig query page = Some e →
  (now_lookup env - CacheEntry.timestamp e < cacheTimeout)%Z →
  objects st !! CacheEntry.data e = Some o →
  search env siteConfig query page st
  = (Ok (length (objects st)),
     MkState (browser st) (cache st)
             (objects st ++ [SearchResult.with_cached o true])
             (arrays st) (log st)).
Proof.
  intros Hlook Hfresh Hobj. unfold search.
  unfold bind at 1. rewrite (getFromCache_hit _ _ _ _ Hlook Hfresh).
  unfold bind, read_object, new_object. by rewrite Hobj.
Qed.

(** ** Well-formed results *)

Lemma has_title_and_price_complete (p : ProductSummary.t) :
  has_title_and_price p = true → complete p.
Proof.
  unfold has_title_and_price, complete.
  destruct (ProductSummary.title p) as [[|??]|],
           (ProductSummary.price p) as [[|??]|]; simpl; done.
Qed.

Lemma points_to_grows (st st' : State) (ref : nat) o ps :
  objects st `prefix_of` objects st' →
  arrays st `prefix_of` arrays st' →
  points_to st ref o ps → points_to st' ref o ps.
Proof.
  intros Ho Ha [H1 H2]. split; eauto using prefix_lookup_Some.
Qed.

Lemma stored_ok_grows (st st' : State) (ref : nat) :
  objects st `prefix_of` objects st' →
  arrays st `prefix_of` arrays st' →
  stored_ok st ref → stored_ok st' ref.
Proof.
  intros Ho Ha (o & ps & Hp & Hn & Hall & Hflag).
  exists o, ps. eauto using points_to_grows.
Qed.

Lemma extractProducts_complete (selectors : SelectorSet.t) (doc : DOM.Document)
    (ps : list ProductSummary.t) :
  extractProducts selectors doc = Ok ps → Forall complete ps.
Proof.
  unfold extractProducts, mbind, Res_bind, res_bind.
  destruct (DOM.querySelectorAll _ _) as [cards|]; [|done].
  destruct (map_res _ _) as [all|]; [|done].
  intros [= <-]. apply Forall_forall. intros p Hp.
  apply list_elem_of_filter in Hp as [Hp _].
  by apply has_title_and_price_complete.
Qed.

Lemma scrape_complete (env : Env) (siteConfig : SiteConfig.t) (query : string)
    (ps : list ProductSummary.t) :
  scrape env siteConfig query = Ok ps → Forall complete ps.
Proof.
  unfold scrape, mbind, Res_bind, res_bind.
  destruct (setViewport env); [|done].
  destruct (setUserAgent env); [|done].
  destruct (goto env _); [|done].
  destruct (DOM.querySelectorAll _ _) as [[|??]|]; [done| |done].
  destruct (evaluateFault env); [done|].
  apply extractProducts_complete.
Qed.

(** A completed call of [search] leaves a well-formed cache and, when it
    returns, returns a well-formed result. *)
Lemma search_well_formed (env : Env) (siteConfig : SiteConfig.t)
    (query : string) (page : Z) (st st' : State) (r : Res nat) :
  cache_ok st →
  search env siteConfig query page st = (r, st') →
  cache_ok st' ∧ ∀ ref, r = Ok ref → well_formed_result st' ref.
Proof.
  intros Hok Hrun.
  destruct (getFromCache_cases (now_lookup env)
              (getCacheKey siteConfig query page) st)
    as [(e & Hlook & Hfresh & _)|[Hstale _]].
  - destruct (Hok _ _ Hlook) as (o & ps & [Ho Ha] & Hn & Hall & Hflag).
    rewrite (search_hit_run _ _ _ _ _ _ _ Hlook Hfresh Ho) in Hrun.
    injection Hrun as <- <-. split.
    + intros k e' Hk. simpl in Hk.
      apply (stored_ok_grows st); [grows..|by eapply Hok].
    + intros ref [= <-]. exists (SearchResult.with_cached o true), ps.
      split_and!; [|done|done].
      split; simpl; [by apply list_lookup_middle|done].
  - destruct (search_miss_run env siteConfig query page st Hstale)
      as (evs & Hsearch & _).
    rewrite Hsearch in Hrun. unfold after_miss in Hrun.
    assert (∀ b l, cache_ok (MkState b
                     (delete (getCacheKey siteConfig query page) (cache st))
                     (objects st) (arrays st) l)) as Hdel.
    { intros b l k e Hk. simpl in Hk.
      apply lookup_delete_Some in Hk as [_ Hk].
      apply (stored_ok_grows st); [grows..|by eapply Hok]. }
    destruct (launched env st) as [[]|]; [|by injection Hrun as <- <-].
    destruct (newPage env) as [[]|]; [|by injection Hrun as <- <-].
    destruct (scrape env siteConfig query) as [products|cause] eqn:Hscrape.
    + assert (stored_ok st' (length (objects st))) as Hnew.
      { injection Hrun as _ <-.
        exists (stored_result env siteConfig query page products
                              (length (arrays st))), products.
        split_and!; [|done|by eapply scrape_complete|done].
        split; simpl; by apply list_lookup_middle. }
      split.
      * intros k e Hk. injection Hrun as _ <-. simpl in Hk.
        apply lookup_insert_Some in Hk as [[_ <-]|[_ Hk]]; [done|].
        apply lookup_delete_Some in Hk as [_ Hk].
        apply (stored_ok_grows st); [grows..|by eapply Hok].
      * intros ref ->. destruct (closePage env) as [[]|]; [|by injection Hrun].
        injection Hrun as <- _.
        destruct Hnew as (o & ps & ? & ? & ? & _). by exists o, ps.
    + destruct (closePage env) as [[]|]; by injection Hrun as <- <-.
Qed.

Lemma getProductDetails_frame (env : Env) (siteConfig : SiteConfig.t)
    (productUrl : string) (detailSelectors : DetailSelectorSet.t)
    (st st' : State) (r : Res ProductDetail.t) :
  getProductDetails env siteConfig productUrl detailSelectors st = (r, st') →
  cache st' = cache st ∧ objects st' = objects st ∧ arrays st' = arrays st.
Proof.
  unfold getProductDetails, init, driver, evaluate, try_finally, try_catch,
    bind, emit, lift, set_browser, ret, throw.
  intros Hrun.
  repeat (case_match; simplify_eq/=); done.
Qed.

Lemma cache_ok_frame (st st' : State) :
  cache st' = cache st → objects st' = objects st → arrays st' = arrays st →
  cache_ok st → cache_ok st'.
Proof.
  intros Hc Ho Ha Hok k e Hk. rewrite Hc in Hk.
  apply (stored_ok_grows st); [by rewrite Ho|by rewrite Ha|].
  by eapply Hok.
Qed.

Lemma reachable_cache_ok (st : State) : reachable st → cache_ok st.
Proof.
  induction 1 as [|env st r st' _ IH Hrun|env st r st' _ IH Hrun
                 |st r st' _ IH Hrun|env cfg q p st r st' _ IH Hrun
                 |env cfg u ds st r st' _ IH Hrun].
  - intros k e Hk. simpl in Hk. by rewrite lookup_empty in Hk.
  - revert Hrun. unfold init, driver, bind, emit, lift, set_browser.
    intros Hrun. apply (cache_ok_frame st); [..|done];
      repeat (case_match; simplify_eq/=); done.
  - revert Hrun. unfold close, driver, bind, emit, lift, set_browser.
    intros Hrun. apply (cache_ok_frame st); [..|done];
      repeat (case_match; simplify_eq/=); done.
  - injection Hrun as _ <-. intros k e Hk. simpl in Hk.
    by rewrite lookup_empty in Hk.
  - by destruct (search_well_formed _ _ _ _ _ _ _ IH Hrun).
  - destruct (getProductDetails_frame _ _ _ _ _ _ _ Hrun) as (? & ? & ?).
    by apply (cache_ok_frame st).
Qed.

(** ** Claims about the results of [search] *)

(** C4.  Whatever calls a scraper has served, a SearchResult that [search]
    returns has [totalResults] equal to the length of [results], and each of
    its products has a title and a price that are not null (nor empty). *)
Theorem search_totalResults_and_fields (st : State) :
  reachable st →
  ∀ env siteConfig query page ref st',
    search env siteConfig query page st = (Ok ref, st') →
    ∃ o ps,
      objects st' !! ref = Some o
      ∧ arrays st' !! SearchResult.results o = Some ps
      ∧ SearchResult.totalResults o = length ps
      ∧ Forall (λ p, is_Some (ProductSummary.title p)
                     ∧ is_Some (ProductSummary.price p)
                     ∧ has_title_and_price p = true) ps.
Proof.
  intros Hreach env cfg q p ref st' Hrun.
  destruct (search_well_formed _ _ _ _ _ _ _ (reachable_cache_ok _ Hreach) Hrun)
    as [_ Hres].
  destruct (Hres ref eq_refl) as (o & ps & [Ho Ha] & Hn & Hall).
  exists o, ps. split_and!; try done.
  eapply Forall_impl; [exact Hall|].
  intros x (Ht & Hp & Hte & Hpe). split_and!; try done.
  unfold has_title_and_price.
  destruct Ht as [[|??] Ht], Hp as [[|??] Hp]; rewrite Ht, Hp in *; done.
Qed.

Lemma search_totalResults_and_fields_witness :
  ∃ o ps,
    objects Acme.after_first !! 0 = Some o
    ∧ arrays Acme.after_first !! SearchResult.results o = Some ps
    ∧ SearchResult.totalResults o = length ps
    ∧ Forall (λ p, is_Some (ProductSummary.title p)
                   ∧ is_Some (ProductSummary.price p)
                   ∧ has_title_and_price p = true) ps.
Proof.
  apply (search_totalResults_and_fields constructor reach_constructor
           (Acme.env 0 [Acme.drill; Acme.saw]) Acme.siteConfig "drill" 1 0).
  vm_compute. reflexivity.
Defined.

(** A call that misses the cache and returns has scraped the page and has
    stored what it returns. *)
Lemma search_miss_returns (env : Env) (siteConfig : SiteConfig.t)
    (query : string) (page : Z) (st st1 : State) (r1 : nat) :
  no_fresh_entry (now_lookup env) (getCacheKey siteConfig query page) st →
  search env siteConfig query page st = (Ok r1, st1) →
  ∃ products evs,
    scrape env siteConfig query = Ok products
    ∧ r1 = length (objects st)
    ∧ st1 = MkState true
              (<[getCacheKey siteConfig query page
                 := CacheEntry.Mk r1 (now_store env)]>
                 (delete (getCacheKey siteConfig query page) (cache st)))
              (objects st
               ++ [stored_result env siteConfig query page products
                                 (length (arrays st))])
              (arrays st ++ [products])
              (log st ++ evs).
Proof.
  intros Hmiss Hrun.
  destruct (search_miss_run env siteConfig query page st Hmiss)
    as (evs & Hsearch & _).
  rewrite Hsearch in Hrun. unfold after_miss in Hrun.
  destruct (launched env st) as [[]|]; [|done].
  destruct (newPage env) as [[]|]; [|done].
  destruct (scrape env siteConfig query) as [products|cause];
    destruct (closePage env) as [[]|]; try done.
  injection Hrun as <- <-. by exists products, evs.
Qed.

(** After such a call, a request with the same key that arrives within the
    hour is answered from the cache, with a copy of the stored object. *)
Lemma search_then_hit (env1 env2 : Env) (cfg1 cfg2 : SiteConfig.t)
    (q1 q2 : string) (p1 p2 : Z) (st st1 : State) (r1 : nat) :
  getCacheKey cfg1 q1 p1 = getCacheKey cfg2 q2 p2 →
  no_fresh_entry (now_lookup env1) (getCacheKey cfg1 q1 p1) st →
  search env1 cfg1 q1 p1 st = (Ok r1, st1) →
  (now_lookup env2 - now_store env1 < cacheTimeout)%Z →
  ∃ products,
    scrape env1 cfg1 q1 = Ok products
    ∧ r1 = length (objects st)
    ∧ length (objects st1) = S r1
    ∧ points_to st1 r1
        (stored_result env1 cfg1 q1 p1 products (length (arrays st))) products
    ∧ cache st1 !! getCacheKey cfg1 q1 p1
      = Some (CacheEntry.Mk r1 (now_store env1))
    ∧ search env2 cfg2 q2 p2 st1
      = (Ok (S r1),
         MkState (browser st1) (cache st1)
           (objects st1
            ++ [SearchResult.with_cached
                  (stored_result env1 cfg1 q1 p1 products (length (arrays st)))
                  true])
           (arrays st1) (log st1)).
Proof.
  intros Hkey Hmiss Hrun Hsoon.
  destruct (search_miss_returns _ _ _ _ _ _ _ Hmiss Hrun)
    as (products & evs & Hscrape & -> & ->).
  exists products. simpl.
  assert (length (objects st
                  ++ [stored_result env1 cfg1 q1 p1 products
                                    (length (arrays st))])
          = S (length (objects st))) as Hlen.
  { rewrite length_app. simpl. lia. }
  split_and!; try done.
  - split; simpl; by apply list_lookup_middle.
  - apply lookup_insert_eq.
  - rewrite <- Hlen. eapply search_hit_run; simpl.
    + rewrite <- Hkey. apply lookup_insert_eq.
    + done.
    + simpl. by apply list_lookup_middle.
Qed.

(** C5.  From a state that holds no live entry for the request, a call of
    [search] that returns, followed by the same call within the hour: the
    first result has [cached] false, the second has [cached] true, both refer
    to the same [results] array, whose content the second call has not
    changed; the second call makes no call to the browser. *)
Theorem search_twice (env1 env2 : Env) (siteConfig : SiteConfig.t)
    (query : string) (page : Z) (st st1 : State) (r1 : nat) :
  no_fresh_entry (now_lookup env1) (getCacheKey siteConfig query page) st →
  search env1 siteConfig query page st = (Ok r1, st1) →
  (now_lookup env2 - now_store env1 < 3600000)%Z →
  ∃ r2 st2 o1 o2 ps,
    search env2 siteConfig query page st1 = (Ok r2, st2)
    ∧ points_to st1 r1 o1 ps
    ∧ points_to st2 r1 o1 ps
    ∧ points_to st2 r2 o2 ps
    ∧ SearchResult.cached o1 = false
    ∧ SearchResult.cached o2 = true
    ∧ SearchResult.results o2 = SearchResult.results o1
    ∧ log st2 = log st1.
Proof.
  intros Hmiss Hrun Hsoon.
  destruct (search_then_hit env1 env2 siteConfig siteConfig query query
              page page st st1 r1 eq_refl Hmiss Hrun Hsoon)
    as (products & Hscrape & -> & Hlen & Hp & Hc & Hsecond).
  eexists _, _,
    (stored_result env1 siteConfig query page products (length (arrays st))),
    (SearchResult.with_cached
       (stored_result env1 siteConfig query page products (length (arrays st)))
       true), products.
  split; [exact Hsecond|].
  split_and!; try done.
  - eapply points_to_grows; [..|exact Hp]; grows.
  - destruct Hp as [Ho Ha].
    split; simpl; [by apply list_lookup_middle|done].
Qed.

Lemma search_twice_witness :
  ∃ r2 st2 o1 o2 ps,
    search (Acme.env 5 []) Acme.siteConfig "drill" 1 Acme.after_first
    = (Ok r2, st2)
    ∧ points_to Acme.after_first 0 o1 ps
    ∧ points_to st2 0 o1 ps
    ∧ points_to st2 r2 o2 ps
    ∧ SearchResult.cached o1 = false
    ∧ SearchResult.cached o2 = true
    ∧ SearchResult.results o2 = SearchResult.results o1
    ∧ log st2 = log Acme.after_first.
Proof.
  apply (search_twice (Acme.env 0 [Acme.drill; Acme.saw]) (Acme.env 5 [])
           Acme.siteConfig "drill" 1 constructor).
  - intros e He. vm_compute in He. discriminate He.
  - vm_compute. reflexivity.
  - simpl. lia.
Defined.

(** ** The cache key *)

(** C10.  The key is the site name, the query and the page joined by ":".
    The requests (site "a:b", query "c") and (site "a", query "b:c") differ
    but have the same key at every page, so once the first has been scraped
    and stored, the second, arriving within the hour, is answered from the
    cache with a copy of the first request's result (its [site] is "a:b", its
    [query] is "c") and the browser is not called. *)
Theorem getCacheKey_collision (url1 url2 : string) (s1 s2 : SelectorSet.t)
    (page : Z) :
  let first := SiteConfig.Mk "a:b" url1 s1 in
  let second := SiteConfig.Mk "a" url2 s2 in
  (SiteConfig.name first, "c") ≠ (SiteConfig.name second, "b:c")
  ∧ getCacheKey first "c" page = "a:b:c:" +:+ pretty page
  ∧ getCacheKey second "b:c" page = "a:b:c:" +:+ pretty page
  ∧ ∀ env1 env2 st st1 r1,
      no_fresh_entry (now_lookup env1) (getCacheKey first "c" page) st →
      search env1 first "c" page st = (Ok r1, st1) →
      (now_lookup env2 - now_store env1 < 3600000)%Z →
      ∃ r2 st2 o1 o2 ps,
        search env2 second "b:c" page st1 = (Ok r2, st2)
        ∧ points_to st1 r1 o1 ps
        ∧ points_to st2 r2 o2 ps
        ∧ o2 = SearchResult.with_cached o1 true
        ∧ SearchResult.site o2 = "a:b"
        ∧ SearchResult.query o2 = "c"
        ∧ log st2 = log st1.
Proof.
  intros first second. split_and!; try done.
  intros env1 env2 st st1 r1 Hmiss Hrun Hsoon.
  destruct (search_then_hit env1 env2 first second "c" "b:c" page page
              st st1 r1 eq_refl Hmiss Hrun Hsoon)
    as (products & Hscrape & -> & Hlen & Hp & Hc & Hsecond).
  eexists _, _,
    (stored_result env1 first "c" page products (length (arrays st))),
    (SearchResult.with_cached
       (stored_result env1 first "c" page products (length (arrays st)))
       true), products.
  split; [exact Hsecond|].
  split_and!; try done.
  destruct Hp as [Ho Ha].
  split; simpl; [by apply list_lookup_middle|done].
Qed.

Lemma getCacheKey_collision_witness :
  getCacheKey (SiteConfig.Mk "a:b" "https://acme.test/s?q={query}"
                             Acme.selectors) "c" 1
  = getCacheKey (SiteConfig.Mk "a" "https://other.test/?q={query}"
                               Acme.selectors) "b:c" 1
  ∧ ∃ r2 st2 o2,
      search (Acme.env 5 [])
             (SiteConfig.Mk "a" "https://other.test/?q={query}" Acme.selectors)
             "b:c" 1
             (search (Acme.env 0 [Acme.drill])
                     (SiteConfig.Mk "a:b" "https://acme.test/s?q={query}"
                                    Acme.selectors) "c" 1 constructor).2
      = (Ok r2, st2)
      ∧ objects st2 !! r2 = Some o2
      ∧ SearchResult.site o2 = "a:b"
      ∧ SearchResult.query o2 = "c"
      ∧ SearchResult.cached o2 = true.
Proof.
  destruct (getCacheKey_collision "https://acme.test/s?q={query}"
              "https://other.test/?q={query}" Acme.selectors Acme.selectors 1)
    as (_ & Hk1 & Hk2 & Hserve).
  split; [by rewrite Hk1, Hk2|].
  destruct (Hserve (Acme.env 0 [Acme.drill]) (Acme.env 5 []) constructor
              (search (Acme.env 0 [Acme.drill])
                      (SiteConfig.Mk "a:b" "https://acme.test/s?q={query}"
                                     Acme.selectors) "c" 1 constructor).2 0)
    as (r2 & st2 & o1 & o2 & ps & Hrun & _ & [Ho _] & Heq & Hsite & Hquery & _).
  - intros e He. vm_compute in He. discriminate He.
  - vm_compute. reflexivity.
  - simpl. lia.
  - exists r2, st2, o2.
    split_and!; [exact Hrun|exact Ho|exact Hsite|exact Hquery|].
    rewrite Heq. reflexivity.
Defined.

(** ** Who holds a reference to a cache entry *)

Lemma reachable_after_search (env : Env) (siteConfig : SiteConfig.t)
    (query : string) (page : Z) (st : State) :
  reachable st → reachable (search env siteConfig query page st).2.
Proof.
  intros Hst. eapply reach_search; [exact Hst|]. apply surjective_pairing.
Qed.

(** C3, as stated, fails: the first call for ("Acme", "drill", 1) on a new
    scraper returns reference 0, and reference 0 is the [data] of the entry
    it stored under "Acme:drill:1". *)
Lemma stored_object_is_returned :
  (search (Acme.env 0 [Acme.drill; Acme.saw]) Acme.siteConfig "drill" 1
          constructor).1 = Ok 0
  ∧ cache Acme.after_first !! "Acme:drill:1" = Some (CacheEntry.Mk 0 0)
  ∧ ¬ never_shared.
Proof.
  split_and!; [by vm_compute|by vm_compute|].
  intros Hnever.
  apply (Hnever constructor (Acme.env 0 [Acme.drill; Acme.saw])
           Acme.siteConfig "drill" 1%Z 0 Acme.after_first
           reach_constructor ltac:(by vm_compute)
           "Acme:drill:1" (CacheEntry.Mk 0 0) ltac:(by vm_compute)).
  reflexivity.
Qed.

(** C3, amended.  A cache hit allocates a new object, a copy of the stored
    SearchResult with [cached] set to true that refers to the same [results]
    array; the stored object has [cached] false and the read changes neither
    it nor the cache, the arrays or the log.  The call that stored an entry,
    however, returned the stored object itself. *)
Theorem cache_hit_returns_copy (st : State) :
  reachable st →
  (∀ env siteConfig query page e,
     cache st !! getCacheKey siteConfig query page = Some e →
     (now_lookup env - CacheEntry.timestamp e < 3600000)%Z →
     ∃ ref st' o,
       search env siteConfig query page st = (Ok ref, st')
       ∧ objects st !! CacheEntry.data e = Some o
       ∧ SearchResult.cached o = false
       ∧ objects st !! ref = None
       ∧ ref ≠ CacheEntry.data e
       ∧ objects st' !! ref = Some (SearchResult.with_cached o true)
       ∧ SearchResult.results (SearchResult.with_cached o true)
         = SearchResult.results o
       ∧ objects st' !! CacheEntry.data e = Some o
       ∧ cache st' = cache st ∧ arrays st' = arrays st ∧ log st' = log st)
  ∧ (∀ env siteConfig query page ref st',
       no_fresh_entry (now_lookup env) (getCacheKey siteConfig query page) st →
       search env siteConfig query page st = (Ok ref, st') →
       cache st' !! getCacheKey siteConfig query page
       = Some (CacheEntry.Mk ref (now_store env))).
Proof.
  intros Hreach. split.
  - intros env cfg q p e Hlook Hfresh.
    destruct (reachable_cache_ok _ Hreach _ _ Hlook)
      as (o & ps & [Ho Ha] & _ & _ & Hflag).
    eexists _, _, o.
    split; [by apply (search_hit_run _ _ _ _ _ e o)|]. simpl.
    split_and!; try done.
    + by apply lookup_ge_None_2.
    + apply lookup_lt_Some in Ho. lia.
    + by apply list_lookup_middle.
    + by apply lookup_app_l_Some.
  - intros env cfg q p ref st' Hmiss Hrun.
    destruct (search_miss_returns _ _ _ _ _ _ _ Hmiss Hrun)
      as (products & evs & _ & _ & ->).
    simpl. apply lookup_insert_eq.
Qed.

Lemma cache_hit_returns_copy_witness :
  ∃ ref st' o,
    search (Acme.env 5 []) Acme.siteConfig "drill" 1 Acme.after_first
    = (Ok ref, st')
    ∧ ref ≠ 0
    ∧ objects st' !! ref = Some (SearchResult.with_cached o true)
    ∧ objects st' !! 0 = Some o
    ∧ SearchResult.cached o = false.
Proof.
  destruct (proj1 (cache_hit_returns_copy _
              (reachable_after_search (Acme.env 0 [Acme.drill; Acme.saw])
                 Acme.siteConfig "drill" 1 constructor reach_constructor))
              (Acme.env 5 []) Acme.siteConfig "drill" 1%Z
              (CacheEntry.Mk 0 0))
    as (ref & st' & o & Hrun & _ & Hflag & _ & Hne & Hcopy & _ & Hkept & _).
  - vm_compute. reflexivity.
  - simpl. lia.
  - exists ref, st', o.
    split_and!; [exact Hrun|exact Hne|exact Hcopy|exact Hkept|exact Hflag].
Defined.

(** ** Failures *)

Lemma scrape_failure_throws (env : Env) (siteConfig : SiteConfig.t)
    (query cause : string) :
  scrape_failure env siteConfig query cause ↔
  scrape env siteConfig query = Throw cause.
Proof.
  unfold scrape, mbind, Res_bind, res_bind. split.
  - intros Hfail.
    destruct Hfail;
      repeat match goal with H : _ = _ |- _ => rewrite H; clear H end; done.
  - destruct (setViewport env) as [[]|m1] eqn:H1;
      [|intros [= <-]; by apply viewport_failure].
    destruct (setUserAgent env) as [[]|m2] eqn:H2;
      [|intros [= <-]; by apply userAgent_failure].
    destruct (goto env _) as [[]|m3] eqn:H3;
      [|intros [= <-]; by apply navigation_failure].
    destruct (DOM.querySelectorAll _ _) as [[|c cs]|m4] eqn:H4;
      [intros [= <-]; by apply selector_timeout| |
       intros [= <-]; by apply selector_failure].
    destruct (evaluateFault env) as [m5|] eqn:H5;
      [intros [= <-]; by eapply evaluation_lost|].
    intros H6. by eapply evaluation_throws.
Qed.

(** C7, as stated, fails: "Acme:drill:1" was stored at instant 0; an hour
    later the same search fails in the navigation, and the cache that had the
    entry before the call no longer has it afterwards. *)
Lemma failed_search_removes_expired_entry :
  cache Acme.after_first !! "Acme:drill:1" = Some (CacheEntry.Mk 0 0)
  ∧ (search (Acme.offline 3600000) Acme.siteConfig "drill" 1
            Acme.after_first).1
    = Throw "Failed to scrape Acme: net::ERR_NAME_NOT_RESOLVED"
  ∧ cache (search (Acme.offline 3600000) Acme.siteConfig "drill" 1
             Acme.after_first).2 !! "Acme:drill:1"
    = None
  ∧ cache (search (Acme.offline 3600000) Acme.siteConfig "drill" 1
             Acme.after_first).2
    ≠ cache Acme.after_first.
Proof.
  split_and!; [by vm_compute..|].
  intros Heq.
  apply (f_equal (λ c : gmap string CacheEntry.t, c !! "Acme:drill:1")) in Heq.
  vm_compute in Heq. discriminate Heq.
Qed.

(** C7, amended.  When the browser is up, a page has been opened and the
    cache has no live entry for the request, a failure of the page set-up, of
    the navigation, of the wait for a product card or of the in-page
    evaluation makes [search] throw one error, "Failed to scrape <site name>:
    <cause>".  No object and no array is created; the last call to the driver
    closes the page; and the cache is what the lookup left: the entry of the
    request's key, if one was there (it was expired), is removed, no entry is
    created or modified, and every other key keeps its entry. *)
Theorem search_failure_is_wrapped (env : Env) (siteConfig : SiteConfig.t)
    (query : string) (page : Z) (st : State) (cause : string) :
  no_fresh_entry (now_lookup env) (getCacheKey siteConfig query page) st →
  launched env st = Ok () →
  newPage env = Ok () →
  closePage env = Ok () →
  scrape_failure env siteConfig query cause →
  ∃ st' evs,
    search env siteConfig query page st
    = (Throw ("Failed to scrape " +:+ SiteConfig.name siteConfig +:+ ": "
              +:+ cause), st')
    ∧ objects st' = objects st
    ∧ arrays st' = arrays st
    ∧ log st' = (log st ++ evs ++ [EvClosePage])%list
    ∧ EvNewPage ∈ evs
    ∧ cache st' = delete (getCacheKey siteConfig query page) (cache st)
    ∧ (∀ k, cache st' !! k = cache st !! k
            ∨ (k = getCacheKey siteConfig query page ∧ cache st' !! k = None))
    ∧ (cache st !! getCacheKey siteConfig query page = None →
       cache st' = cache st).
Proof.
  intros Hmiss Hlaunch Hpage Hclose Hfail.
  apply scrape_failure_throws in Hfail.
  destruct (search_miss_run env siteConfig query page st Hmiss)
    as (evs & Hsearch & Hlast).
  destruct (Hlast Hlaunch Hpage) as (evs' & -> & Hin).
  unfold after_miss in Hsearch.
  rewrite Hlaunch, Hpage, Hfail, Hclose in Hsearch.
  eexists _, evs'. split; [exact Hsearch|]. simpl.
  split_and!; try done.
  - intros k.
    destruct (decide (k = getCacheKey siteConfig query page)) as [->|Hne].
    + right. split; [done|]. apply lookup_delete_eq.
    + left. by apply lookup_delete_ne.
  - intros Hnone. by apply delete_id.
Qed.

Lemma search_failure_is_wrapped_witness :
  ∃ st' evs,
    search (Acme.offline 3600000) Acme.siteConfig "drill" 1
           Acme.after_first
    = (Throw "Failed to scrape Acme: net::ERR_NAME_NOT_RESOLVED", st')
    ∧ log st' = (log Acme.after_first ++ evs ++ [EvClosePage])%list
    ∧ cache st' !! "Acme:drill:1" = None.
Proof.
  destruct (search_failure_is_wrapped (Acme.offline 3600000) Acme.siteConfig
              "drill" 1 Acme.after_first "net::ERR_NAME_NOT_RESOLVED")
    as (st' & evs & Hrun & _ & _ & Hlog & _ & Hcache & _).
  - intros e He. vm_compute in He. injection He as <-.
    unfold cacheTimeout. simpl. lia.
  - reflexivity.
  - reflexivity.
  - reflexivity.
  - apply navigation_failure; reflexivity.
  - exists st', evs. split_and!; [exact Hrun|exact Hlog|].
    rewrite Hcache. apply lookup_delete_eq.
Defined.

(** ** A page without qualifying cards *)

Lemma map_res_unqualified (selectors : SelectorSet.t) (location_origin : string)
    (cards : list DOM.Node) :
  Forall (unqualified selectors location_origin) cards →
  ∃ ps, map_res (extractCard selectors location_origin) cards = Ok ps
        ∧ filter (λ p, has_title_and_price p = true) ps = [].
Proof.
  induction 1 as [|card cards (p & Hp & Hno) _ (ps & Hps & Hnil)].
  - by exists [].
  - exists (p :: ps). simpl. unfold mbind, Res_bind, res_bind.
    rewrite Hp, Hps. split; [done|].
    rewrite filter_cons_False; [done|]. by rewrite Hno.
Qed.

(** C2, as stated, fails: on a page with no product card at all (so with no
    qualifying card) the wait for a card times out and [search] throws. *)
Lemma search_without_cards_throws :
  extractProducts Acme.selectors (Acme.page_of []) = Ok []
  ∧ (search (Acme.env 0 []) Acme.siteConfig "drill" 1 constructor).1
    = Throw "Failed to scrape Acme: Waiting for selector `.card` failed".
Proof. split; by vm_compute. Qed.

(** C2, amended.  With a driver that answers and no live cache entry: if at
    least one element matches the product-card selector and no card has both a
    title and a price, [search] returns a SearchResult with [totalResults] 0, an
    empty [results] and [cached] false, and stores it; if no element matches
    the selector, the wait times out and [search] throws the scrape-failure
    error. *)
Theorem search_no_qualifying_card (env : Env) (siteConfig : SiteConfig.t)
    (query : string) (page : Z) (st : State) (cards : list DOM.Node) :
  let selectors := SiteConfig.selectors siteConfig in
  let doc := loaded env (buildSearchUrl siteConfig query) in
  no_fresh_entry (now_lookup env) (getCacheKey siteConfig query page) st →
  driver_ok env siteConfig query st →
  DOM.querySelectorAll doc (SelectorSet.productCard selectors) = Ok cards →
  Forall (unqualified selectors (DOM.origin doc)) cards →
  (cards ≠ [] →
   ∃ ref st' o,
     search env siteConfig query page st = (Ok ref, st')
     ∧ points_to st' ref o []
     ∧ SearchResult.totalResults o = 0
     ∧ SearchResult.cached o = false
     ∧ cache st' !! getCacheKey siteConfig query page
       = Some (CacheEntry.Mk ref (now_store env)))
  ∧ (cards = [] →
     ∃ st',
       search env siteConfig query page st
       = (Throw ("Failed to scrape " +:+ SiteConfig.name siteConfig +:+ ": "
                 +:+ timeoutMessage env (SelectorSet.productCard selectors)),
          st')).
Proof.
  intros selectors doc Hmiss (Hlaunch & Hpage & Hview & Hagent & Hgoto & Heval
                              & Hclose) Hcards Hnone.
  destruct (search_miss_run env siteConfig query page st Hmiss)
    as (evs & Hsearch & _).
  unfold after_miss in Hsearch. rewrite Hlaunch, Hpage, Hclose in Hsearch.
  split.
  - intros Hsome.
    assert (scrape env siteConfig query = Ok []) as Hscrape.
    { unfold scrape, mbind, Res_bind, res_bind.
      rewrite Hview, Hagent, Hgoto. fold selectors doc. rewrite Hcards.
      destruct cards as [|card cards']; [done|]. rewrite Heval.
      unfold extractProducts, mbind, Res_bind, res_bind. rewrite Hcards.
      destruct (map_res_unqualified _ _ _ Hnone) as (ps & -> & ->). done. }
    rewrite Hscrape in Hsearch.
    eexists _, _, (stored_result env siteConfig query page []
                                 (length (arrays st))).
    split; [exact Hsearch|]. simpl. split_and!; try done.
    + split; simpl; by apply list_lookup_middle.
    + apply lookup_insert_eq.
  - intros ->.
    assert (scrape env siteConfig query
            = Throw (timeoutMessage env (SelectorSet.productCard selectors)))
      as Hscrape.
    { apply scrape_failure_throws. by apply selector_timeout. }
    rewrite Hscrape in Hsearch. eexists. exact Hsearch.
Qed.

Lemma search_no_qualifying_card_witness :
  ∃ ref st' o,
    search (Acme.env 0 [Acme.saw]) Acme.siteConfig "drill" 1 constructor
    = (Ok ref, st')
    ∧ points_to st' ref o []
    ∧ SearchResult.totalResults o = 0
    ∧ SearchResult.cached o = false.
Proof.
  destruct (proj1 (search_no_qualifying_card (Acme.env 0 [Acme.saw])
                     Acme.siteConfig "drill" 1 constructor [Acme.saw]
                     ltac:(intros e He; vm_compute in He; discriminate He)
                     ltac:(repeat split; reflexivity)
                     eq_refl
                     ltac:(repeat constructor; eexists; split;
                           [vm_compute; reflexivity|reflexivity])))
    as (ref & st' & o & Hrun & Hp & Hn & Hflag & _).
  - discriminate.
  - exists ref, st', o. split_and!; [exact Hrun|exact Hp|exact Hn|exact Hflag].
Defined.

(** ** Product-code inference *)

Lemma regex_match_here (re : Regex) (s g : string) :
  match_here re s = Some g → regex_match re s = Some g.
Proof. intros H. destruct s; simpl; by rewrite H. Qed.

Lemma regex_match_skip (re : Regex) (c : ascii) (s : string) :
  is_Some (regex_match re s) → is_Some (regex_match re (String c s)).
Proof.
  intros Hs. cbn [regex_match].
  destruct (match_here re (String c s)); [by eexists|done].
Qed.

(** The first pattern matches every link that contains "/product". *)
Lemma re_slash_p_matches_product (pre suf : string) :
  is_Some (regex_match re_slash_p (pre +:+ "/product" +:+ suf)).
Proof.
  induction pre as [|c pre IH].
  - eexists. apply regex_match_here. reflexivity.
  - by apply regex_match_skip.
Qed.

(** C1.  The product code of a link (lines 132-137).  On the host
    shop.example a link ending in /p7X42AB gives "7X42AB", /shop/item gives
    null and so does a missing link.  But a link ending in /product/AB12
    gives "roduct": the first pattern, /p followed by letters or digits,
    already matches "/product" (as it does in every link that contains
    "/product"), so the second pattern, which alone would give "AB12", is not
    consulted.  The first pattern is not tied to the end of the link either:
    on the host pets.example the link ending in /p7X42AB gives "ets". *)
Theorem inferProductCode_product_path :
  inferProductCode (Some "https://shop.example/p7X42AB") = Some "7X42AB"
  ∧ inferProductCode (Some "https://shop.example/shop/item") = None
  ∧ inferProductCode None = None
  ∧ regex_match re_product "https://shop.example/product/AB12" = Some "AB12"
  ∧ inferProductCode (Some "https://shop.example/product/AB12") = Some "roduct"
  ∧ inferProductCode (Some "https://pets.example/p7X42AB") = Some "ets"
  ∧ (∃ p, extractCard Acme.selectors "https://shop.example" Acme.drill = Ok p
          ∧ ProductSummary.url p = Some "https://shop.example/product/AB12"
          ∧ ProductSummary.productCode p = Some "roduct")
  ∧ ∀ pre code,
      is_Some (regex_match re_slash_p (pre +:+ "/product/" +:+ code))
      ∧ inferProductCode (Some (pre +:+ "/product/" +:+ code))
        = regex_match re_slash_p (pre +:+ "/product/" +:+ code).
Proof.
  split_and!; try by vm_compute.
  { eexists. split; [by vm_compute|]. split; reflexivity. }
  intros pre code.
  pose proof (re_slash_p_matches_product pre ("/" +:+ code)) as [g Hg].
  change ("/product" +:+ "/" +:+ code) with ("/product/" +:+ code) in Hg.
  split; [by eexists|].
  unfold inferProductCode. rewrite Hg.
  by destruct pre.
Qed.

(** ** Prefixes and substrings *)

Lemma app_cons (c : ascii) (s t : string) :
  String c s +:+ t = String c (s +:+ t).
Proof. reflexivity. Qed.

Lemma app_empty_l (t : string) : "" +:+ t = t.
Proof. reflexivity. Qed.

Lemma startsWith_app (p r : string) : startsWith (p +:+ r) p = true.
Proof.
  induction p as [|c p IH]; [done|].
  rewrite app_cons. simpl. by rewrite Ascii.eqb_refl.
Qed.

(** [startsWith s p] holds exactly when [s] is [p] followed by something. *)
Lemma startsWith_split (s p : string) :
  startsWith s p = true ↔ ∃ post, s = p +:+ post.
Proof.
  split.
  - revert s. induction p as [|c p IH]; intros s H.
    + by exists s.
    + destruct s as [|d s]; [done|]. simpl in H.
      destruct (Ascii.eqb_spec c d) as [->|]; [|done].
      destruct (IH s H) as [post ->]. by exists post.
  - intros [post ->]. apply startsWith_app.
Qed.

Lemma includes_prefix (p rest : string) : includes (p +:+ rest) p = true.
Proof.
  pose proof (startsWith_app p rest) as H.
  destruct (p +:+ rest); simpl; by rewrite H.
Qed.

(** [includes s p] holds exactly when [p] occurs somewhere in [s]. *)
Lemma includes_split (s p : string) :
  includes s p = true ↔ ∃ pre post, s = pre +:+ p +:+ post.
Proof.
  split.
  - induction s as [|c s IH]; simpl; intros H.
    + destruct (startsWith "" p) eqn:Hs; [|done].
      apply startsWith_split in Hs as [post Hs]. by exists "", post.
    + destruct (startsWith (String c s) p) eqn:Hs.
      * apply startsWith_split in Hs as [post Hs]. by exists "", post.
      * destruct (IH H) as (pre & post & ->). by exists (String c pre), post.
  - intros (pre & post & ->). induction pre as [|c pre IH].
    + rewrite app_empty_l. apply includes_prefix.
    + rewrite app_cons. simpl. rewrite IH. by case_match.
Qed.

Lemma includes_no_split (s p : string) :
  includes s p = false → ∀ pre post, s ≠ pre +:+ p +:+ post.
Proof.
  intros Hinc pre post ->.
  assert (includes (pre +:+ p +:+ post) p = true) as Htrue
    by (apply includes_split; eauto).
  congruence.
Qed.

(** ** Images *)

(** C8, as stated, fails.  The card [Shop.tagged] has an image whose [src]
    is present and is not a "data:image..." value, but a real address that
    mentions "data:image" in its query string: [search] does not keep it,
    it reads [data-src] instead, which this card does not have, and the
    product has no image. *)
Lemma image_of_tagged_address_is_dropped :
  DOM.querySelector Shop.tagged (SelectorSet.image Acme.selectors)
  = Ok (Some (Acme.leaf ""
                [("src", "https://cdn.acme.test/real.png?alt=data:image")]))
  ∧ placeholder "https://cdn.acme.test/real.png?alt=data:image" = false
  ∧ imageBySpec
      (Some (Acme.leaf ""
               [("src", "https://cdn.acme.test/real.png?alt=data:image")]))
    = Some "https://cdn.acme.test/real.png?alt=data:image"
  ∧ extractImage Acme.selectors Shop.tagged = Ok None
  ∧ (∃ p, extractCard Acme.selectors "https://acme.test" Shop.tagged = Ok p
          ∧ ProductSummary.image p = None)
  ∧ ¬ image_as_specified.
Proof.
  split_and!; [reflexivity|reflexivity|reflexivity|reflexivity| |].
  { eexists. split; reflexivity. }
  intros Hspec.
  specialize (Hspec Acme.selectors Shop.tagged _ eq_refl).
  discriminate Hspec.
Qed.

(** C8, amended.  The image of a card (lines 116-120), [el] being the
    element that the image selector matches in the card, if any.  The image
    is the [data-src] attribute when [src] is missing, is empty or contains
    "data:image" at any position, in this spelling; in every other case it is
    [src].  In particular a [src] that is a "data:image..." placeholder next
    to a [data-src] gives the [data-src], also as the [image] field of the
    extracted product.  The code and the specification's words agree on
    every [src] that is not empty and in which "data:image" occurs at the
    start or not at all. *)
Theorem extractImage_fallback (selectors : SelectorSet.t) (card : DOM.Node)
    (el : option DOM.Element) :
  DOM.querySelector card (SelectorSet.image selectors) = Ok el →
  (attribute_of el "src" = None
   ∨ attribute_of el "src" = Some ""
   ∨ (∃ pre post,
        attribute_of el "src" = Some (pre +:+ "data:image" +:+ post)) →
   extractImage selectors card = Ok (attribute_of el "data-src"))
  ∧ (∀ s, attribute_of el "src" = Some s → s ≠ "" →
          (∀ pre post, s ≠ pre +:+ "data:image" +:+ post) →
          extractImage selectors card = Ok (Some s))
  ∧ (∀ rest url,
       attribute_of el "src" = Some ("data:image" +:+ rest) →
       attribute_of el "data-src" = Some url →
       extractImage selectors card = Ok (Some url)
       ∧ ∀ location_origin p,
           extractCard selectors location_origin card = Ok p →
           ProductSummary.image p = Some url)
  ∧ (attribute_of el "src" = None
     ∨ (∃ s, attribute_of el "src" = Some s ∧ s ≠ ""
             ∧ (placeholder s = true
                ∨ ∀ pre post, s ≠ pre +:+ "data:image" +:+ post)) →
     extractImage selectors card = Ok (imageBySpec el)).
Proof.
  intros Hel.
  assert (∀ name, getAttribute card (SelectorSet.image selectors) name
                  = Ok (attribute_of el name)) as Hattr.
  { intros name. unfold getAttribute, mbind, Res_bind, res_bind.
    rewrite Hel. by destruct el. }
  assert (needs_fallback (attribute_of el "src") = true →
          extractImage selectors card = Ok (attribute_of el "data-src"))
    as Hfall.
  { intros Hneed. unfold extractImage, mbind, Res_bind, res_bind.
    rewrite !Hattr. simpl. by rewrite Hneed. }
  assert (∀ s, attribute_of el "src" = Some s → s ≠ "" →
               (∀ pre post, s ≠ pre +:+ "data:image" +:+ post) →
               extractImage selectors card = Ok (Some s)) as Hkeep.
  { intros s Hsrc Hne Hno.
    assert (includes s "data:image" = false) as Hinc.
    { destruct (includes s "data:image") eqn:Hinc; [|done].
      apply includes_split in Hinc as (pre & post & ->).
      by destruct (Hno pre post). }
    unfold extractImage, mbind, Res_bind, res_bind.
    rewrite !Hattr. simpl. rewrite Hsrc. simpl. rewrite Hinc.
    by destruct s. }
  split_and!.
  - intros [Hsrc|[Hsrc|(pre & post & Hsrc)]]; apply Hfall; rewrite Hsrc; simpl;
      [done|done|].
    assert (includes (pre +:+ "data:image" +:+ post) "data:image" = true)
      as -> by (apply includes_split; eauto).
    apply orb_true_r.
  - exact Hkeep.
  - intros rest url Hsrc Hdata.
    assert (extractImage selectors card = Ok (Some url)) as Himage.
    { rewrite Hfall, Hdata; [done|]. rewrite Hsrc. simpl.
      apply (includes_prefix "data:image" rest). }
    split; [done|]. intros origin p.
    unfold extractCard, mbind, Res_bind, res_bind. rewrite Himage.
    repeat (case_match; try done). by intros [= <-].
  - unfold imageBySpec.
    intros [Hsrc|(s & Hsrc & Hne & [Hplace|Hno])]; rewrite Hsrc.
    + apply Hfall. by rewrite Hsrc.
    + rewrite Hplace. apply Hfall. rewrite Hsrc. simpl.
      apply startsWith_split in Hplace as [post ->].
      rewrite (includes_prefix "data:image" post). apply orb_true_r.
    + assert (placeholder s = false) as ->.
      { destruct (placeholder s) eqn:Hplace; [|done].
        apply startsWith_split in Hplace as [post ->].
        by destruct (Hno "" post). }
      by apply Hkeep.
Qed.

Lemma extractImage_fallback_witness :
  (extractImage Acme.selectors Acme.drill
   = Ok (Some "https://cdn.acme.test/d.png")
   ∧ ∀ p, extractCard Acme.selectors "https://acme.test" Acme.drill = Ok p →
          ProductSummary.image p = Some "https://cdn.acme.test/d.png")
  ∧ extractImage Acme.selectors Shop.plain
    = Ok (Some "https://cdn.acme.test/real.png")
  ∧ extractImage Acme.selectors Shop.shouting
    = Ok (Some "DATA:image/gif;base64,R0lGOD")
  ∧ extractImage Acme.selectors Shop.tagged = Ok None
  ∧ extractImage Acme.selectors Shop.unset
    = Ok (Some "https://cdn.acme.test/d.png").
Proof.
  split; [|split; [|split; [|split]]].
  - destruct (proj1 (proj2 (proj2
                (extractImage_fallback Acme.selectors Acme.drill
                   (Some (Acme.leaf ""
                            [("src", "data:image/gif;base64,R0lGOD");
                             ("data-src", "https://cdn.acme.test/d.png")]))
                   eq_refl)))
                "/gif;base64,R0lGOD" "https://cdn.acme.test/d.png"
                eq_refl eq_refl) as [Himage Hcard].
    split; [exact Himage|]. intros p. apply Hcard.
  - apply (proj1 (proj2
             (extractImage_fallback Acme.selectors Shop.plain
                (Some (Acme.leaf ""
                         [("src", "https://cdn.acme.test/real.png");
                          ("data-src", "https://cdn.acme.test/thumb.png")]))
                eq_refl))
             "https://cdn.acme.test/real.png" eq_refl).
    + discriminate.
    + apply includes_no_split. reflexivity.
  - apply (proj1 (proj2
             (extractImage_fallback Acme.selectors Shop.shouting
                (Some (Acme.leaf ""
                         [("src", "DATA:image/gif;base64,R0lGOD");
                          ("data-src", "https://cdn.acme.test/d.png")]))
                eq_refl))
             "DATA:image/gif;base64,R0lGOD" eq_refl).
    + discriminate.
    + apply includes_no_split. reflexivity.
  - apply (proj1
             (extractImage_fallback Acme.selectors Shop.tagged
                (Some (Acme.leaf ""
                         [("src",
                           "https://cdn.acme.test/real.png?alt=data:image")]))
                eq_refl)).
    right. right. by exists "https://cdn.acme.test/real.png?alt=", "".
  - apply (proj1
             (extractImage_fallback Acme.selectors Shop.unset
                (Some (Acme.leaf ""
                         [("src", "");
                          ("data-src", "https://cdn.acme.test/d.png")]))
                eq_refl)).
    right. by left.
Defined.





(** * Further properties of the scraper *)

(** ** The cache store, continued *)

(** A call that misses the cache and returns has opened a page, closed it as
    its last call to the driver, and returns an object whose flag is false. *)
Lemma search_miss_returns_log (env : Env) (siteConfig : SiteConfig.t)
    (query : string) (page : Z) (st st1 : State) (r1 : nat) :
  no_fresh_entry (now_lookup env) (getCacheKey siteConfig query page) st →
  search env siteConfig query page st = (Ok r1, st1) →
  ∃ products evs,
    scrape env siteConfig query = Ok products
    ∧ objects st1 !! r1
      = Some (stored_result env siteConfig query page products
                            (length (arrays st)))
    ∧ log st1 = (log st ++ evs ++ [EvClosePage])%list
    ∧ EvNewPage ∈ evs.
Proof.
  intros Hmiss Hrun.
  destruct (search_miss_run env siteConfig query page st Hmiss)
    as (evs & Hsearch & Hlast).
  rewrite Hsearch in Hrun. unfold after_miss in Hrun.
  destruct (launched env st) as [[]|]; [|done].
  destruct (newPage env) as [[]|]; [|done].
  destruct (Hlast eq_refl eq_refl) as (evs' & -> & Hin).
  destruct (scrape env siteConfig query) as [products|cause];
    destruct (closePage env) as [[]|]; try done.
  injection Hrun as <- <-. exists products, evs'. simpl.
  split_and!; [done|by apply list_lookup_middle|done|done].
Qed.

(** [clearCache] empties the cache and touches nothing else; after it every
    lookup misses, at any instant and for any key, and a [search] that
    returns has gone to the browser and returns a result that is not flagged
    as cached. *)
Theorem clearCache_then_miss (st : State) :
  ∃ st',
    clearCache st = (Ok (), st')
    ∧ cache st' = ∅
    ∧ same_but_cache st st'
    ∧ (∀ now key, getFromCache now key st' = (Ok None, st'))
    ∧ ∀ env siteConfig query page ref st'',
        search env siteConfig query page st' = (Ok ref, st'') →
        ∃ o evs,
          objects st'' !! ref = Some o
          ∧ SearchResult.cached o = false
          ∧ log st'' = (log st ++ evs ++ [EvClosePage])%list
          ∧ EvNewPage ∈ evs.
Proof.
  exists (MkState (browser st) ∅ (objects st) (arrays st) (log st)).
  assert (∀ now key,
            no_fresh_entry now key
              (MkState (browser st) ∅ (objects st) (arrays st) (log st)))
    as Hmiss.
  { intros now key e He. simpl in He. by rewrite lookup_empty in He. }
  split_and!; [done|done|by unfold same_but_cache| |].
  - intros now key. rewrite getFromCache_miss by apply Hmiss. simpl.
    by rewrite delete_empty.
  - intros env cfg q p ref st'' Hrun.
    destruct (search_miss_returns_log _ _ _ _ _ _ _ (Hmiss _ _) Hrun)
      as (products & evs & _ & Ho & Hlog & Hin).
    eexists _, evs. split_and!; [exact Ho|done|exact Hlog|exact Hin].
Qed.

Lemma clearCache_then_miss_witness :
  ∃ st',
    clearCache Acme.after_first = (Ok (), st')
    ∧ getFromCache 1 "Acme:drill:1" st' = (Ok None, st')
    ∧ ∃ o evs,
        objects (search (Acme.env 1 [Acme.drill]) Acme.siteConfig "drill" 1
                        st').2 !! 1 = Some o
        ∧ SearchResult.cached o = false
        ∧ log (search (Acme.env 1 [Acme.drill]) Acme.siteConfig "drill" 1
                      st').2
          = (log Acme.after_first ++ evs ++ [EvClosePage])%list.
Proof.
  destruct (clearCache_then_miss Acme.after_first)
    as (st' & Hclear & _ & _ & Hget & Hsearch).
  exists st'. split; [exact Hclear|]. split; [apply Hget|].
  injection Hclear as <-.
  destruct (Hsearch (Acme.env 1 [Acme.drill]) Acme.siteConfig "drill" 1%Z 1 _
              ltac:(vm_compute; reflexivity))
    as (o & evs & Ho & Hflag & Hlog & _).
  exists o, evs. split_and!; [exact Ho|exact Hflag|exact Hlog].
Defined.

(** [setCache] followed by [getFromCache] on the same key: the stored
    reference comes back exactly when less than 3 600 000 ms have passed on
    the clock (an entry of that very age is expired and is removed); the
    store leaves every other key alone and a second store on the key
    replaces the first. *)
Theorem setCache_getFromCache (st : State) (now now' : Z) (key : string)
    (data : nat) :
  ∃ st1,
    setCache now key data st = (Ok (), st1)
    ∧ same_but_cache st st1
    ∧ (∀ k, k ≠ key → cache st1 !! k = cache st !! k)
    ∧ ((now' - now < 3600000)%Z →
       getFromCache now' key st1 = (Ok (Some data), st1))
    ∧ ((3600000 ≤ now' - now)%Z →
       ∃ st2, getFromCache now' key st1 = (Ok None, st2)
              ∧ cache st2 = delete key (cache st)
              ∧ same_but_cache st st2)
    ∧ ∀ now2 data2,
        setCache now2 key data2 st1 = setCache now2 key data2 st.
Proof.
  eexists. split; [reflexivity|]. simpl.
  split_and!; [by unfold same_but_cache| | | |].
  - intros k Hk. by apply lookup_insert_ne.
  - intros Hsoon. eapply (getFromCache_hit _ _ _ (CacheEntry.Mk data now)).
    + apply lookup_insert_eq.
    + done.
  - intros Hlate. eexists. split.
    + apply getFromCache_miss. intros e He. simpl in He.
      rewrite lookup_insert_eq in He. injection He as <-.
      unfold cacheTimeout. simpl. lia.
    + simpl. split; [by rewrite delete_insert_eq|by unfold same_but_cache].
  - intros now2 data2. unfold setCache, set_cache. simpl.
    by rewrite insert_insert_eq.
Qed.

Lemma setCache_getFromCache_witness :
  ∃ st1,
    setCache 1000 "Acme:saw:2" 0 Acme.after_first = (Ok (), st1)
    ∧ getFromCache 3600999 "Acme:saw:2" st1 = (Ok (Some 0), st1)
    ∧ ∃ st2, getFromCache 3601000 "Acme:saw:2" st1 = (Ok None, st2)
             ∧ cache st2 !! "Acme:saw:2" = None.
Proof.
  destruct (setCache_getFromCache Acme.after_first 1000 3600999 "Acme:saw:2" 0)
    as (st1 & Hset & _ & _ & Hhit & _ & _).
  exists st1. split; [exact Hset|]. split; [apply Hhit; lia|].
  destruct (setCache_getFromCache Acme.after_first 1000 3601000 "Acme:saw:2" 0)
    as (st1' & Hset' & _ & _ & _ & Hmiss & _).
  rewrite Hset in Hset'. injection Hset' as <-.
  destruct (Hmiss ltac:(lia)) as (st2 & Hget & Hcache & _).
  exists st2. split; [exact Hget|]. rewrite Hcache. apply lookup_delete_eq.
Defined.

(** ** The calls made to the browser *)

Lemma search_try_calls (env : Env) (siteConfig : SiteConfig.t) (query : string)
    (page : Z) (key : string) (st : State) :
  ∃ evs,
    Forall (λ ev, inside_page ev = true) evs
    ∧ search_try env siteConfig query page key st
      = match scrape env siteConfig query with
        | Ok products =>
            (Ok (length (objects st)),
             MkState (browser st)
               (<[key := CacheEntry.Mk (length (objects st)) (now_store env)]>
                  (cache st))
               (objects st
                ++ [stored_result env siteConfig query page products
                                  (length (arrays st))])
               (arrays st ++ [products])
               (log st ++ evs))
        | Throw msg =>
            (Throw msg,
             MkState (browser st) (cache st) (objects st) (arrays st)
                     (log st ++ evs))
        end.
Proof.
  unfold search_try, scrape, waitForSelector, evaluate, driver, setCache,
    buildSearchUrl, bind, emit, lift, set_cache, new_array, new_object, ret,
    throw, mbind, Res_bind, res_bind.
  simpl.
  destruct (setViewport env) as [[]|m1]; simpl;
    [|eexists; split; [|by rewrite <- ?(assoc_L app)]; by repeat constructor].
  destruct (setUserAgent env) as [[]|m2]; simpl;
    [|eexists; split; [|by rewrite <- ?(assoc_L app)]; by repeat constructor].
  destruct (goto env _) as [[]|m3]; simpl;
    [|eexists; split; [|by rewrite <- ?(assoc_L app)]; by repeat constructor].
  destruct (DOM.querySelectorAll _ _) as [[|c cs]|m4] eqn:Hq; simpl;
    [eexists; split; [|by rewrite <- ?(assoc_L app)]; by repeat constructor| |
     eexists; split; [|by rewrite <- ?(assoc_L app)]; by repeat constructor].
  destruct (evaluateFault env) as [m5|]; simpl;
    [eexists; split; [|by rewrite <- ?(assoc_L app)]; by repeat constructor|].
  destruct (extractProducts _ _) as [ps|m6]; simpl;
    (eexists; split; [|by rewrite <- ?(assoc_L app)]; by repeat constructor).
Qed.

Lemma search_miss_calls (env : Env) (siteConfig : SiteConfig.t) (query : string)
    (page : Z) (st : State) :
  no_fresh_entry (now_lookup env) (getCacheKey siteConfig query page) st →
  ∃ evs,
    Forall (λ ev, inside_page ev = true) evs
    ∧ search env siteConfig query page st
      = after_miss env siteConfig query page st (request_calls env st evs).
Proof.
  intros Hmiss. unfold search, after_miss, request_calls, launched.
  unfold bind at 1. rewrite (getFromCache_miss _ _ _ Hmiss).
  unfold init, driver, bind, emit, lift, set_browser, try_finally, try_catch,
    search_catch, throw. simpl.
  set (key := getCacheKey siteConfig query page).
  destruct (browser st) eqn:Hb; simpl.
  - destruct (newPage env) as [[]|m]; simpl.
    + match goal with |- context [search_try ?e ?c ?q ?p ?k ?s] =>
        destruct (search_try_calls e c q p k s) as (evs & Hevs & ->) end.
      simpl. destruct (scrape env siteConfig query) as [ps|cause];
        destruct (closePage env) as [[]|m]; simpl.
      * exists evs. split; [done|]. by rewrite <- ?(assoc_L app).
      * exists evs. split; [done|]. by rewrite <- ?(assoc_L app).
      * exists (evs ++ [EvConsoleError "Scraping error:" cause])%list.
        split; [apply Forall_app; split; [done|by repeat constructor]|].
        by rewrite <- ?(assoc_L app).
      * exists (evs ++ [EvConsoleError "Scraping error:" cause])%list.
        split; [apply Forall_app; split; [done|by repeat constructor]|].
        by rewrite <- ?(assoc_L app).
    + by exists [].
  - destruct (launch env) as [[]|m0]; simpl.
    + destruct (newPage env) as [[]|m]; simpl.
      * match goal with |- context [search_try ?e ?c ?q ?p ?k ?s] =>
          destruct (search_try_calls e c q p k s) as (evs & Hevs & ->) end.
        simpl. destruct (scrape env siteConfig query) as [ps|cause];
          destruct (closePage env) as [[]|m]; simpl.
        -- exists evs. split; [done|]. by rewrite <- ?(assoc_L app).
        -- exists evs. split; [done|]. by rewrite <- ?(assoc_L app).
        -- exists (evs ++ [EvConsoleError "Scraping error:" cause])%list.
           split; [apply Forall_app; split; [done|by repeat constructor]|].
           by rewrite <- ?(assoc_L app).
        -- exists (evs ++ [EvConsoleError "Scraping error:" cause])%list.
           split; [apply Forall_app; split; [done|by repeat constructor]|].
           by rewrite <- ?(assoc_L app).
      * exists []. split; [done|]. by rewrite <- ?(assoc_L app).
    + by exists [].
Qed.

Lemma after_miss_log (env : Env) (siteConfig : SiteConfig.t) (query : string)
    (page : Z) (st : State) (evs : list Event) :
  log (after_miss env siteConfig query page st evs).2 = (log st ++ evs)%list.
Proof.
  unfold after_miss.
  repeat (case_match; simpl; try done).
Qed.

(** The page of a request.  A [search] that does not find its answer in the
    cache, with the browser up or launched and a page opened, logs: the
    launch if the browser was not up, the opening of one page, calls on that
    page, and the closing of the page as its last call, whether it returns or
    throws.  A [search] answered from the cache makes no call and does not
    start the browser. *)
Theorem search_opens_and_closes_one_page (env : Env) (siteConfig : SiteConfig.t)
    (query : string) (page : Z) (st : State) :
  (no_fresh_entry (now_lookup env) (getCacheKey siteConfig query page) st →
   launched env st = Ok () →
   newPage env = Ok () →
   ∃ r st' evs,
     search env siteConfig query page st = (r, st')
     ∧ Forall (λ ev, inside_page ev = true) evs
     ∧ log st'
       = (log st ++ (if browser st then [] else [EvLaunch])
          ++ [EvNewPage] ++ evs ++ [EvClosePage])%list
     ∧ browser st' = true)
  ∧ (∀ e, cache st !! getCacheKey siteConfig query page = Some e →
          (now_lookup env - CacheEntry.timestamp e < 3600000)%Z →
          ∃ r st',
            search env siteConfig query page st = (r, st')
            ∧ log st' = log st ∧ browser st' = browser st).
Proof.
  split.
  - intros Hmiss Hlaunch Hpage.
    destruct (search_miss_calls env siteConfig query page st Hmiss)
      as (evs & Hevs & Hsearch).
    exists (after_miss env siteConfig query page st
                       (request_calls env st evs)).1,
           (after_miss env siteConfig query page st
                       (request_calls env st evs)).2, evs.
    split_and!; [|done| |].
    + rewrite Hsearch. apply surjective_pairing.
    + rewrite after_miss_log. unfold request_calls.
      by rewrite Hlaunch, Hpage.
    + unfold after_miss. rewrite Hlaunch, Hpage.
      by repeat case_match.
  - intros e Hlook Hfresh. unfold search.
    unfold bind at 1. rewrite (getFromCache_hit _ _ _ _ Hlook Hfresh).
    unfold bind, read_object, new_object.
    destruct (objects st !! CacheEntry.data e); by eexists _, _.
Qed.

Lemma search_opens_and_closes_one_page_witness :
  (∃ r st' evs,
     search (Acme.offline 3600000) Acme.siteConfig "drill" 1 Acme.after_first
     = (r, st')
     ∧ Forall (λ ev, inside_page ev = true) evs
     ∧ log st'
       = (log Acme.after_first ++ [EvNewPage] ++ evs ++ [EvClosePage])%list)
  ∧ ∃ r st',
      search (Acme.offline 5) Acme.siteConfig "drill" 1 Acme.after_first
      = (r, st')
      ∧ log st' = log Acme.after_first.
Proof.
  split.
  - destruct (proj1 (search_opens_and_closes_one_page (Acme.offline 3600000)
                       Acme.siteConfig "drill" 1 Acme.after_first))
      as (r & st' & evs & Hrun & Hevs & Hlog & _).
    + intros e He. vm_compute in He. injection He as <-.
      unfold cacheTimeout. simpl. lia.
    + reflexivity.
    + reflexivity.
    + exists r, st', evs. split_and!; [exact Hrun|exact Hevs|exact Hlog].
  - destruct (proj2 (search_opens_and_closes_one_page (Acme.offline 5)
                       Acme.siteConfig "drill" 1 Acme.after_first)
                (CacheEntry.Mk 0 0))
      as (r & st' & Hrun & Hlog & _).
    + by vm_compute.
    + simpl. lia.
    + exists r, st'. split; [exact Hrun|exact Hlog].
Defined.

(** An error that arises before the [try] block is not wrapped.  When the
    browser cannot be launched, [search] throws the launch error as it is,
    opens no page and leaves [this.browser] unset, so that the next call
    tries the launch again; when the page cannot be opened, [search] throws
    that error as it is and closes nothing.  In both cases no result is
    created. *)
Theorem search_setup_error_not_wrapped (env : Env) (siteConfig : SiteConfig.t)
    (query : string) (page : Z) (st : State) (message : string) :
  no_fresh_entry (now_lookup env) (getCacheKey siteConfig query page) st →
  (browser st = false → launch env = Throw message →
   ∃ st',
     search env siteConfig query page st = (Throw message, st')
     ∧ browser st' = false
     ∧ log st' = (log st ++ [EvLaunch])%list
     ∧ objects st' = objects st ∧ arrays st' = arrays st)
  ∧ (launched env st = Ok () → newPage env = Throw message →
     ∃ st',
       search env siteConfig query page st = (Throw message, st')
       ∧ browser st' = true
       ∧ log st'
         = (log st ++ (if browser st then [] else [EvLaunch])
            ++ [EvNewPage])%list
       ∧ objects st' = objects st ∧ arrays st' = arrays st).
Proof.
  intros Hmiss.
  destruct (search_miss_calls env siteConfig query page st Hmiss)
    as (evs & _ & Hsearch).
  unfold after_miss, request_calls in Hsearch. split.
  - intros Hb Hlaunch. unfold launched in Hsearch.
    rewrite Hb, Hlaunch in Hsearch. eexists. split; [exact Hsearch|].
    simpl. split_and!; rewrite ?app_nil_r; done.
  - intros Hlaunch Hpage. rewrite Hlaunch, Hpage in Hsearch.
    eexists. split; [exact Hsearch|]. done.
Qed.

Lemma search_setup_error_not_wrapped_witness :
  ∃ st',
    search (MkEnv 0 0 "2026-02-16T12:00:00.000Z"
                  (Throw "Failed to launch the browser process!") (Ok ())
                  (Ok ()) (Ok ()) (λ _, Ok ()) (λ _, Acme.page_of [])
                  (λ sel, sel) None (Ok ()) (Ok ()))
           Acme.siteConfig "drill" 1 constructor
    = (Throw "Failed to launch the browser process!", st')
    ∧ browser st' = false
    ∧ log st' = [EvLaunch].
Proof.
  destruct (proj1 (search_setup_error_not_wrapped
                     (MkEnv 0 0 "2026-02-16T12:00:00.000Z"
                        (Throw "Failed to launch the browser process!") (Ok ())
                        (Ok ()) (Ok ()) (λ _, Ok ()) (λ _, Acme.page_of [])
                        (λ sel, sel) None (Ok ()) (Ok ()))
                     Acme.siteConfig "drill" 1 constructor
                     "Failed to launch the browser process!"
                     ltac:(intros e He; vm_compute in He; discriminate He))
              eq_refl eq_refl)
    as (st' & Hrun & Hb & Hlog & _).
  exists st'. split_and!; [exact Hrun|exact Hb|exact Hlog].
Defined.

(** When the scrape succeeds but closing the page fails, [search] throws the
    error of the close; the result has nevertheless been stored, and the same
    request within the hour is answered from the cache with it. *)
Theorem search_close_failure_keeps_entry (env : Env) (siteConfig : SiteConfig.t)
    (query : string) (page : Z) (st : State) (message : string)
    (products : list ProductSummary.t) :
  no_fresh_entry (now_lookup env) (getCacheKey siteConfig query page) st →
  launched env st = Ok () →
  newPage env = Ok () →
  scrape env siteConfig query = Ok products →
  closePage env = Throw message →
  ∃ st' o,
    search env siteConfig query page st = (Throw message, st')
    ∧ cache st' !! getCacheKey siteConfig query page
      = Some (CacheEntry.Mk (length (objects st)) (now_store env))
    ∧ points_to st' (length (objects st)) o products
    ∧ SearchResult.totalResults o = length products
    ∧ ∀ env2,
        (now_lookup env2 - now_store env < 3600000)%Z →
        ∃ ref st2,
          search env2 siteConfig query page st' = (Ok ref, st2)
          ∧ points_to st2 ref (SearchResult.with_cached o true) products
          ∧ log st2 = log st'.
Proof.
  intros Hmiss Hlaunch Hpage Hscrape Hclose.
  destruct (search_miss_calls env siteConfig query page st Hmiss)
    as (evs & _ & Hsearch).
  unfold after_miss in Hsearch.
  rewrite Hlaunch, Hpage, Hscrape, Hclose in Hsearch.
  eexists _, (stored_result env siteConfig query page products
                            (length (arrays st))).
  split; [exact Hsearch|]. simpl.
  split_and!; [apply lookup_insert_eq| |done|].
  - split; simpl; by apply list_lookup_middle.
  - intros env2 Hsoon. eexists _, _. split.
    + eapply (search_hit_run _ _ _ _ _
                (CacheEntry.Mk (length (objects st)) (now_store env))); simpl.
      * apply lookup_insert_eq.
      * done.
      * by apply list_lookup_middle.
    + simpl. split; [|done]. split; simpl.
      * by apply list_lookup_middle.
      * by apply list_lookup_middle.
Qed.

Lemma search_close_failure_keeps_entry_witness :
  ∃ st' o,
    search (MkEnv 0 0 "2026-02-16T12:00:00.000Z" (Ok ()) (Ok ()) (Ok ()) (Ok ())
                  (λ _, Ok ()) (λ _, Acme.page_of [Acme.drill])
                  (λ sel, sel) None (Throw "Protocol error: Target closed")
                  (Ok ()))
           Acme.siteConfig "drill" 1 constructor
    = (Throw "Protocol error: Target closed", st')
    ∧ points_to st' 0 o
        [ProductSummary.Mk (Some "roduct") (Some "Drill") None (Some "9.99")
           None (Some "https://cdn.acme.test/d.png")
           (Some "https://acme.test/product/AB12")]
    ∧ ∃ ref st2,
        search (Acme.offline 5) Acme.siteConfig "drill" 1 st' = (Ok ref, st2)
        ∧ objects st2 !! ref = Some (SearchResult.with_cached o true).
Proof.
  destruct (search_close_failure_keeps_entry
              (MkEnv 0 0 "2026-02-16T12:00:00.000Z" (Ok ()) (Ok ()) (Ok ())
                 (Ok ()) (λ _, Ok ()) (λ _, Acme.page_of [Acme.drill])
                 (λ sel, sel) None (Throw "Protocol error: Target closed")
                 (Ok ()))
              Acme.siteConfig "drill" 1 constructor
              "Protocol error: Target closed"
              [ProductSummary.Mk (Some "roduct") (Some "Drill") None
                 (Some "9.99") None (Some "https://cdn.acme.test/d.png")
                 (Some "https://acme.test/product/AB12")]
              ltac:(intros e He; vm_compute in He; discriminate He)
              eq_refl eq_refl ltac:(vm_compute; reflexivity) eq_refl)
    as (st' & o & Hrun & _ & Hp & _ & Hnext).
  exists st', o. split; [exact Hrun|]. split; [exact Hp|].
  destruct (Hnext (Acme.offline 5) ltac:(simpl; lia))
    as (ref & st2 & Hrun2 & [Ho _] & _).
  exists ref, st2. split; [exact Hrun2|exact Ho].
Defined.

(** ** The browser process *)

(** [init] and [close].  [init] launches the browser only when none is held:
    once a launch has succeeded, a further [init] does nothing, whatever the
    driver would answer; a failed launch leaves the scraper without a browser
    and throws.  [close] on a scraper without a browser does nothing and
    calls nothing.  On a scraper with one it asks the browser to close: when
    that succeeds the browser is forgotten, so that a further [close] does
    nothing and the next [init] launches again; when it fails [close] throws
    the browser's error and the scraper still holds the browser, so that
    [init] does nothing and a further [close] asks again.  Either way the
    cache and the stored results are kept. *)
Theorem init_close_lifecycle (env : Env) (st : State) :
  (browser st = true → init env st = (Ok (), st))
  ∧ (browser st = false → launch env = Ok () →
     ∃ st', init env st = (Ok (), st')
            ∧ browser st' = true
            ∧ log st' = (log st ++ [EvLaunch])%list
            ∧ cache st' = cache st
            ∧ ∀ env', init env' st' = (Ok (), st'))
  ∧ (∀ message, browser st = false → launch env = Throw message →
     ∃ st', init env st = (Throw message, st')
            ∧ browser st' = false
            ∧ log st' = (log st ++ [EvLaunch])%list)
  ∧ (browser st = false → close env st = (Ok (), st))
  ∧ (browser st = true → closeBrowser env = Ok () →
     ∃ st', close env st = (Ok (), st')
            ∧ browser st' = false
            ∧ log st' = (log st ++ [EvCloseBrowser])%list
            ∧ cache st' = cache st
            ∧ objects st' = objects st
            ∧ arrays st' = arrays st
            ∧ (∀ env', close env' st' = (Ok (), st'))
            ∧ ∀ env', launch env' = Ok () →
                ∃ st2, init env' st' = (Ok (), st2)
                       ∧ log st2 = (log st' ++ [EvLaunch])%list)
  ∧ (∀ message, browser st = true → closeBrowser env = Throw message →
     ∃ st', close env st = (Throw message, st')
            ∧ browser st' = true
            ∧ log st' = (log st ++ [EvCloseBrowser])%list
            ∧ cache st' = cache st
            ∧ objects st' = objects st
            ∧ arrays st' = arrays st
            ∧ (∀ env', init env' st' = (Ok (), st'))
            ∧ ∀ env', closeBrowser env' = Ok () →
                ∃ st2, close env' st' = (Ok (), st2)
                       ∧ browser st2 = false
                       ∧ log st2
                         = (log st ++ [EvCloseBrowser; EvCloseBrowser])%list).
Proof.
  unfold init, close, driver, bind, emit, lift, set_browser.
  split_and!.
  - by intros ->.
  - intros -> ->. simpl. eexists. by split_and!.
  - intros message -> ->. simpl. eexists. by split_and!.
  - by intros ->.
  - intros -> ->. simpl. eexists. split_and!; try done.
    intros env' ->. simpl. eexists. by split_and!.
  - intros message -> ->. simpl. eexists. split_and!; try done.
    intros env' ->. simpl. eexists. split_and!; try done.
    by rewrite <- (assoc_L app).
Qed.

Lemma init_close_lifecycle_witness :
  (∃ st', init (Acme.env 0 []) constructor = (Ok (), st')
          ∧ browser st' = true
          ∧ ∀ env', init env' st' = (Ok (), st'))
  ∧ close (Acme.env 0 []) constructor = (Ok (), constructor)
  ∧ (∃ st', close (Acme.env 0 []) Acme.after_first = (Ok (), st')
            ∧ browser st' = false
            ∧ cache st' = cache Acme.after_first
            ∧ ∀ env', close env' st' = (Ok (), st'))
  ∧ ∃ st', close Acme.stuck Acme.after_first
           = (Throw "Protocol error: Connection closed", st')
           ∧ browser st' = true
           ∧ cache st' = cache Acme.after_first
           ∧ ∀ env', init env' st' = (Ok (), st').
Proof.
  pose proof (init_close_lifecycle (Acme.env 0 []) constructor)
    as (_ & Hlaunch & _ & Hnone & _).
  pose proof (init_close_lifecycle (Acme.env 0 []) Acme.after_first)
    as (_ & _ & _ & _ & Hclose & _).
  pose proof (init_close_lifecycle Acme.stuck Acme.after_first)
    as (_ & _ & _ & _ & _ & Hfail).
  split_and!.
  - destruct (Hlaunch eq_refl eq_refl) as (st' & H1 & H2 & _ & _ & H3).
    exists st'. split_and!; [exact H1|exact H2|exact H3].
  - apply Hnone. reflexivity.
  - destruct (Hclose eq_refl eq_refl)
      as (st' & H1 & H2 & _ & H3 & _ & _ & H4 & _).
    exists st'. split_and!; [exact H1|exact H2|exact H3|exact H4].
  - destruct (Hfail "Protocol error: Connection closed" eq_refl eq_refl)
      as (st' & H1 & H2 & _ & H3 & _ & _ & H4 & _).
    exists st'. split_and!; [exact H1|exact H2|exact H3|exact H4].
Defined.

(** ** What a call of [search] leaves alone *)

(** Whatever its outcome, a [search] changes no entry of the cache other
    than the one of its own key. *)
Theorem search_keeps_other_keys (env : Env) (siteConfig : SiteConfig.t)
    (query : string) (page : Z) (st st' : State) (r : Res nat) (k : string) :
  search env siteConfig query page st = (r, st') →
  k ≠ getCacheKey siteConfig query page →
  cache st' !! k = cache st !! k.
Proof.
  intros Hrun Hk.
  destruct (getFromCache_cases (now_lookup env)
              (getCacheKey siteConfig query page) st)
    as [(e & Hlook & Hfresh & _)|[Hstale _]].
  - revert Hrun. unfold search. unfold bind at 1.
    rewrite (getFromCache_hit _ _ _ _ Hlook Hfresh).
    unfold bind, read_object, new_object.
    destruct (objects st !! CacheEntry.data e); by intros [= _ <-].
  - destruct (search_miss_run env siteConfig query page st Hstale)
      as (evs & Hsearch & _).
    rewrite Hsearch in Hrun. unfold after_miss in Hrun.
    repeat case_match; injection Hrun as _ <-; simpl;
      rewrite ?lookup_insert_ne by done; by rewrite lookup_delete_ne.
Qed.

Lemma search_keeps_other_keys_witness :
  cache (search (Acme.env 7 [Acme.saw]) Acme.siteConfig "saw" 2
                Acme.after_first).2 !! "Acme:drill:1"
  = cache Acme.after_first !! "Acme:drill:1".
Proof.
  apply (search_keeps_other_keys (Acme.env 7 [Acme.saw]) Acme.siteConfig
           "saw" 2 Acme.after_first _
           (search (Acme.env 7 [Acme.saw]) Acme.siteConfig "saw" 2
                   Acme.after_first).1).
  - apply surjective_pairing.
  - vm_compute. discriminate.
Defined.

(** Whatever its outcome, a [search] only adds to the heap: every object and
    every array that existed before the call is still there, unchanged, so a
    result that was handed out earlier is never modified by a later call.  At
    most one object and one array are added. *)
Theorem search_only_allocates (env : Env) (siteConfig : SiteConfig.t)
    (query : string) (page : Z) (st st' : State) (r : Res nat) :
  search env siteConfig query page st = (r, st') →
  (∀ ref o, objects st !! ref = Some o → objects st' !! ref = Some o)
  ∧ (∀ ref ps, arrays st !! ref = Some ps → arrays st' !! ref = Some ps)
  ∧ (length (objects st') ≤ S (length (objects st)))%nat
  ∧ (length (arrays st') ≤ S (length (arrays st)))%nat.
Proof.
  intros Hrun.
  assert (∃ os ars, objects st' = (objects st ++ os)%list
                    ∧ arrays st' = (arrays st ++ ars)%list
                    ∧ (length os ≤ 1)%nat ∧ (length ars ≤ 1)%nat)
    as (os & ars & Ho & Ha & Hlo & Hla).
  { destruct (getFromCache_cases (now_lookup env)
                (getCacheKey siteConfig query page) st)
      as [(e & Hlook & Hfresh & _)|[Hstale _]].
    - revert Hrun. unfold search. unfold bind at 1.
      rewrite (getFromCache_hit _ _ _ _ Hlook Hfresh).
      unfold bind, read_object, new_object.
      destruct (objects st !! CacheEntry.data e); intros [= _ <-]; simpl.
      + eexists [_], [].
        split_and!; [reflexivity|by rewrite app_nil_r|simpl; lia|simpl; lia].
      + exists [], []. rewrite !app_nil_r.
        split_and!; [done|done|simpl; lia|simpl; lia].
    - destruct (search_miss_run env siteConfig query page st Hstale)
        as (evs & Hsearch & _).
      rewrite Hsearch in Hrun. unfold after_miss in Hrun.
      repeat case_match; injection Hrun as _ <-; simpl;
        first [ eexists [_], [_];
                split_and!; [reflexivity|reflexivity|simpl; lia|simpl; lia]
              | exists [], []; rewrite !app_nil_r;
                split_and!; [done|done|simpl; lia|simpl; lia] ]. }
  rewrite Ho, Ha, !length_app. split_and!; try lia.
  - intros ref o. apply lookup_app_l_Some.
  - intros ref ps. apply lookup_app_l_Some.
Qed.

Lemma search_only_allocates_witness :
  ∃ o,
    objects Acme.after_first !! 0 = Some o
    ∧ objects (search (Acme.env 3600000 []) Acme.siteConfig "drill" 1
                      Acme.after_first).2 !! 0 = Some o.
Proof.
  destruct (objects Acme.after_first !! 0) as [o|] eqn:Ho;
    [|vm_compute in Ho; discriminate Ho].
  exists o. split; [reflexivity|].
  apply (proj1 (search_only_allocates (Acme.env 3600000 []) Acme.siteConfig
                  "drill" 1 Acme.after_first _
                  (search (Acme.env 3600000 []) Acme.siteConfig "drill" 1
                          Acme.after_first).1
                  (surjective_pairing _)) 0 o Ho).
Defined.

(** ** Cache keys and what they identify *)

Lemma split_at_colon (a a' r r' : string) :
  no_colon a = true → no_colon a' = true →
  a +:+ ":" +:+ r = a' +:+ ":" +:+ r' →
  a = a' ∧ r = r'.
Proof.
  revert a'. induction a as [|c a IH]; intros [|c' a'] Ha Ha' Heq;
    cbn in Ha, Ha'; unfold append in Heq; fold append in Heq.
  - by injection Heq as ->.
  - injection Heq as <- _. by rewrite Ascii.eqb_refl in Ha'.
  - injection Heq as -> _. by rewrite Ascii.eqb_refl in Ha.
  - injection Heq as -> Heq.
    apply andb_prop in Ha as [_ Ha]. apply andb_prop in Ha' as [_ Ha'].
    destruct (IH a' Ha Ha' Heq) as [-> ->]. done.
Qed.

(** When neither the site names nor the queries contain a ':', requests
    with the same cache key have the same site name, the same query (letter
    case included) and the same page. *)
Theorem getCacheKey_injective (c1 c2 : SiteConfig.t) (q1 q2 : string)
    (p1 p2 : Z) :
  no_colon (SiteConfig.name c1) = true → no_colon q1 = true →
  no_colon (SiteConfig.name c2) = true → no_colon q2 = true →
  getCacheKey c1 q1 p1 = getCacheKey c2 q2 p2 →
  SiteConfig.name c1 = SiteConfig.name c2 ∧ q1 = q2 ∧ p1 = p2.
Proof.
  intros Hn1 Hq1 Hn2 Hq2 Hkey. unfold getCacheKey in Hkey.
  destruct (split_at_colon _ _ _ _ Hn1 Hn2 Hkey) as [Hname Hrest].
  destruct (split_at_colon _ _ _ _ Hq1 Hq2 Hrest) as [Hquery Hpage].
  split_and!; [done|done|]. by apply (inj pretty).
Qed.

Lemma getCacheKey_injective_witness :
  getCacheKey Acme.siteConfig "Drill" 1 ≠ getCacheKey Acme.siteConfig "drill" 1.
Proof.
  intros Hkey.
  destruct (getCacheKey_injective Acme.siteConfig Acme.siteConfig
              "Drill" "drill" 1 1 eq_refl eq_refl eq_refl eq_refl Hkey)
    as (_ & Hq & _).
  discriminate Hq.
Defined.

(** The key does not mention the URL template or the selectors: once a
    request has been scraped and stored, a request with the same site name,
    query and page but another template and other selectors, arriving within
    the hour, is answered from the cache with a copy of the first result, and
    the browser is not called. *)
Theorem search_cache_ignores_selectors (env1 env2 : Env)
    (cfg1 cfg2 : SiteConfig.t) (query : string) (page : Z)
    (st st1 : State) (r1 : nat) :
  SiteConfig.name cfg1 = SiteConfig.name cfg2 →
  no_fresh_entry (now_lookup env1) (getCacheKey cfg1 query page) st →
  search env1 cfg1 query page st = (Ok r1, st1) →
  (now_lookup env2 - now_store env1 < 3600000)%Z →
  ∃ r2 st2 o1 ps,
    search env2 cfg2 query page st1 = (Ok r2, st2)
    ∧ scrape env1 cfg1 query = Ok ps
    ∧ points_to st1 r1 o1 ps
    ∧ points_to st2 r2 (SearchResult.with_cached o1 true) ps
    ∧ log st2 = log st1.
Proof.
  intros Hname Hmiss Hrun Hsoon.
  assert (getCacheKey cfg1 query page = getCacheKey cfg2 query page) as Hkey.
  { unfold getCacheKey. by rewrite Hname. }
  destruct (search_then_hit env1 env2 cfg1 cfg2 query query page page
              st st1 r1 Hkey Hmiss Hrun Hsoon)
    as (products & Hscrape & -> & Hlen & Hp & Hc & Hsecond).
  eexists _, _, _, products. split; [exact Hsecond|].
  split_and!; [done|exact Hp| |done].
  destruct Hp as [Ho Ha].
  split; simpl; [by apply list_lookup_middle|done].
Qed.

Lemma search_cache_ignores_selectors_witness :
  ∃ r2 st2 o1 ps,
    search (Acme.env 5 [])
           (SiteConfig.Mk "Acme" "https://elsewhere.test/find/{query}"
              (SelectorSet.Mk "li" "h2" "b" "picture" "link" None None))
           "drill" 1 Acme.after_first
    = (Ok r2, st2)
    ∧ points_to Acme.after_first 0 o1 ps
    ∧ points_to st2 r2 (SearchResult.with_cached o1 true) ps.
Proof.
  destruct (search_cache_ignores_selectors
              (Acme.env 0 [Acme.drill; Acme.saw]) (Acme.env 5 [])
              Acme.siteConfig
              (SiteConfig.Mk "Acme" "https://elsewhere.test/find/{query}"
                 (SelectorSet.Mk "li" "h2" "b" "picture" "link" None None))
              "drill" 1 constructor Acme.after_first 0 eq_refl
              ltac:(intros e He; vm_compute in He; discriminate He)
              ltac:(vm_compute; reflexivity)
              ltac:(simpl; lia))
    as (r2 & st2 & o1 & ps & Hrun & _ & Hp1 & Hp2 & _).
  exists r2, st2, o1, ps. split_and!; [exact Hrun|exact Hp1|exact Hp2].
Defined.

(** An entry is superseded once it has expired.  When the same request comes
    again an hour or more after its result was stored and the scrape
    succeeds again, a new object is created and the entry of the key now
    refers to it, with the instant of the new store; the object returned the
    first time stays as it was. *)
Theorem search_after_expiry_rescrapes (env1 env2 : Env)
    (siteConfig : SiteConfig.t) (query : string) (page : Z)
    (st st1 st2 : State) (r1 r2 : nat) :
  no_fresh_entry (now_lookup env1) (getCacheKey siteConfig query page) st →
  search env1 siteConfig query page st = (Ok r1, st1) →
  (3600000 ≤ now_lookup env2 - now_store env1)%Z →
  search env2 siteConfig query page st1 = (Ok r2, st2) →
  r2 = S r1
  ∧ cache st2 !! getCacheKey siteConfig query page
    = Some (CacheEntry.Mk r2 (now_store env2))
  ∧ objects st2 !! r1 = objects st1 !! r1
  ∧ ∃ o2 ps2,
      scrape env2 siteConfig query = Ok ps2
      ∧ points_to st2 r2 o2 ps2
      ∧ SearchResult.cached o2 = false
      ∧ SearchResult.timestamp o2 = now_iso env2.
Proof.
  intros Hmiss1 Hrun1 Hlate Hrun2.
  destruct (search_miss_returns _ _ _ _ _ _ _ Hmiss1 Hrun1)
    as (ps1 & evs1 & Hscrape1 & -> & ->).
  assert (no_fresh_entry (now_lookup env2) (getCacheKey siteConfig query page)
            (MkState true
               (<[getCacheKey siteConfig query page
                  := CacheEntry.Mk (length (objects st)) (now_store env1)]>
                  (delete (getCacheKey siteConfig query page) (cache st)))
               (objects st
                ++ [stored_result env1 siteConfig query page ps1
                                  (length (arrays st))])
               (arrays st ++ [ps1]) (log st ++ evs1))) as Hmiss2.
  { intros e He. simpl in He. rewrite lookup_insert_eq in He.
    injection He as <-. unfold cacheTimeout. simpl. lia. }
  destruct (search_miss_returns _ _ _ _ _ _ _ Hmiss2 Hrun2)
    as (ps2 & evs2 & Hscrape2 & -> & ->).
  simpl. split_and!.
  - rewrite length_app. simpl. lia.
  - apply lookup_insert_eq.
  - apply lookup_app_l. rewrite length_app. simpl. lia.
  - eexists (stored_result env2 siteConfig query page ps2 _), ps2.
    split; [done|]. split_and!; [|done|done].
    split; simpl; by apply list_lookup_middle.
Qed.

Lemma search_after_expiry_rescrapes_witness :
  cache (search (Acme.env 3600000 [Acme.saw; Acme.drill]) Acme.siteConfig
                "drill" 1 Acme.after_first).2 !! "Acme:drill:1"
  = Some (CacheEntry.Mk 1 3600000)
  ∧ objects (search (Acme.env 3600000 [Acme.saw; Acme.drill]) Acme.siteConfig
                    "drill" 1 Acme.after_first).2 !! 0
    = objects Acme.after_first !! 0.
Proof.
  destruct (search_after_expiry_rescrapes
              (Acme.env 0 [Acme.drill; Acme.saw])
              (Acme.env 3600000 [Acme.saw; Acme.drill])
              Acme.siteConfig "drill" 1 constructor Acme.after_first
              (search (Acme.env 3600000 [Acme.saw; Acme.drill]) Acme.siteConfig
                      "drill" 1 Acme.after_first).2 0 1
              ltac:(intros e He; vm_compute in He; discriminate He)
              ltac:(vm_compute; reflexivity)
              ltac:(simpl; lia)
              ltac:(vm_compute; reflexivity))
    as (_ & Hcache & Hold & _).
  split; [exact Hcache|exact Hold].
Defined.

(** ** The search URL *)

Lemma app_cancel_l (p s t : string) : p +:+ s = p +:+ t → s = t.
Proof.
  induction p as [|c p IH]; [done|].
  rewrite !app_cons. intros [= H]. by apply IH.
Qed.

Lemma length_append (s t : string) :
  String.length (s +:+ t) = (String.length s + String.length t)%nat.
Proof.
  induction s as [|c s IH]; [done|].
  rewrite app_cons. simpl. by rewrite IH.
Qed.

Lemma app_cancel_r (s t p : string) : s +:+ p = t +:+ p → s = t.
Proof.
  revert t. induction s as [|c s IH]; intros [|d t] Heq.
  - done.
  - apply (f_equal String.length) in Heq.
    rewrite app_cons, app_empty_l in Heq. simpl in Heq.
    rewrite length_append in Heq. lia.
  - apply (f_equal String.length) in Heq.
    rewrite app_cons, app_empty_l in Heq. simpl in Heq.
    rewrite length_append in Heq. lia.
  - rewrite !app_cons in Heq. injection Heq as -> Heq.
    by rewrite (IH t Heq).
Qed.

Lemma drop_str_app (p r : string) : drop_str (String.length p) (p +:+ r) = r.
Proof. induction p as [|c p IH]; [done|]. by rewrite app_cons. Qed.

Lemma replace_first_absent (s pat rep : string) :
  includes s pat = false → replace_first s pat rep = s.
Proof.
  induction s as [|c s IH]; simpl.
  - by destruct (startsWith "" pat).
  - destruct (startsWith (String c s) pat); [done|].
    intros H. by rewrite IH.
Qed.

Lemma replace_first_at (c : ascii) (pre pat post rep : string) :
  lacks c pre = true →
  replace_first (pre +:+ String c pat +:+ post) (String c pat) rep
  = pre +:+ rep +:+ post.
Proof.
  induction pre as [|d pre IH]; intros Hpre.
  - rewrite !app_empty_l.
    pose proof (startsWith_app (String c pat) post) as Hs.
    pose proof (drop_str_app (String c pat) post) as Hd.
    rewrite app_cons in Hs, Hd. rewrite app_cons.
    cbn [replace_first]. by rewrite Hs, Hd.
  - cbn [lacks] in Hpre. apply andb_prop in Hpre as [Hd Hpre].
    rewrite !app_cons. cbn [replace_first startsWith].
    rewrite Ascii.eqb_sym.
    destruct (Ascii.eqb d c); [done|]. f_equal. exact (IH Hpre).
Qed.

(** [encodeURIComponent] writes letters, digits, the marks - _ . ! ~ * ' ( )
    and '%' only. *)
Lemma encodeURIComponent_alphabet (s : string) :
  all_chars (λ c, uri_unreserved c || Ascii.eqb c "%") (encodeURIComponent s)
  = true.
Proof.
  induction s as [|c s IH]; [done|].
  cbn [encodeURIComponent].
  destruct (uri_unreserved c) eqn:Hc.
  - rewrite app_cons, app_empty_l. cbn [all_chars]. by rewrite Hc, IH.
  - unfold percent_encode. rewrite !app_cons, app_empty_l.
    cbn [all_chars]. rewrite IH.
    assert (∀ n, uri_unreserved (hex_digit n) = true) as Hhex.
    { intros n. do 15 (destruct n as [|n]; [done|]). done. }
    by rewrite !Hhex.
Qed.

Lemma hex_digit_inj (k k' : nat) :
  (k < 16)%nat → (k' < 16)%nat → hex_digit k = hex_digit k' → k = k'.
Proof.
  intros Hk Hk' H.
  do 16 (destruct k as [|k];
         [do 16 (destruct k' as [|k'];
                 [first [reflexivity|discriminate H]|]); lia|]).
  lia.
Qed.

Lemma percent_encode_inj (c c' : ascii) :
  percent_encode c = percent_encode c' → c = c'.
Proof.
  unfold percent_encode. cbv zeta. intros H.
  assert (hex_digit (nat_of_ascii c / 16) = hex_digit (nat_of_ascii c' / 16))
    as Hhi by congruence.
  assert (hex_digit (nat_of_ascii c mod 16)
          = hex_digit (nat_of_ascii c' mod 16)) as Hlo by congruence.
  clear H.
  pose proof (nat_ascii_bounded c) as Hc.
  pose proof (nat_ascii_bounded c') as Hc'.
  apply hex_digit_inj in Hhi;
    [|apply Nat.Div0.div_lt_upper_bound; lia..].
  apply hex_digit_inj in Hlo; [|apply Nat.mod_upper_bound; lia..].
  rewrite <- (ascii_nat_embedding c), <- (ascii_nat_embedding c').
  f_equal.
  rewrite (Nat.div_mod_eq (nat_of_ascii c) 16),
          (Nat.div_mod_eq (nat_of_ascii c') 16).
  by rewrite Hhi, Hlo.
Qed.

Lemma encodeURIComponent_inj (s t : string) :
  encodeURIComponent s = encodeURIComponent t → s = t.
Proof.
  revert t. induction s as [|c s IH]; intros [|d t]; cbn [encodeURIComponent].
  - done.
  - destruct (uri_unreserved d); unfold percent_encode;
      rewrite ?app_cons; discriminate.
  - destruct (uri_unreserved c); unfold percent_encode;
      rewrite ?app_cons; discriminate.
  - destruct (uri_unreserved c) eqn:Hc, (uri_unreserved d) eqn:Hd.
    + rewrite !app_cons, !app_empty_l. intros [= -> H]. by rewrite (IH t H).
    + unfold percent_encode. rewrite !app_cons, !app_empty_l.
      intros [= -> _]. discriminate Hc.
    + unfold percent_encode. rewrite !app_cons, !app_empty_l.
      intros [= <- _]. discriminate Hd.
    + intros H.
      assert (percent_encode c = percent_encode d
              ∧ encodeURIComponent s = encodeURIComponent t) as [Hp Hs].
      { revert H. unfold percent_encode. cbv zeta.
        rewrite !app_cons, !app_empty_l. intros H. split; congruence. }
      by rewrite (percent_encode_inj _ _ Hp), (IH t Hs).
Qed.

(** The URL that [search] navigates to (line 89).  A template without
    "{query}" is used as it is, whatever the query.  In a template
    [pre{query}post] whose [pre] has no '{', the first placeholder, and only
    it, is replaced by the encoded query; the inserted text consists of
    letters, digits, the marks - _ . ! ~ * ' ( ) and %XX escapes only, and two
    different queries give two different URLs. *)
Theorem buildSearchUrl_placeholder (name : string) (selectors : SelectorSet.t) :
  (∀ template query,
     includes template "{query}" = false →
     buildSearchUrl (SiteConfig.Mk name template selectors) query = template)
  ∧ (∀ pre post query,
       lacks "{" pre = true →
       buildSearchUrl
         (SiteConfig.Mk name (pre +:+ "{query}" +:+ post) selectors) query
       = pre +:+ encodeURIComponent query +:+ post)
  ∧ (∀ query,
       all_chars (λ c, uri_unreserved c || Ascii.eqb c "%")
                 (encodeURIComponent query) = true)
  ∧ (∀ pre post q1 q2,
       lacks "{" pre = true →
       buildSearchUrl
         (SiteConfig.Mk name (pre +:+ "{query}" +:+ post) selectors) q1
       = buildSearchUrl
           (SiteConfig.Mk name (pre +:+ "{query}" +:+ post) selectors) q2 →
       q1 = q2).
Proof.
  assert (∀ pre post query,
            lacks "{" pre = true →
            buildSearchUrl
              (SiteConfig.Mk name (pre +:+ "{query}" +:+ post) selectors) query
            = pre +:+ encodeURIComponent query +:+ post) as Hat.
  { intros pre post query Hpre. unfold buildSearchUrl. simpl.
    by apply (replace_first_at "{" pre "query}" post). }
  split_and!.
  - intros template query Hno. unfold buildSearchUrl. simpl.
    by apply replace_first_absent.
  - exact Hat.
  - apply encodeURIComponent_alphabet.
  - intros pre post q1 q2 Hpre. rewrite !Hat by done. intros Heq.
    apply app_cancel_l, app_cancel_r in Heq.
    by apply encodeURIComponent_inj.
Qed.

Lemma buildSearchUrl_placeholder_witness :
  buildSearchUrl (SiteConfig.Mk "Acme" "https://acme.test/all" Acme.selectors)
                 "drill"
  = "https://acme.test/all"
  ∧ buildSearchUrl
      (SiteConfig.Mk "Acme" "https://acme.test/s?q={query}&again={query}"
                     Acme.selectors) "a b&c"
    = "https://acme.test/s?q=a%20b%26c&again={query}".
Proof.
  destruct (buildSearchUrl_placeholder "Acme" Acme.selectors)
    as (Hnone & Hat & _ & _).
  split.
  - apply Hnone. reflexivity.
  - apply (Hat "https://acme.test/s?q=" "&again={query}" "a b&c"). reflexivity.
Defined.

(** ** What the product code is made of *)

Lemma match_atoms_sound (atoms : list (ascii → bool)) (s rest : string) :
  match_atoms atoms s = Some rest →
  ∃ mid, s = mid +:+ rest ∧ atoms_accept atoms mid = true.
Proof.
  revert s. induction atoms as [|a atoms IH]; intros s; simpl.
  - intros [= ->]. by exists "".
  - destruct s as [|c s]; [done|].
    destruct (a c) eqn:Ha; [|done]. intros H.
    destruct (IH s H) as (mid & -> & Hmid).
    exists (String c mid). split; [done|]. simpl. by rewrite Ha.
Qed.

Lemma take_while_split (cls : ascii → bool) (s : string) :
  ∃ rest, s = take_while cls s +:+ rest
          ∧ all_chars cls (take_while cls s) = true
          ∧ stops cls rest = true.
Proof.
  induction s as [|c s (rest & Hs & Hall & Hstop)]; simpl.
  - by exists "".
  - destruct (cls c) eqn:Hc.
    + exists rest. rewrite app_cons, <- Hs. simpl. by rewrite Hc.
    + exists (String c s). simpl. by rewrite Hc.
Qed.

Lemma match_here_sound (re : Regex) (s g : string) :
  match_here re s = Some g →
  ∃ mid rest, s = mid +:+ g +:+ rest
              ∧ atoms_accept (re_atoms re) mid = true
              ∧ g ≠ ""
              ∧ all_chars (re_class re) g = true
              ∧ stops (re_class re) rest = true.
Proof.
  unfold match_here.
  destruct (match_atoms (re_atoms re) s) as [after|] eqn:Hatoms; [|done].
  destruct (match_atoms_sound _ _ _ Hatoms) as (mid & -> & Hmid).
  destruct (take_while_split (re_class re) after) as (rest & Hs & Hall & Hstop).
  destruct (take_while (re_class re) after) as [|c g'] eqn:Hg; [done|].
  intros [= <-]. exists mid, rest. by rewrite <- Hs.
Qed.

Lemma append_assoc (a b c : string) : (a +:+ b) +:+ c = a +:+ b +:+ c.
Proof. induction a as [|x a IH]; [done|]. by rewrite !app_cons, IH. Qed.

Lemma regex_match_sound (re : Regex) (s g : string) :
  regex_match re s = Some g →
  ∃ pre mid rest, s = pre +:+ mid +:+ g +:+ rest
                  ∧ atoms_accept (re_atoms re) mid = true
                  ∧ g ≠ ""
                  ∧ all_chars (re_class re) g = true
                  ∧ stops (re_class re) rest = true.
Proof.
  induction s as [|c s IH]; cbn [regex_match].
  - destruct (match_here re "") eqn:Hh; [|done]. intros [= ->].
    destruct (match_here_sound _ _ _ Hh) as (mid & rest & H).
    by exists "", mid, rest.
  - destruct (match_here re (String c s)) eqn:Hh.
    + intros [= ->].
      destruct (match_here_sound _ _ _ Hh) as (mid & rest & H).
      by exists "", mid, rest.
    + intros H. destruct (IH H) as (pre & mid & rest & -> & Hrest).
      by exists (String c pre), mid, rest.
Qed.

Lemma regex_match_none (re : Regex) (pre suf : string) :
  regex_match re (pre +:+ suf) = None → match_here re suf = None.
Proof.
  induction pre as [|c pre IH].
  - rewrite app_empty_l. destruct suf; cbn [regex_match];
      by destruct (match_here re _).
  - rewrite app_cons. cbn [regex_match].
    destruct (match_here re (String c (pre +:+ suf))); [done|]. apply IH.
Qed.

Lemma slash_p_atoms (mid : string) :
  atoms_accept (re_atoms re_slash_p) mid = true → mid = "/p" ∨ mid = "/P".
Proof.
  unfold re_slash_p. cbn [re_atoms].
  destruct mid as [|c1 [|c2 [|c3 mid]]]; cbn [atoms_accept]; try done.
  - by rewrite andb_false_r.
  - intros [H1 [H2 _]%andb_prop]%andb_prop.
    assert (c1 = "/"%char) as ->.
    { destruct c1 as [[] [] [] [] [] [] [] []]; by vm_compute in H1. }
    destruct c2 as [[] [] [] [] [] [] [] []]; vm_compute in H2;
      first [discriminate H2|by left|by right].
  - by rewrite !andb_false_r.
Qed.

(** A product code, when there is one, is a run of ASCII letters and digits
    that is not empty, is cut out of the link right after "/p" or "/P" or
    after "product/" or "product-" in any letter case, and goes on to the
    first character that is not a letter or a digit.  There is none only for
    a missing or empty link, or a link in which neither pattern matches at
    any position. *)
Theorem inferProductCode_sound (link : option string) :
  (∀ code,
     inferProductCode link = Some code →
     ∃ l pre mid rest,
       link = Some l
       ∧ l = pre +:+ mid +:+ code +:+ rest
       ∧ code ≠ ""
       ∧ all_chars alnum_ci code = true
       ∧ stops alnum_ci rest = true
       ∧ (mid = "/p" ∨ mid = "/P"
          ∨ atoms_accept (re_atoms re_product) mid = true))
  ∧ (inferProductCode link = None →
     link = None ∨ link = Some ""
     ∨ ∃ l, link = Some l
            ∧ ∀ pre suf, l = pre +:+ suf →
                         match_here re_slash_p suf = None
                         ∧ match_here re_product suf = None).
Proof.
  unfold inferProductCode. destruct link as [[|c l]|]; split; try done;
    try (by intros _; auto).
  - cbn [truthy_str]. intros code Hcode.
    destruct (regex_match re_slash_p (String c l)) as [g|] eqn:H1.
    + injection Hcode as ->.
      destruct (regex_match_sound _ _ _ H1)
        as (pre & mid & rest & Hl & Hmid & Hne & Hall & Hstop).
      exists (String c l), pre, mid, rest.
      apply slash_p_atoms in Hmid. split_and!; try done.
      destruct Hmid; auto.
    + destruct (regex_match_sound _ _ _ Hcode)
        as (pre & mid & rest & Hl & Hmid & Hne & Hall & Hstop).
      exists (String c l), pre, mid, rest. split_and!; auto.
  - cbn [truthy_str]. intros Hnone. right. right.
    exists (String c l). split; [done|]. intros pre suf Hl.
    destruct (regex_match re_slash_p (String c l)) eqn:H1; [done|].
    rewrite Hl in H1, Hnone. split; by eapply regex_match_none.
Qed.

Lemma inferProductCode_sound_witness :
  ∃ l pre mid rest,
    Some "https://www.toolstation.com/dewalt-drill/p60545?ref=1" = Some l
    ∧ l = pre +:+ mid +:+ "60545" +:+ rest
    ∧ all_chars alnum_ci "60545" = true
    ∧ stops alnum_ci rest = true.
Proof.
  destruct (proj1 (inferProductCode_sound
                     (Some "https://www.toolstation.com/dewalt-drill/p60545?ref=1"))
              "60545" ltac:(vm_compute; reflexivity))
    as (l & pre & mid & rest & H1 & H2 & _ & H3 & H4 & _).
  exists l, pre, mid, rest. split_and!; [exact H1|exact H2|exact H3|exact H4].
Defined.

(** ** Cards *)

(** What [extractCard] returns, field by field. *)
Lemma extractCard_fields (selectors : SelectorSet.t) (location_origin : string)
    (card : DOM.Node) (p : ProductSummary.t) :
  extractCard selectors location_origin card = Ok p →
  getTextContent card (SelectorSet.title selectors)
  = Ok (ProductSummary.title p)
  ∧ getTextContent card (SelectorSet.price selectors)
    = Ok (ProductSummary.price p)
  ∧ extractImage selectors card = Ok (ProductSummary.image p)
  ∧ extractLink selectors location_origin card = Ok (ProductSummary.url p)
  ∧ optionalText card (SelectorSet.brand selectors)
    = Ok (ProductSummary.brand p)
  ∧ optionalText card (SelectorSet.rating selectors)
    = Ok (ProductSummary.rating p)
  ∧ ProductSummary.productCode p = inferProductCode (ProductSummary.url p).
Proof.
  unfold extractCard, mbind, Res_bind, res_bind.
  destruct (getTextContent _ _) as [title|]; [|done].
  destruct (getTextContent _ _) as [price|]; [|done].
  destruct (extractImage _ _) as [image|]; [|done].
  destruct (extractLink _ _ _) as [link|]; [|done].
  destruct (optionalText _ (SelectorSet.brand _)) as [brand|]; [|done].
  destruct (optionalText _ (SelectorSet.rating _)) as [rating|]; [|done].
  by intros [= <-].
Qed.

(** The [url] of a product, [el] being the element that the link selector
    matches in the card, if any.  Without element or without [href] it is
    null; an empty [href] stays empty; an [href] that starts with "http" is
    kept; any other [href] is appended to the origin of the page.  The
    product code is inferred from this [url], and there is none when the
    [url] is null or empty. *)
Theorem extractCard_url (selectors : SelectorSet.t) (location_origin : string)
    (card : DOM.Node) (el : option DOM.Element) (p : ProductSummary.t) :
  DOM.querySelector card (SelectorSet.link selectors) = Ok el →
  extractCard selectors location_origin card = Ok p →
  (attribute_of el "href" = None →
   ProductSummary.url p = None ∧ ProductSummary.productCode p = None)
  ∧ (attribute_of el "href" = Some "" →
     ProductSummary.url p = Some "" ∧ ProductSummary.productCode p = None)
  ∧ (∀ href, attribute_of el "href" = Some href →
             startsWith href "http" = true →
             ProductSummary.url p = Some href)
  ∧ (∀ href, attribute_of el "href" = Some href → href ≠ "" →
             startsWith href "http" = false →
             ProductSummary.url p = Some (location_origin +:+ href))
  ∧ ProductSummary.productCode p = inferProductCode (ProductSummary.url p).
Proof.
  intros Hel Hcard.
  destruct (extractCard_fields _ _ _ _ Hcard)
    as (_ & _ & _ & Hlink & _ & _ & Hcode).
  revert Hlink. unfold extractLink, getAttribute, mbind, Res_bind, res_bind.
  rewrite Hel. cbn [res_bind].
  replace (match el with
           | Some e => DOM.getAttribute e "href"
           | None => None
           end) with (attribute_of el "href") by by destruct el.
  intros Hlink. split_and!; [| | | |done].
  - intros Hnone. rewrite Hnone in Hlink. injection Hlink as Hurl.
    by rewrite Hcode, <- Hurl.
  - intros Hempty. rewrite Hempty in Hlink. injection Hlink as Hurl.
    by rewrite Hcode, <- Hurl.
  - intros href Hhref Hhttp. rewrite Hhref, Hhttp in Hlink.
    rewrite andb_false_r in Hlink. by injection Hlink.
  - intros href Hhref Hne Hrel. rewrite Hhref, Hrel in Hlink.
    destruct href; [done|]. by injection Hlink.
Qed.

Lemma extractCard_url_witness :
  ∃ p, extractCard Acme.selectors "https://shop.example" Shop.linked = Ok p
       ∧ ProductSummary.url p = Some "https://shop.example/product/42".
Proof.
  destruct (extractCard Acme.selectors "https://shop.example" Shop.linked)
    as [p|] eqn:Hp; [|vm_compute in Hp; discriminate Hp].
  exists p. split; [reflexivity|].
  apply (proj1 (proj2 (proj2 (proj2
           (extractCard_url Acme.selectors "https://shop.example" Shop.linked
              (Some (Acme.leaf "" [("href", "/product/42")])) p eq_refl Hp))))
           "/product/42" eq_refl ltac:(discriminate) eq_refl).
Defined.

(** The optional fields.  When the brand selector (or the rating selector)
    is not given, or is the empty string, the brand (the rating) of every
    extracted product is null, whatever the card contains. *)
Theorem extractCard_optional_off (selectors : SelectorSet.t)
    (location_origin : string) (card : DOM.Node) (p : ProductSummary.t) :
  extractCard selectors location_origin card = Ok p →
  (truthy (SelectorSet.brand selectors) = false →
   ProductSummary.brand p = None)
  ∧ (truthy (SelectorSet.rating selectors) = false →
     ProductSummary.rating p = None)
  ∧ (∀ sel, SelectorSet.brand selectors = Some sel → sel ≠ "" →
            getTextContent card sel = Ok (ProductSummary.brand p))
  ∧ (∀ sel, SelectorSet.rating selectors = Some sel → sel ≠ "" →
            getTextContent card sel = Ok (ProductSummary.rating p)).
Proof.
  intros Hcard.
  destruct (extractCard_fields _ _ _ _ Hcard)
    as (_ & _ & _ & _ & Hbrand & Hrating & _).
  unfold optionalText in Hbrand, Hrating. split_and!.
  - destruct (SelectorSet.brand selectors) as [[|??]|]; try done;
      by injection Hbrand.
  - destruct (SelectorSet.rating selectors) as [[|??]|]; try done;
      by injection Hrating.
  - intros sel Hsel Hne. rewrite Hsel in Hbrand. by destruct sel.
  - intros sel Hsel Hne. rewrite Hsel in Hrating. by destruct sel.
Qed.

Lemma extractCard_optional_off_witness :
  ∃ p, extractCard Acme.selectors "https://acme.test" Acme.drill = Ok p
       ∧ ProductSummary.brand p = None ∧ ProductSummary.rating p = None.
Proof.
  destruct (extractCard Acme.selectors "https://acme.test" Acme.drill)
    as [p|] eqn:Hp; [|vm_compute in Hp; discriminate Hp].
  exists p. split; [reflexivity|].
  destruct (extractCard_optional_off Acme.selectors "https://acme.test"
              Acme.drill p Hp) as (Hb & Hr & _).
  split; [apply Hb|apply Hr]; reflexivity.
Defined.

(** ** The list of products *)






(** ** Trimmed text *)

Lemma rev_app_acc (s a b : string) :
  String.rev_app s (a +:+ b) = String.rev_app s a +:+ b.
Proof.
  revert a. induction s as [|c s IH]; intros a; [done|].
  cbn [String.rev_app]. by rewrite <- IH.
Qed.

Lemma rev_app_append (a b acc : string) :
  String.rev_app (a +:+ b) acc = String.rev_app b (String.rev_app a acc).
Proof.
  revert acc. induction a as [|c a IH]; intros acc; [done|].
  rewrite app_cons. cbn [String.rev_app]. apply IH.
Qed.

Lemma rev_append (a b : string) :
  String.rev (a +:+ b) = String.rev b +:+ String.rev a.
Proof.
  unfold String.rev. rewrite rev_app_append.
  by rewrite <- rev_app_acc, app_empty_l.
Qed.

Lemma rev_app_rev_app (s a b : string) :
  String.rev_app (String.rev_app s a) b = String.rev_app a (s +:+ b).
Proof.
  revert a b. induction s as [|c s IH]; intros a b; [done|].
  cbn [String.rev_app]. by rewrite IH.
Qed.

Lemma app_empty_r (s : string) : s +:+ "" = s.
Proof. induction s as [|c s IH]; [done|]. by rewrite app_cons, IH. Qed.

Lemma rev_involutive (s : string) : String.rev (String.rev s) = s.
Proof.
  unfold String.rev. rewrite rev_app_rev_app. cbn [String.rev_app].
  apply app_empty_r.
Qed.

Lemma length_rev_app (s a : string) :
  String.length (String.rev_app s a)
  = (String.length s + String.length a)%nat.
Proof.
  revert a. induction s as [|c s IH]; intros a; [done|].
  cbn [String.rev_app]. rewrite IH. simpl. lia.
Qed.

Lemma all_chars_rev_app (p : ascii → bool) (s a : string) :
  all_chars p (String.rev_app s a) = all_chars p s && all_chars p a.
Proof.
  revert a. induction s as [|c s IH]; intros a; [done|].
  cbn [String.rev_app all_chars]. rewrite IH. cbn [all_chars].
  by destruct (p c), (all_chars p s), (all_chars p a).
Qed.

Lemma strip_one_blank (c : ascii) (s : string) :
  is_blank c = true →
  strip_one white_space (String c s) = Some s
  ∧ strip_one (map String.rev white_space) (String c s) = Some s.
Proof.
  intros Hc.
  destruct c as [[] [] [] [] [] [] [] []]; vm_compute in Hc;
    try discriminate Hc; split; vm_compute; reflexivity.
Qed.

Lemma strip_one_graphic (c : ascii) (s : string) :
  is_graphic c = true →
  strip_one white_space (String c s) = None
  ∧ strip_one (map String.rev white_space) (String c s) = None.
Proof.
  intros Hc.
  destruct c as [[] [] [] [] [] [] [] []]; vm_compute in Hc;
    try discriminate Hc; split; vm_compute; reflexivity.
Qed.

Lemma trimStart_fuel_blanks (ws : list string) (n : nat) (l rest : string) :
  (∀ c s, is_blank c = true → strip_one ws (String c s) = Some s) →
  all_chars is_blank l = true →
  strip_one ws rest = None →
  (String.length l ≤ n)%nat →
  trimStart_fuel n ws (l +:+ rest) = rest.
Proof.
  intros Hblank Hl Hrest. revert n.
  induction l as [|c l IH]; intros n Hn.
  - rewrite app_empty_l. destruct n; simpl; [done|]. by rewrite Hrest.
  - cbn [all_chars] in Hl. apply andb_prop in Hl as [Hc Hl].
    destruct n as [|n]; [simpl in Hn; lia|].
    rewrite app_cons. cbn [trimStart_fuel]. rewrite (Hblank c _ Hc).
    apply IH; [done|]. simpl in Hn. lia.
Qed.

(** [trim] removes the blanks around a text and nothing else: a text that
    begins and ends with a printable character and is padded, on either
    side, with spaces, tabs and line breaks, is given back without the
    padding; a text made of such blanks only becomes the empty string. *)
Lemma trim_padding (l core r : string) :
  all_chars is_blank l = true →
  all_chars is_blank r = true →
  (core = ""
   ∨ ∃ a s z t, core = String a s ∧ core = t +:+ String z ""
                ∧ is_graphic a = true ∧ is_graphic z = true) →
  trim (l +:+ core +:+ r) = core.
Proof.
  intros Hl Hr Hcore.
  assert (∀ c s, is_blank c = true →
                 strip_one white_space (String c s) = Some s) as Hb1.
  { intros c s Hc. exact (proj1 (strip_one_blank c s Hc)). }
  assert (∀ c s, is_blank c = true →
                 strip_one (map String.rev white_space) (String c s) = Some s)
    as Hb2.
  { intros c s Hc. exact (proj2 (strip_one_blank c s Hc)). }
  unfold trim.
  destruct Hcore as [->|(a & s & z & t & Ha & Hz & Hga & Hgz)].
  - rewrite app_empty_l.
    assert (trimStart (l +:+ r) = "") as ->.
    { unfold trimStart. rewrite <- (app_empty_r (l +:+ r)) at 2.
      apply trimStart_fuel_blanks;
        [exact Hb1| |vm_compute; reflexivity|apply Nat.le_refl].
      rewrite <- (app_empty_r l) in Hl. clear -Hl Hr.
      induction l as [|c l IH]; [by rewrite app_empty_l|].
      rewrite app_cons. rewrite app_cons in Hl. cbn [all_chars] in *.
      apply andb_prop in Hl as [-> Hl]. by rewrite IH. }
    done.
  - assert (trimStart (l +:+ core +:+ r) = core +:+ r) as ->.
    { unfold trimStart. apply trimStart_fuel_blanks; [exact Hb1|exact Hl| |].
      - rewrite Ha, app_cons. exact (proj1 (strip_one_graphic a _ Hga)).
      - rewrite length_append. lia. }
    unfold trimEnd. rewrite rev_append.
    rewrite trimStart_fuel_blanks; [apply rev_involutive|exact Hb2| | |].
    + unfold String.rev. by rewrite all_chars_rev_app, Hr.
    + rewrite Hz, rev_append.
      change (String.rev (String z "")) with (String z "").
      rewrite app_cons. exact (proj2 (strip_one_graphic z _ Hgz)).
    + unfold String.rev. rewrite length_rev_app, length_append. simpl. lia.
Qed.

(** The text of a field is trimmed.  When the element that a selector
    matches in a card has a text padded with spaces, tabs and line breaks,
    the field is the text without the padding.  When the text of the title
    element consists of such blanks only, the title is the empty string and
    the card does not count as a product. *)
Theorem getTextContent_trims (card : DOM.Node) (selector : string)
    (e : DOM.Element) :
  DOM.querySelector card selector = Ok (Some e) →
  (∀ l core r a s z t,
     DOM.textContent e = l +:+ core +:+ r →
     all_chars is_blank l = true → all_chars is_blank r = true →
     core = String a s → core = t +:+ String z "" →
     is_graphic a = true → is_graphic z = true →
     getTextContent card selector = Ok (Some core))
  ∧ (all_chars is_blank (DOM.textContent e) = true →
     getTextContent card selector = Ok (Some "")
     ∧ ∀ selectors location_origin p,
         SelectorSet.title selectors = selector →
         extractCard selectors location_origin card = Ok p →
         ProductSummary.title p = Some "" ∧ has_title_and_price p = false).
Proof.
  intros He. unfold getTextContent, mbind, Res_bind, res_bind. rewrite He.
  split.
  - intros l core r a s z t Htext Hl Hr Ha Hz Hga Hgz.
    rewrite Htext, trim_padding; [done|done|done|].
    right. by exists a, s, z, t.
  - intros Hblank.
    assert (trim (DOM.textContent e) = "") as Htrim.
    { pose proof (trim_padding (DOM.textContent e) "" "" Hblank eq_refl
                    (or_introl eq_refl)) as H.
      by rewrite app_empty_l, app_empty_r in H. }
    rewrite Htrim. split; [done|].
    intros selectors origin p Hsel Hcard.
    destruct (extractCard_fields _ _ _ _ Hcard) as (Htitle & _).
    revert Htitle. unfold getTextContent, mbind, Res_bind, res_bind.
    rewrite Hsel, He, Htrim. intros [= Htitle].
    unfold has_title_and_price. by rewrite <- Htitle.
Qed.

Lemma getTextContent_trims_witness :
  getTextContent Acme.drill ".t" = Ok (Some "Drill")
  ∧ ∀ p, extractCard Acme.selectors "https://acme.test" Shop.untitled = Ok p →
         has_title_and_price p = false.
Proof.
  split.
  - apply (proj1 (getTextContent_trims Acme.drill ".t"
                    (Acme.leaf " Drill " []) eq_refl)
             " " "Drill" " " "D"%char "rill" "l"%char "Dril");
      reflexivity.
  - intros p Hp.
    apply (proj2 (proj2 (getTextContent_trims Shop.untitled ".t"
                           (Acme.leaf "   " []) eq_refl) eq_refl)
             Acme.selectors "https://acme.test" p eq_refl Hp).
Defined.

(** ** Product details *)

(** The [try] and [catch] blocks of [getProductDetails]. *)
Lemma getProductDetails_try (env : Env) (siteConfig : SiteConfig.t)
    (productUrl : string) (detailSelectors : DetailSelectorSet.t)
    (st : State) :
  ∃ evs,
    Forall (λ ev, inside_page ev = true) evs
    ∧ try_catch
        (driver (EvSetViewport 1920 1080) (setViewport env);;
         driver (EvSetUserAgent userAgent) (setUserAgent env);;
         driver (EvGoto productUrl 30000) (goto env productUrl);;
         emit (EvSetTimeout 2000);;
         let* product :=
           evaluate env (extractDetails (loaded env productUrl)
                                        detailSelectors) in
         ret (ProductDetail.Mk (SiteConfig.name siteConfig) productUrl product
                               (now_iso env)))
        (λ message,
           emit (EvConsoleError "Product details error:" message);;
           throw ("Failed to get product details: " +:+ message))
        st
      = (match detail_outcome env productUrl detailSelectors with
         | Ok fields =>
             Ok (ProductDetail.Mk (SiteConfig.name siteConfig) productUrl
                                  fields (now_iso env))
         | Throw cause => Throw ("Failed to get product details: " +:+ cause)
         end,
         MkState (browser st) (cache st) (objects st) (arrays st)
                 (log st ++ evs)).
Proof.
  unfold detail_outcome, driver, evaluate, try_catch, bind, emit, lift, ret,
    throw, mbind, Res_bind, res_bind.
  simpl.
  destruct (setViewport env) as [[]|m1]; simpl;
    [|eexists; split; [|by rewrite <- ?(assoc_L app)]; by repeat constructor].
  destruct (setUserAgent env) as [[]|m2]; simpl;
    [|eexists; split; [|by rewrite <- ?(assoc_L app)]; by repeat constructor].
  destruct (goto env productUrl) as [[]|m3]; simpl;
    [|eexists; split; [|by rewrite <- ?(assoc_L app)]; by repeat constructor].
  destruct (evaluateFault env) as [m4|]; simpl;
    [eexists; split; [|by rewrite <- ?(assoc_L app)]; by repeat constructor|].
  destruct (extractDetails _ _) as [fields|m5]; simpl;
    (eexists; split; [|by rewrite <- ?(assoc_L app)]; by repeat constructor).
Qed.

Lemma getProductDetails_run (env : Env) (siteConfig : SiteConfig.t)
    (productUrl : string) (detailSelectors : DetailSelectorSet.t)
    (st : State) :
  ∃ evs,
    Forall (λ ev, inside_page ev = true) evs
    ∧ getProductDetails env siteConfig productUrl detailSelectors st
      = after_details env siteConfig productUrl detailSelectors st
                      (request_calls env st evs).
Proof.
  unfold getProductDetails, after_details, request_calls, launched.
  unfold bind at 1 2. unfold init, try_finally.
  destruct (browser st) eqn:Hb.
  - unfold driver at 1 3, bind, emit, lift. simpl.
    destruct (newPage env) as [[]|m]; simpl;
      [|exists []; split; [done|]; by rewrite Hb].
    match goal with |- context [try_catch ?b ?h ?s] =>
      destruct (getProductDetails_try env siteConfig productUrl
                  detailSelectors s) as (evs & Hevs & Htry);
      match type of Htry with _ = ?rhs =>
        replace (try_catch b h s) with rhs by (symmetry; exact Htry) end
    end.
    simpl. exists evs. split; [done|]. rewrite Hb.
    destruct (closePage env) as [[]|]; simpl;
      by rewrite <- ?(assoc_L app).
  - unfold driver at 1 2 4, set_browser, bind, emit, lift. simpl.
    destruct (launch env) as [[]|m0]; simpl;
      [|exists []; split; [done|]; by rewrite Hb].
    destruct (newPage env) as [[]|m]; simpl;
      [|exists []; split; [done|]; by rewrite <- ?(assoc_L app)].
    match goal with |- context [try_catch ?b ?h ?s] =>
      destruct (getProductDetails_try env siteConfig productUrl
                  detailSelectors s) as (evs & Hevs & Htry);
      match type of Htry with _ = ?rhs =>
        replace (try_catch b h s) with rhs by (symmetry; exact Htry) end
    end.
    simpl. exists evs. split; [done|].
    destruct (closePage env) as [[]|]; simpl;
      by rewrite <- ?(assoc_L app).
Qed.

Lemma after_details_frame (env : Env) (siteConfig : SiteConfig.t)
    (productUrl : string) (detailSelectors : DetailSelectorSet.t)
    (st : State) (evs : list Event) :
  let st' := (after_details env siteConfig productUrl detailSelectors st
                            evs).2 in
  cache st' = cache st ∧ objects st' = objects st ∧ arrays st' = arrays st
  ∧ log st' = (log st ++ evs)%list.
Proof.
  unfold after_details. by repeat case_match.
Qed.

(** [getProductDetails] has no cache: in every outcome it leaves the cache
    and the stored results as they were, and whenever the browser is up or
    launched and a page can be opened it opens one page, uses it and closes
    it as its last call, so that repeating a call repeats the visit. *)
Theorem getProductDetails_never_caches (env : Env) (siteConfig : SiteConfig.t)
    (productUrl : string) (detailSelectors : DetailSelectorSet.t)
    (st : State) :
  ∃ r st' evs,
    getProductDetails env siteConfig productUrl detailSelectors st = (r, st')
    ∧ cache st' = cache st
    ∧ objects st' = objects st
    ∧ arrays st' = arrays st
    ∧ Forall (λ ev, inside_page ev = true) evs
    ∧ (launched env st = Ok () → newPage env = Ok () →
       log st'
       = (log st ++ (if browser st then [] else [EvLaunch])
          ++ [EvNewPage] ++ evs ++ [EvClosePage])%list).
Proof.
  destruct (getProductDetails_run env siteConfig productUrl detailSelectors st)
    as (evs & Hevs & Hrun).
  destruct (after_details_frame env siteConfig productUrl detailSelectors st
              (request_calls env st evs)) as (Hc & Ho & Ha & Hl).
  eexists _, _, evs. split; [rewrite Hrun; apply surjective_pairing|].
  split_and!; [done|done|done|done|].
  intros Hlaunch Hpage. rewrite Hl. unfold request_calls.
  by rewrite Hlaunch, Hpage.
Qed.

Lemma getProductDetails_result (env : Env) (siteConfig : SiteConfig.t)
    (productUrl : string) (detailSelectors : DetailSelectorSet.t)
    (st : State) :
  launched env st = Ok () →
  newPage env = Ok () →
  closePage env = Ok () →
  (getProductDetails env siteConfig productUrl detailSelectors st).1
  = match detail_outcome env productUrl detailSelectors with
    | Ok fields =>
        Ok (ProductDetail.Mk (SiteConfig.name siteConfig) productUrl fields
                             (now_iso env))
    | Throw cause => Throw ("Failed to get product details: " +:+ cause)
    end.
Proof.
  intros Hlaunch Hpage Hclose.
  destruct (getProductDetails_run env siteConfig productUrl detailSelectors st)
    as (evs & _ & ->).
  unfold after_details. by rewrite Hlaunch, Hpage, Hclose.
Qed.

Lemma getProductDetails_never_caches_witness :
  ∃ r st' evs,
    getProductDetails ProductPage.slow Acme.siteConfig ProductPage.productUrl
                      ProductPage.detailSelectors Acme.after_first
    = (r, st')
    ∧ cache st' = cache Acme.after_first
    ∧ log st'
      = (log Acme.after_first ++ [EvNewPage] ++ evs ++ [EvClosePage])%list.
Proof.
  destruct (getProductDetails_never_caches ProductPage.slow Acme.siteConfig
              ProductPage.productUrl ProductPage.detailSelectors
              Acme.after_first)
    as (r & st' & evs & Hrun & Hcache & _ & _ & _ & Hlog).
  exists r, st', evs.
  split_and!; [exact Hrun|exact Hcache|exact (Hlog eq_refl eq_refl)].
Defined.

(** The outcome of [getProductDetails] when the browser is up or launched,
    a page is opened and its closing succeeds.  If the page is set up and
    loaded and the fields are read, the result carries the site name, the URL
    as given, the fields and the time of the call.  If the navigation fails,
    or the evaluation in the page, the error is "Failed to get product
    details: <cause>" (the site is not named). *)
Theorem getProductDetails_outcome (env : Env) (siteConfig : SiteConfig.t)
    (productUrl : string) (detailSelectors : DetailSelectorSet.t)
    (st : State) :
  launched env st = Ok () →
  newPage env = Ok () →
  closePage env = Ok () →
  setViewport env = Ok () →
  setUserAgent env = Ok () →
  (∀ fields,
     goto env productUrl = Ok () →
     evaluateFault env = None →
     extractDetails (loaded env productUrl) detailSelectors = Ok fields →
     (getProductDetails env siteConfig productUrl detailSelectors st).1
     = Ok (ProductDetail.Mk (SiteConfig.name siteConfig) productUrl fields
                            (now_iso env)))
  ∧ (∀ cause,
       goto env productUrl = Throw cause →
       (getProductDetails env siteConfig productUrl detailSelectors st).1
       = Throw ("Failed to get product details: " +:+ cause))
  ∧ (∀ cause,
       goto env productUrl = Ok () →
       evaluateFault env = Some cause
       ∨ (evaluateFault env = None
          ∧ extractDetails (loaded env productUrl) detailSelectors
            = Throw cause) →
       (getProductDetails env siteConfig productUrl detailSelectors st).1
       = Throw ("Failed to get product details: " +:+ cause)).
Proof.
  intros Hlaunch Hpage Hclose Hview Hagent.
  rewrite (getProductDetails_result _ _ _ _ _ Hlaunch Hpage Hclose).
  unfold detail_outcome, mbind, Res_bind, res_bind.
  rewrite Hview, Hagent. simpl.
  split_and!.
  - intros fields -> -> ->. done.
  - intros cause ->. done.
  - intros cause -> [->|[-> ->]]; done.
Qed.

Lemma getProductDetails_outcome_witness :
  (getProductDetails (ProductPage.env ProductPage.doc) Acme.siteConfig
                     ProductPage.productUrl ProductPage.detailSelectors
                     constructor).1
  = Ok (ProductDetail.Mk "Acme" "https://acme.test/product/AB12"
          (DetailFields.Mk (Some "DeWalt Drill") (Some "119.98") None None None
             [JStr "https://acme.test/a.png"; JStr "https://acme.test/b.png";
              JStr "https://cdn.acme.test/c.png"] None)
          "2026-02-16T12:00:00.000Z")
  ∧ (getProductDetails ProductPage.slow Acme.siteConfig ProductPage.productUrl
                       ProductPage.detailSelectors constructor).1
    = Throw "Failed to get product details: Navigation timeout of 30000 ms exceeded".
Proof.
  split.
  - apply (proj1 (getProductDetails_outcome (ProductPage.env ProductPage.doc)
                    Acme.siteConfig ProductPage.productUrl
                    ProductPage.detailSelectors constructor
                    eq_refl eq_refl eq_refl eq_refl eq_refl));
      [reflexivity|reflexivity|vm_compute; reflexivity].
  - apply (proj1 (proj2 (getProductDetails_outcome ProductPage.slow
                           Acme.siteConfig ProductPage.productUrl
                           ProductPage.detailSelectors constructor
                           eq_refl eq_refl eq_refl eq_refl eq_refl))).
    reflexivity.
Defined.






(** * Properties of the HTTP routes *)

(** [authenticate] lets a request through exactly when its x-api-key header
    is a non-empty string equal to the configured key.  So when no key is
    configured, or an empty one, every request is refused; and a refused
    request is answered 401 by the search route and by the cache route
    without touching the scraper. *)
Theorem authenticate_guard (API_KEY apiKey : option string) :
  (Server.authenticate API_KEY apiKey = true
   ↔ ∃ key, key ≠ "" ∧ apiKey = Some key ∧ API_KEY = Some key)
  ∧ (API_KEY = None ∨ API_KEY = Some "" →
     Server.authenticate API_KEY apiKey = false)
  ∧ (Server.authenticate API_KEY apiKey = false →
     (∀ env b st,
        Server.postSearch API_KEY apiKey env b st
        = (Ok Server.unauthorized, st))
     ∧ ∀ st,
         Server.postCacheClear API_KEY apiKey st
         = (Ok Server.unauthorized, st)).
Proof.
  assert (Server.authenticate API_KEY apiKey = true
          ↔ ∃ key, key ≠ "" ∧ apiKey = Some key ∧ API_KEY = Some key) as Hiff.
  { unfold Server.authenticate. split.
    - destruct apiKey as [[|c key]|]; simpl; try done.
      case_bool_decide as Heq; [|done]. intros _.
      exists (String c key). by split_and!.
    - intros (key & Hne & -> & ->). destruct key; [done|]. simpl.
      by rewrite bool_decide_eq_true_2. }
  split_and!; [exact Hiff| |].
  - intros HK. apply not_true_is_false. intros Ha.
    apply Hiff in Ha as (key & Hne & _ & HKey).
    destruct HK as [HK|HK]; rewrite HK in HKey; [done|].
    injection HKey as <-. done.
  - intros Hno. unfold Server.postSearch, Server.postCacheClear.
    by rewrite Hno.
Qed.

Lemma authenticate_guard_witness :
  Server.authenticate (Some "s3cret") (Some "s3cret") = true
  ∧ Server.authenticate None (Some "s3cret") = false
  ∧ Server.postSearch (Some "s3cret") (Some "guess") (Acme.env 0 [])
                      Server.example Acme.after_first
    = (Ok Server.unauthorized, Acme.after_first).
Proof.
  split_and!.
  - apply (proj1 (authenticate_guard (Some "s3cret") (Some "s3cret"))).
    exists "s3cret". by split_and!.
  - apply (proj1 (proj2 (authenticate_guard None (Some "s3cret")))).
    by left.
  - apply (proj2 (proj2 (authenticate_guard (Some "s3cret") (Some "guess")))).
    reflexivity.
Defined.

Lemma first_missing_none (fields : list (string * bool)) :
  Server.first_missing fields = None ↔ Forall (λ f, f.2 = true) fields.
Proof.
  induction fields as [|[f present] fields IH]; simpl.
  - by split.
  - rewrite Forall_cons. simpl. destruct present.
    + rewrite IH. split; [by intros ?|by intros [_ ?]].
    + split; [done|by intros [? _]].
Qed.

Lemma truthy_present (v : option string) :
  truthy v = true → ∃ s, v = Some s ∧ s ≠ "".
Proof. destruct v as [[|c s]|]; try done. intros _. by eexists. Qed.

(** The checks of the search route.  A body is accepted exactly when it has
    a site configuration with a non-empty name, URL template and the five
    required selectors, and a non-empty query; the scraper is then called with
    these values, the optional selectors as given, and page 1 when no page is
    given.  Every other body is answered 400 with a message that starts with
    "Missing required", and the scraper is not touched: no call to the
    browser, no change to the cache. *)
Theorem search_route_validation (b : Server.SearchBody) :
  (∀ c q p,
     Server.validate b = inr (c, q, p) ↔
     ∃ raw s,
       Server.siteConfig b = Some raw
       ∧ Server.selectors raw = Some s
       ∧ Server.name raw = Some (SiteConfig.name c)
       ∧ Server.searchUrl raw = Some (SiteConfig.searchUrl c)
       ∧ SiteConfig.selectors c = Server.toSelectorSet s
       ∧ Server.productCard s = Some (SelectorSet.productCard (SiteConfig.selectors c))
       ∧ Server.title s = Some (SelectorSet.title (SiteConfig.selectors c))
       ∧ Server.price s = Some (SelectorSet.price (SiteConfig.selectors c))
       ∧ Server.image s = Some (SelectorSet.image (SiteConfig.selectors c))
       ∧ Server.link s = Some (SelectorSet.link (SiteConfig.selectors c))
       ∧ Server.query b = Some q
       ∧ p = default 1%Z (Server.page b)
       ∧ Forall (λ v, v ≠ "")
           [SiteConfig.name c; SiteConfig.searchUrl c; q;
            SelectorSet.productCard (SiteConfig.selectors c);
            SelectorSet.title (SiteConfig.selectors c);
            SelectorSet.price (SiteConfig.selectors c);
            SelectorSet.image (SiteConfig.selectors c);
            SelectorSet.link (SiteConfig.selectors c)])
  ∧ (∀ error,
       Server.validate b = inl error →
       startsWith error "Missing required" = true
       ∧ ∀ env st,
           Server.searchHandler env b st
           = (Ok (Server.MkResponse 400 (Server.BError error)), st))
  ∧ (Server.siteConfig b = None ∨ truthy (Server.query b) = false →
     Server.validate b = inl "Missing required fields: siteConfig and query").
Proof.
  split_and!.
  - intros c q p. unfold Server.validate. split.
    + destruct (Server.siteConfig b) as [raw|]; [|done].
      destruct (truthy (Server.query b)) eqn:Hq; [|done].
      destruct (Server.first_missing (Server.requiredFields raw)) eqn:Hf;
        [done|].
      destruct (Server.first_missing (Server.requiredSelectors _)) eqn:Hs;
        [done|].
      intros [= <- <- <-].
      apply first_missing_none in Hf. apply first_missing_none in Hs.
      unfold Server.requiredFields in Hf. unfold Server.requiredSelectors in Hs.
      rewrite !Forall_cons in Hf. rewrite !Forall_cons in Hs. simpl in Hf, Hs.
      destruct Hf as (Hn & Hu & Hsel & _).
      destruct Hs as (H1 & H2 & H3 & H4 & H5 & _).
      apply bool_decide_eq_true_1 in Hsel as [s Hsel].
      rewrite Hsel in *. simpl in *.
      apply truthy_present in Hn as (n & Hn & ?), Hu as (u & Hu & ?),
        Hq as (q & Hq & ?), H1 as (s1 & H1 & ?), H2 as (s2 & H2 & ?),
        H3 as (s3 & H3 & ?), H4 as (s4 & H4 & ?), H5 as (s5 & H5 & ?).
      exists raw, s. unfold Server.toSiteConfig, Server.toSelectorSet.
      rewrite Hsel, Hn, Hu, Hq, H1, H2, H3, H4, H5. simpl.
      split_and!; rewrite ?H1, ?H2, ?H3, ?H4, ?H5; simpl; try done.
      by repeat constructor.
    + intros (raw & s & -> & Hsel & Hn & Hu & Hc & H1 & H2 & H3 & H4 & H5
              & Hq & -> & Hall).
      rewrite !Forall_cons in Hall.
      destruct Hall as (? & ? & ? & ? & ? & ? & ? & ? & _).
      assert (∀ v, v ≠ "" → truthy_str v = true) as Ht.
      { by intros [|??]. }
      rewrite Hq. cbn [truthy]. rewrite Ht by done.
      unfold Server.requiredFields, Server.requiredSelectors.
      rewrite Hsel, Hn, Hu. simpl. rewrite H1, H2, H3, H4, H5. simpl.
      rewrite !Ht by done. rewrite ?bool_decide_eq_true_2 by by eexists.
      simpl. unfold Server.toSiteConfig. rewrite Hsel, Hn, Hu. simpl.
      rewrite <- Hc. by destruct c.
  - intros error Herror. split.
    + revert Herror. unfold Server.validate.
      repeat case_match; by intros [= <-].
    + intros env st. unfold Server.searchHandler, try_catch, ret.
      by rewrite Herror.
  - unfold Server.validate. intros [->|Hq]; [done|].
    destruct (Server.siteConfig b); [|done]. by rewrite Hq.
Qed.

Lemma search_route_validation_witness :
  Server.validate Server.example = inr (Acme.siteConfig, "drill", 1%Z)
  ∧ Server.searchHandler (Acme.env 0 [])
      (Server.MkSearchBody (Server.siteConfig Server.example) (Some "") None)
      Acme.after_first
    = (Ok (Server.MkResponse 400
             (Server.BError "Missing required fields: siteConfig and query")),
       Acme.after_first).
Proof.
  split.
  - apply (proj1 (search_route_validation Server.example)).
    eexists _, _. split_and!; try reflexivity.
    repeat constructor; discriminate.
  - apply (proj1 (proj2 (search_route_validation
                           (Server.MkSearchBody
                              (Server.siteConfig Server.example) (Some "")
                              None)))).
    reflexivity.
Defined.

(** The answers of the search route to an accepted body.  When
    [scraper.search] returns, the answer is 200 with the returned object;
    when it throws, the error is logged and the answer is 500 with the error
    "Scraping failed" and the message of what was thrown, and nothing else
    changes.  The handler itself never throws, whatever the body. *)
Theorem search_route_responses (env : Env) (b : Server.SearchBody)
    (st : State) :
  (∃ response st', Server.searchHandler env b st = (Ok response, st')
                   ∧ Server.status response ∈ [200; 400; 500])
  ∧ ∀ c q p,
      Server.validate b = inr (c, q, p) →
      (∀ ref st',
         search env c q p st = (Ok ref, st') →
         Server.searchHandler env b st
         = (Ok (Server.MkResponse 200 (Server.BResult ref)), st'))
      ∧ (∀ message st',
           search env c q p st = (Throw message, st') →
           Server.searchHandler env b st
           = (Ok (Server.MkResponse 500
                    (Server.BFailure "Scraping failed" message)),
              MkState (browser st') (cache st') (objects st') (arrays st')
                      (log st' ++ [EvConsoleError "Search error:" message]))).
Proof.
  assert (∀ c q p,
            Server.validate b = inr (c, q, p) →
            Server.searchHandler env b st
            = match search env c q p st with
              | (Ok ref, st') =>
                  (Ok (Server.MkResponse 200 (Server.BResult ref)), st')
              | (Throw message, st') =>
                  (Ok (Server.MkResponse 500
                         (Server.BFailure "Scraping failed" message)),
                   MkState (browser st') (cache st') (objects st')
                           (arrays st')
                           (log st' ++ [EvConsoleError "Search error:" message]))
              end) as Hrun.
  { intros c q p Hv. unfold Server.searchHandler, try_catch, bind, ret, emit.
    rewrite Hv. by destruct (search env c q p st) as [[ref|message] st']. }
  split.
  - destruct (Server.validate b) as [error|[[c q] p]] eqn:Hv.
    + eexists _, _. split.
      * unfold Server.searchHandler, try_catch, ret. by rewrite Hv.
      * simpl. set_solver.
    + rewrite (Hrun c q p eq_refl).
      destruct (search env c q p st) as [[ref|message] st'];
        eexists _, _; (split; [done|simpl; set_solver]).
  - intros c q p Hv. rewrite (Hrun c q p Hv). split.
    + by intros ref st' ->.
    + by intros message st' ->.
Qed.

Lemma search_route_responses_witness :
  (Server.searchHandler (Acme.offline 3600000) Server.example
                        Acme.after_first).1
  = Ok (Server.MkResponse 500
          (Server.BFailure "Scraping failed"
             "Failed to scrape Acme: net::ERR_NAME_NOT_RESOLVED"))
  ∧ (Server.searchHandler (Acme.offline 5) Server.example Acme.after_first).1
    = Ok (Server.MkResponse 200 (Server.BResult 1)).
Proof.
  pose proof (search_route_responses (Acme.offline 3600000) Server.example
                Acme.after_first) as [_ Hlate].
  pose proof (search_route_responses (Acme.offline 5) Server.example
                Acme.after_first) as [_ Hsoon].
  split.
  - destruct (Hlate Acme.siteConfig "drill" 1%Z eq_refl) as [_ Hthrow].
    rewrite (Hthrow "Failed to scrape Acme: net::ERR_NAME_NOT_RESOLVED"
               (search (Acme.offline 3600000) Acme.siteConfig "drill" 1
                       Acme.after_first).2 ltac:(vm_compute; reflexivity)).
    reflexivity.
  - destruct (Hsoon Acme.siteConfig "drill" 1%Z eq_refl) as [Hok _].
    rewrite (Hok 1 (search (Acme.offline 5) Acme.siteConfig "drill" 1
                           Acme.after_first).2 ltac:(vm_compute; reflexivity)).
    reflexivity.
Defined.
